(** * Expense splitter: share allocation, reconciliation and balances

    A shallow embedding of [backend/app/routes/expenses.py],
    [backend/app/routes/balances.py], [backend/app/routes/members.py] and of
    the tables of [backend/app/models.py].

    Modelling conventions.
    - A Python [Decimal] is a signed coefficient and an exponent; arithmetic
      is exact.  Python's context carries 28 significant digits, which is
      exact for the amounts the columns [Numeric(10, 2)] admit; NaN,
      infinities and the sign of zero are left out.
    - The database is a record of tables (lists of rows).  A handler takes
      the committed database and returns either the database it commits or
      the exception it raises; a raised exception commits nothing.
    - [db.session.delete] and [db.session.add] take effect in program order,
      and [db.session.commit] checks the unique constraints of the tables.
    - Primary keys are handed out above every key in the table.
    - The bookkeeping columns [created_at] and [updated_at] of an expense,
      which no handler reads, are left out. *)

From Stdlib Require Import ZArith List String Ascii Bool Lia.
From Stdlib Require Import DecimalString.
Import ListNotations.

Open Scope Z_scope.

(** ** Exceptions and the result of a handler *)

(** [abort(status, message=...)] of flask_smorest, marshmallow's
    [ValidationError] and the database's [IntegrityError]. *)
Inductive Error : Type :=
| Abort (status : Z) (message : string)
| ValidationError (message : string) (field_name : string)
| IntegrityError (constraint : string).

Inductive Result (A : Type) : Type :=
| Ok (a : A)
| Raise (e : Error).

Arguments Ok {A} a.
Arguments Raise {A} e.

Definition bind {A B : Type} (r : Result A) (k : A -> Result B) : Result B :=
  match r with
  | Ok a => k a
  | Raise e => Raise e
  end.

Declare Scope result_scope.
Delimit Scope result_scope with result.
Notation "x <- r ;; k" := (bind r (fun x => k))
  (at level 100, r at next level, right associativity) : result_scope.
Notation "r ;;; k" := (bind r (fun _ => k))
  (at level 100, right associativity) : result_scope.
Open Scope result_scope.

Definition abort {A : Type} (status : Z) (message : string) : Result A :=
  Raise (Abort status message).


(** [str(n)] for a Python int. *)
Definition str_int (n : Z) : string := NilZero.string_of_int (Z.to_int n).

(** ** Decimal *)

Module Decimal.

(** The number [coeff * 10 ^ expo]. *)
Record t : Type := mk { coeff : Z; expo : Z }.

(** [Decimal(n)] for an int [n]. *)
Definition of_int (n : Z) : t := mk n 0.

(** [Decimal("0")] and [Decimal("0.01")]. *)
Definition zero : t := of_int 0.
Definition cent : t := mk 1 (-2).

(** The coefficient of [d] written at the exponent [m <= expo d]. *)
Definition coeff_at (m : Z) (d : t) : Z := coeff d * 10 ^ (expo d - m).

Definition add (a b : t) : t :=
  let m := Z.min (expo a) (expo b) in
  mk (coeff_at m a + coeff_at m b) m.

Definition sub (a b : t) : t :=
  let m := Z.min (expo a) (expo b) in
  mk (coeff_at m a - coeff_at m b) m.

Definition mul (a b : t) : t :=
  mk (coeff a * coeff b) (expo a + expo b).

Definition compare (a b : t) : comparison :=
  let m := Z.min (expo a) (expo b) in
  Z.compare (coeff_at m a) (coeff_at m b).

(** [a == b], [a <= b] and [a > b]: by value, whatever the exponents. *)
Definition eqb (a b : t) : bool :=
  match compare a b with Eq => true | _ => false end.

Definition leb (a b : t) : bool :=
  match compare a b with Gt => false | _ => true end.

Definition ltb (a b : t) : bool :=
  match compare a b with Lt => true | _ => false end.

Inductive rounding : Type := ROUND_DOWN | ROUND_HALF_EVEN.

(** [c / d] for [0 < d], rounded to an integer: toward zero, or to the
    nearest integer with ties to the even one. *)
Definition round_div (r : rounding) (c d : Z) : Z :=
  match r with
  | ROUND_DOWN => Z.quot c d
  | ROUND_HALF_EVEN =>
      let q := c / d in
      let m := c mod d in
      if 2 * m <? d then q
      else if d <? 2 * m then q + 1
      else if Z.even q then q else q + 1
  end.

(** [d.quantize(e, rounding=r)]: [d] at the exponent of [e]. *)
Definition quantize (d e : t) (r : rounding) : t :=
  let m := expo e in
  if m <=? expo d then mk (coeff_at m d) m
  else mk (round_div r (coeff d) (10 ^ (m - expo d))) m.

(** [(a / n).quantize(e, rounding=r)] for an int [0 < n]: the exact
    quotient at the exponent of [e]. *)
Definition div_quantize (a : t) (n : Z) (e : t) (r : rounding) : t :=
  let m := expo e in
  if m <=? expo a then mk (round_div r (coeff_at m a) n) m
  else mk (round_div r (coeff a) (n * 10 ^ (m - expo a))) m.

(** [int(d)]: truncation toward zero. *)
Definition to_int (d : t) : Z :=
  if 0 <=? expo d then coeff_at 0 d
  else Z.quot (coeff d) (10 ^ (- expo d)).

(** [sum] of a list of decimals, starting from [Decimal("0")]. *)
Definition sum (l : list t) : t := fold_left add l zero.

(** [d or 0]: a zero decimal is falsy. *)
Definition or_zero (d : t) : t :=
  if coeff d =? 0 then of_int 0 else d.

End Decimal.

(** [Decimal("0.01")] as the quantum of money. *)
Definition two_places : Decimal.t := Decimal.cent.

(** ** Tables of [models.py] *)

Definition datetime : Type := Z.

Module User.
Record t : Type := mk {
  id : Z;
  name : string;
  email : option string;
  phone : option string;
  created_at : datetime
}.
End User.

Module Group.
Record t : Type := mk {
  id : Z;
  name : string;
  created_at : datetime;
  created_by_user_id : option Z
}.
End Group.

Module GroupMember.
Record t : Type := mk {
  id : Z;
  group_id : Z;
  user_id : Z;
  role : option string;
  joined_at : datetime
}.
End GroupMember.

Module Expense.
Record t : Type := mk {
  id : Z;
  group_id : Z;
  paid_by_user_id : option Z;
  description : string;
  amount : Decimal.t;
  expense_date : datetime;
  receipt_filename : option string;
  receipt_mime_type : option string
}.
End Expense.

Module ExpenseShare.
(** [id] and [expense_id] are [None] on an object that no session has
    flushed yet; [is_settled] carries the column default [False]. *)
Record t : Type := mk {
  id : option Z;
  expense_id : option Z;
  user_id : Z;
  amount : Decimal.t;
  is_settled : bool
}.

(** [ExpenseShare(user_id=uid, amount=amt)]. *)
Definition new (uid : Z) (amt : Decimal.t) : t :=
  mk None None uid amt false.
End ExpenseShare.

Record DB : Type := mkDB {
  users : list User.t;
  groups : list Group.t;
  group_members : list GroupMember.t;
  expenses : list Expense.t;
  expense_shares : list ExpenseShare.t
}.

(** ** Queries *)

(** [Group.query.get(group_id)], [Expense.query.get(expense_id)] and
    [User.query.get(user_id)]. *)
Definition Group_get (db : DB) (group_id : Z) : option Group.t :=
  find (fun g => Group.id g =? group_id) (groups db).

Definition Expense_get (db : DB) (expense_id : Z) : option Expense.t :=
  find (fun e => Expense.id e =? expense_id) (expenses db).

Definition User_get (db : DB) (user_id : Z) : option User.t :=
  find (fun u => User.id u =? user_id) (users db).

(** [GroupMember.query.filter_by(group_id=group_id).all()]. *)
Definition GroupMember_of_group (db : DB) (group_id : Z)
    : list GroupMember.t :=
  filter (fun gm => GroupMember.group_id gm =? group_id) (group_members db).

(** [GroupMember.query.filter_by(group_id=group_id,
    user_id=user_id).first()]. *)
Definition GroupMember_first (db : DB) (group_id user_id : Z)
    : option GroupMember.t :=
  find (fun gm => (GroupMember.group_id gm =? group_id)
                  && (GroupMember.user_id gm =? user_id))
       (group_members db).

Definition key_is (k : option Z) (n : Z) : bool :=
  match k with
  | Some m => m =? n
  | None => false
  end.

(** [expense.shares]: the rows of [expense_shares] that point to the
    expense. *)
Definition shares_of (db : DB) (expense_id : Z) : list ExpenseShare.t :=
  filter (fun sh => key_is (ExpenseShare.expense_id sh) expense_id)
         (expense_shares db).

(** [ExpenseShare.query.filter_by(id=share_id,
    expense_id=expense_id).first()]. *)
Definition is_share (share_id expense_id : Z) (sh : ExpenseShare.t) : bool :=
  key_is (ExpenseShare.id sh) share_id
  && key_is (ExpenseShare.expense_id sh) expense_id.

Definition ExpenseShare_first (db : DB) (share_id expense_id : Z)
    : option ExpenseShare.t :=
  find (is_share share_id expense_id) (expense_shares db).

(** ** The session *)

(** The key the database gives to a new row. *)
Definition next_id (ids : list Z) : Z := 1 + fold_right Z.max 0 ids.

Definition share_ids (l : list ExpenseShare.t) : list Z :=
  flat_map (fun sh => match ExpenseShare.id sh with
                      | Some i => [i]
                      | None => []
                      end) l.

Definition set_shares (db : DB) (l : list ExpenseShare.t) : DB :=
  mkDB (users db) (groups db) (group_members db) (expenses db) l.

Definition set_expenses (db : DB) (l : list Expense.t) : DB :=
  mkDB (users db) (groups db) (group_members db) l (expense_shares db).

Definition set_group_members (db : DB) (l : list GroupMember.t) : DB :=
  mkDB (users db) (groups db) l (expenses db) (expense_shares db).

Definition same_key (k1 k2 : option Z) : bool :=
  match k1, k2 with
  | Some a, Some b => a =? b
  | None, None => true
  | _, _ => false
  end.

(** [db.session.delete(old)] for a share: the row with its key goes. *)
Definition delete_share (db : DB) (old : ExpenseShare.t) : DB :=
  set_shares db
    (filter (fun sh => negb (same_key (ExpenseShare.id sh)
                                      (ExpenseShare.id old)))
            (expense_shares db)).

(** [new.expense = expense; db.session.add(new)]. *)
Definition add_share (db : DB) (expense : Expense.t) (new : ExpenseShare.t)
    : DB :=
  set_shares db
    (expense_shares db ++
     [ExpenseShare.mk (Some (next_id (share_ids (expense_shares db))))
                      (Some (Expense.id expense))
                      (ExpenseShare.user_id new)
                      (ExpenseShare.amount new)
                      (ExpenseShare.is_settled new)]).

(** The unique constraints [uq_expense_share_expense_user] and
    [uq_group_member_group_user]. *)
Fixpoint unique_pairs (l : list (option Z * Z)) : bool :=
  match l with
  | [] => true
  | (a, b) :: rest =>
      negb (existsb (fun p => match a, fst p with
                              | Some x, Some y => (x =? y) && (b =? snd p)
                              | _, _ => false
                              end) rest)
      && unique_pairs rest
  end.

Definition uq_expense_share_expense_user (db : DB) : bool :=
  unique_pairs
    (map (fun sh => (ExpenseShare.expense_id sh, ExpenseShare.user_id sh))
         (expense_shares db)).

Definition uq_group_member_group_user (db : DB) : bool :=
  unique_pairs
    (map (fun gm => (Some (GroupMember.group_id gm), GroupMember.user_id gm))
         (group_members db)).

(** [db.session.commit()]. *)
Definition commit (db : DB) : Result DB :=
  if negb (uq_expense_share_expense_user db)
  then Raise (IntegrityError "uq_expense_share_expense_user")
  else if negb (uq_group_member_group_user db)
  then Raise (IntegrityError "uq_group_member_group_user")
  else Ok db.

(** ** The split allocator, [_equal_split] *)

(** The loop over [enumerate(user_ids)], with [remainder_cents] as its
    state. *)
Fixpoint equal_split_loop (base : Decimal.t) (remainder_cents : Z)
    (user_ids : list Z) : list ExpenseShare.t :=
  match user_ids with
  | [] => []
  | uid :: rest =>
      if 0 <? remainder_cents
      then ExpenseShare.new uid (Decimal.add base (Decimal.cent))
             :: equal_split_loop base (remainder_cents - 1) rest
      else ExpenseShare.new uid base
             :: equal_split_loop base remainder_cents rest
  end.

Definition _equal_split (amount : Decimal.t) (user_ids : list Z)
    : Result (list ExpenseShare.t) :=
  let n := Z.of_nat (List.length user_ids) in
  if n =? 0
  then abort 400 "Cannot split expense: the group has no members"
  else
    let base :=
      Decimal.div_quantize amount n two_places Decimal.ROUND_DOWN in
    let subtotal := Decimal.mul base (Decimal.of_int n) in
    let remainder_cents :=
      Decimal.to_int
        (Decimal.mul (Decimal.sub amount subtotal) (Decimal.of_int 100)) in
    Ok (equal_split_loop base remainder_cents user_ids).


(** ** Request schemas *)

(** [_to_decimal]: the fields are [fields.Decimal], so the value is a
    [Decimal] already and comes back as it is. *)
Definition _to_decimal (value : Decimal.t) : Decimal.t := value.

Module ShareInputSchema.
Record t : Type := mk { user_id : Z; amount : Decimal.t }.
End ShareInputSchema.

(** [validate.Length(min=lo, max=hi)] on the field [field_name], with the
    message marshmallow gives for these bounds. *)
Definition validate_Length (lo hi : nat) (message field_name s : string)
    : Result unit :=
  if (Nat.leb lo (String.length s) && Nat.leb (String.length s) hi)%bool
  then Ok tt
  else Raise (ValidationError message field_name).

Definition description_length : string :=
  "Length must be between 1 and 255.".

Definition role_length : string := "Longer than maximum length 50.".

Module ExpenseCreateSchema.
(** [paid_by_user_id], [expense_date] and [shares] are [None] when the
    payload leaves them out (or, for the first two, gives null). *)
Record t : Type := mk {
  description : string;
  amount : Decimal.t;
  paid_by_user_id : option Z;
  expense_date : option datetime;
  shares : option (list ShareInputSchema.t)
}.

(** The loop of [validate_shares]. *)
Fixpoint validate_positive (shares : list ShareInputSchema.t)
    : Result unit :=
  match shares with
  | [] => Ok tt
  | s :: rest =>
      if Decimal.leb (_to_decimal (ShareInputSchema.amount s))
                     Decimal.zero
      then Raise (ValidationError "Share amount must be positive" "shares")
      else validate_positive rest
  end.

Definition validate_shares (data : t) : Result unit :=
  match shares data with
  | None => Ok tt
  | Some l => validate_positive l
  end.

(** What [@blp.arguments(ExpenseCreateSchema)] does with the payload:
    the validators of the fields, then [validate_shares]. *)
Definition load (data : t) : Result t :=
  validate_Length 1 255 description_length "description" (description data) ;;;
  validate_shares data ;;;
  Ok data.
End ExpenseCreateSchema.

Module ExpenseUpdateSchema.
(** A field is [None] when the payload leaves it out; [paid_by_user_id]
    and [expense_date] may also be given as null. *)
Record t : Type := mk {
  description : option string;
  amount : option Decimal.t;
  paid_by_user_id : option (option Z);
  expense_date : option (option datetime);
  shares : option (list ShareInputSchema.t)
}.

Definition load (data : t) : Result t :=
  match description data with
  | Some d => validate_Length 1 255 description_length "description" d
  | None => Ok tt
  end ;;;
  Ok data.
End ExpenseUpdateSchema.

(** [str.strip()]. *)
Definition is_space (c : ascii) : bool :=
  let n := nat_of_ascii c in
  ((Nat.leb 9 n && Nat.leb n 13) || (Nat.leb 28 n && Nat.leb n 32))%bool.

Fixpoint lstrip (s : string) : string :=
  match s with
  | EmptyString => EmptyString
  | String c rest => if is_space c then lstrip rest else s
  end.

Fixpoint rstrip (s : string) : string :=
  match s with
  | EmptyString => EmptyString
  | String c rest =>
      match rstrip rest with
      | EmptyString => if is_space c then EmptyString
                       else String c EmptyString
      | rest' => String c rest'
      end
  end.

Definition strip (s : string) : string := rstrip (lstrip s).

(** ** The share reconciler, [_replace_shares] *)

Definition _ensure_user_in_group (db : DB) (group_id : Z)
    (user_id : option Z) : Result unit :=
  match user_id with
  | None => Ok tt
  | Some uid =>
      match GroupMember_first db group_id uid with
      | Some _ => Ok tt
      | None => abort 400 "paid_by_user_id must be a member of the group"
      end
  end.

(** The loop over the supplied shares, with [shares_objs] and [total] as
    its state. *)
Fixpoint explicit_shares_loop (db : DB) (group_id : Z)
    (new_shares : list ShareInputSchema.t)
    (shares_objs : list ExpenseShare.t) (total : Decimal.t)
    : Result (list ExpenseShare.t * Decimal.t) :=
  match new_shares with
  | [] => Ok (shares_objs, total)
  | s :: rest =>
      let uid := ShareInputSchema.user_id s in
      let amt := Decimal.quantize (_to_decimal (ShareInputSchema.amount s))
                   two_places Decimal.ROUND_HALF_EVEN in
      match GroupMember_first db group_id uid with
      | None =>
          abort 400
            ("user_id " ++ str_int uid ++ " is not a member of the group")
      | Some _ =>
          explicit_shares_loop db group_id rest
            (shares_objs ++ [ExpenseShare.new uid amt])
            (Decimal.add total amt)
      end
  end.

(** The objects [_replace_shares] is about to install. *)
Definition new_share_objects (db : DB) (expense : Expense.t)
    (new_shares : option (list ShareInputSchema.t))
    : Result (list ExpenseShare.t) :=
  let amount := Expense.amount expense in
  match new_shares with
  | None =>
      let member_ids :=
        map GroupMember.user_id
            (GroupMember_of_group db (Expense.group_id expense)) in
      _equal_split amount member_ids
  | Some l =>
      r <- explicit_shares_loop db (Expense.group_id expense) l []
             Decimal.zero ;;
      let '(shares_objs, total) := r in
      if negb (Decimal.eqb total amount)
      then abort 400 "Sum of shares must equal the expense amount"
      else Ok shares_objs
  end.

Definition _replace_shares (db : DB) (expense : Expense.t)
    (new_shares : option (list ShareInputSchema.t)) : Result DB :=
  shares_objs <- new_share_objects db expense new_shares ;;
  let db1 :=
    fold_left delete_share (shares_of db (Expense.id expense)) db in
  Ok (fold_left (fun d new => add_share d expense new) shares_objs db1).

(** ** Expense handlers *)

Module GroupExpensesCollection.

(** [post], called at the instant [now] with the payload [data]. *)
Definition post (now : datetime) (db : DB)
    (data : ExpenseCreateSchema.t) (group_id : Z)
    : Result (DB * Expense.t) :=
  data <- ExpenseCreateSchema.load data ;;
  match Group_get db group_id with
  | None => abort 404 "Group not found"
  | Some _ =>
      let amount :=
        Decimal.quantize (_to_decimal (ExpenseCreateSchema.amount data))
          two_places Decimal.ROUND_HALF_EVEN in
      let description := strip (ExpenseCreateSchema.description data) in
      let paid_by_user_id := ExpenseCreateSchema.paid_by_user_id data in
      _ensure_user_in_group db group_id paid_by_user_id ;;;
      let expense_date := ExpenseCreateSchema.expense_date data in
      let expense :=
        Expense.mk (next_id (map Expense.id (expenses db)))
          group_id paid_by_user_id description amount
          (match expense_date with Some d => d | None => now end)
          None None in
      let db1 := set_expenses db (expenses db ++ [expense]) in
      db2 <- _replace_shares db1 expense (ExpenseCreateSchema.shares data) ;;
      db3 <- commit db2 ;;
      Ok (db3, expense)
  end.

End GroupExpensesCollection.

(** Writing the attributes of an expense object back to its row. *)
Definition update_expense (db : DB) (expense : Expense.t) : DB :=
  set_expenses db
    (map (fun e => if Expense.id e =? Expense.id expense then expense else e)
         (expenses db)).

Definition set_description (e : Expense.t) (d : string) : Expense.t :=
  Expense.mk (Expense.id e) (Expense.group_id e) (Expense.paid_by_user_id e)
    d (Expense.amount e) (Expense.expense_date e)
    (Expense.receipt_filename e) (Expense.receipt_mime_type e).

Definition set_paid_by_user_id (e : Expense.t) (u : option Z) : Expense.t :=
  Expense.mk (Expense.id e) (Expense.group_id e) u
    (Expense.description e) (Expense.amount e) (Expense.expense_date e)
    (Expense.receipt_filename e) (Expense.receipt_mime_type e).

Definition set_expense_date (e : Expense.t) (d : datetime) : Expense.t :=
  Expense.mk (Expense.id e) (Expense.group_id e) (Expense.paid_by_user_id e)
    (Expense.description e) (Expense.amount e) d
    (Expense.receipt_filename e) (Expense.receipt_mime_type e).

Definition set_amount (e : Expense.t) (a : Decimal.t) : Expense.t :=
  Expense.mk (Expense.id e) (Expense.group_id e) (Expense.paid_by_user_id e)
    (Expense.description e) a (Expense.expense_date e)
    (Expense.receipt_filename e) (Expense.receipt_mime_type e).

Definition is_empty (s : string) : bool :=
  match s with EmptyString => true | _ => false end.

Module ExpenseItem.

Definition patch (db : DB) (data : ExpenseUpdateSchema.t)
    (expense_id : Z) : Result (DB * Expense.t) :=
  data <- ExpenseUpdateSchema.load data ;;
  match Expense_get db expense_id with
  | None => abort 404 "Expense not found"
  | Some expense =>
      let expense :=
        match ExpenseUpdateSchema.description data with
        | Some d => if is_empty d then expense
                    else set_description expense (strip d)
        | None => expense
        end in
      expense <-
        match ExpenseUpdateSchema.paid_by_user_id data with
        | Some u =>
            _ensure_user_in_group db (Expense.group_id expense) u ;;;
            Ok (set_paid_by_user_id expense u)
        | None => Ok expense
        end ;;
      let expense :=
        match ExpenseUpdateSchema.expense_date data with
        | Some (Some d) => set_expense_date expense d
        | _ => expense
        end in
      let shares_input := ExpenseUpdateSchema.shares data in
      r <-
        match ExpenseUpdateSchema.amount data with
        | Some a =>
            let new_amount :=
              Decimal.quantize (_to_decimal a) two_places
                Decimal.ROUND_HALF_EVEN in
            let expense := set_amount expense new_amount in
            let db1 := update_expense db expense in
            match shares_input with
            | None =>
                db2 <- _replace_shares db1 expense None ;;
                Ok (db2, expense)
            | Some _ => Ok (db1, expense)
            end
        | None => Ok (update_expense db expense, expense)
        end ;;
      let '(db1, expense) := r in
      db2 <-
        match shares_input with
        | Some l => _replace_shares db1 expense (Some l)
        | None => Ok db1
        end ;;
      db3 <- commit db2 ;;
      Ok (db3, expense)
  end.

(** [delete]: the expense goes, and the relationship [shares] cascades. *)
Definition delete (db : DB) (expense_id : Z) : Result DB :=
  match Expense_get db expense_id with
  | None => abort 404 "Expense not found"
  | Some expense =>
      let db1 :=
        fold_left delete_share (shares_of db (Expense.id expense)) db in
      let db2 :=
        set_expenses db1
          (filter (fun e => negb (Expense.id e =? Expense.id expense))
                  (expenses db1)) in
      commit db2
  end.

End ExpenseItem.

Module ExpenseShareSettle.

(** [share.is_settled = True] on the first row the query finds. *)
Fixpoint settle_first (share_id expense_id : Z) (l : list ExpenseShare.t)
    : list ExpenseShare.t :=
  match l with
  | [] => []
  | sh :: rest =>
      if is_share share_id expense_id sh
      then ExpenseShare.mk (ExpenseShare.id sh) (ExpenseShare.expense_id sh)
             (ExpenseShare.user_id sh) (ExpenseShare.amount sh) true
           :: rest
      else sh :: settle_first share_id expense_id rest
  end.

Definition post (db : DB) (expense_id share_id : Z)
    : Result (DB * ExpenseShare.t) :=
  match Expense_get db expense_id with
  | None => abort 404 "Expense not found"
  | Some _ =>
      match ExpenseShare_first db share_id expense_id with
      | None => abort 404 "Expense share not found"
      | Some share =>
          let share :=
            ExpenseShare.mk (ExpenseShare.id share)
              (ExpenseShare.expense_id share) (ExpenseShare.user_id share)
              (ExpenseShare.amount share) true in
          db1 <- commit
                   (set_shares db
                      (settle_first share_id expense_id
                         (expense_shares db))) ;;
          Ok (db1, share)
      end
  end.

End ExpenseShareSettle.

(** ** Member handlers *)

Module MemberCreateSchema.
Record t : Type := mk { user_id : Z; role : option string }.

Definition load (data : t) : Result t :=
  match role data with
  | Some r => validate_Length 0 50 role_length "role" r
  | None => Ok tt
  end ;;;
  Ok data.
End MemberCreateSchema.

Module GroupMembersCollection.

Definition post (now : datetime) (db : DB) (data : MemberCreateSchema.t)
    (group_id : Z) : Result (DB * GroupMember.t) :=
  data <- MemberCreateSchema.load data ;;
  match Group_get db group_id with
  | None => abort 404 "Group not found"
  | Some _ =>
      match User_get db (MemberCreateSchema.user_id data) with
      | None => abort 400 "User not found"
      | Some user =>
          match GroupMember_first db group_id (User.id user) with
          | Some _ => abort 409 "User is already a member of the group"
          | None =>
              let gm :=
                GroupMember.mk
                  (next_id (map GroupMember.id (group_members db)))
                  group_id (User.id user) (MemberCreateSchema.role data)
                  now in
              db1 <- commit
                       (set_group_members db (group_members db ++ [gm])) ;;
              Ok (db1, gm)
          end
      end
  end.

End GroupMembersCollection.

Module GroupMemberItem.

(** [GroupMember.query.filter_by(id=member_id, group_id=group_id).first()]
    and then [db.session.delete(gm)]. *)
Definition delete (db : DB) (group_id member_id : Z) : Result DB :=
  match find (fun gm => (GroupMember.id gm =? member_id)
                        && (GroupMember.group_id gm =? group_id))
             (group_members db) with
  | None => abort 404 "Group member not found"
  | Some gm =>
      commit
        (set_group_members db
           (filter (fun x => negb (GroupMember.id x =? GroupMember.id gm))
                   (group_members db)))
  end.

End GroupMemberItem.

(** ** The balance aggregator *)

(** The dict [net], in insertion order. *)
Definition dict : Type := list (Z * Decimal.t).

Fixpoint dict_get (d : dict) (k : Z) (default : Decimal.t) : Decimal.t :=
  match d with
  | [] => default
  | (k', v) :: rest => if k' =? k then v else dict_get rest k default
  end.

Fixpoint dict_set (d : dict) (k : Z) (v : Decimal.t) : dict :=
  match d with
  | [] => [(k, v)]
  | (k', v') :: rest =>
      if k' =? k then (k', v) :: rest else (k', v') :: dict_set rest k v
  end.

(** The value under the key ["user"] of an entry: [_user_public(user)], or
    only the id when the user row is gone. *)
Inductive user_json : Type :=
| user_public (id : Z) (name : string) (email : option string)
| user_id_only (id : Z).

Definition _user_public (user : User.t) : user_json :=
  user_public (User.id user) (User.name user) (User.email user).

Module GroupBalances.

(** The inner loop, over [exp.shares]. *)
Fixpoint subtract_unsettled (net : dict) (shares : list ExpenseShare.t)
    : dict :=
  match shares with
  | [] => net
  | sh :: rest =>
      if negb (ExpenseShare.is_settled sh)
      then subtract_unsettled
             (dict_set net (ExpenseShare.user_id sh)
                (Decimal.sub
                   (dict_get net (ExpenseShare.user_id sh) Decimal.zero)
                   (Decimal.or_zero (ExpenseShare.amount sh))))
             rest
      else subtract_unsettled net rest
  end.

(** The outer loop, over the expenses of the group.  An int is truthy
    when it is not [0]. *)
Fixpoint accumulate (db : DB) (net : dict) (exps : list Expense.t)
    : dict :=
  match exps with
  | [] => net
  | exp :: rest =>
      let amount := Decimal.or_zero (Expense.amount exp) in
      let net :=
        match Expense.paid_by_user_id exp with
        | Some p =>
            if p =? 0 then net
            else dict_set net p
                   (Decimal.add (dict_get net p Decimal.zero) amount)
        | None => net
        end in
      accumulate db
        (subtract_unsettled net (shares_of db (Expense.id exp))) rest
  end.

(** An entry of ["balances"]; the balance is the decimal whose [str] the
    handler returns. *)
Definition entry (db : DB) (kv : Z * Decimal.t) : user_json * Decimal.t :=
  let '(uid, balance) := kv in
  (match User_get db uid with
   | Some user => _user_public user
   | None => user_id_only uid
   end,
   Decimal.quantize balance two_places Decimal.ROUND_HALF_EVEN).

Definition get (db : DB) (group_id : Z)
    : Result (Z * list (user_json * Decimal.t)) :=
  match Group_get db group_id with
  | None => abort 404 "Group not found"
  | Some _ =>
      let expenses :=
        filter (fun e => Expense.group_id e =? group_id) (expenses db) in
      let net := accumulate db [] expenses in
      Ok (group_id, map (entry db) net)
  end.

End GroupBalances.

(** ** Reading handlers *)

(** [ExpenseItem.get]. *)
Definition ExpenseItem_get (db : DB) (expense_id : Z) : Result Expense.t :=
  match Expense_get db expense_id with
  | None => abort 404 "Expense not found"
  | Some expense => Ok expense
  end.

(** [GroupMembersCollection.get]. *)
Definition GroupMembersCollection_get (db : DB) (group_id : Z)
    : Result (list GroupMember.t) :=
  match Group_get db group_id with
  | None => abort 404 "Group not found"
  | Some _ => Ok (GroupMember_of_group db group_id)
  end.

(** ** Group handlers *)

Definition group_name_length : string :=
  "Length must be between 1 and 150.".

Module GroupCreateSchema.
(** [created_by_user_id] is [None] when the payload leaves it out or gives
    null. *)
Record t : Type := mk { name : string; created_by_user_id : option Z }.

Definition load (data : t) : Result t :=
  validate_Length 1 150 group_name_length "name" (name data) ;;;
  Ok data.
End GroupCreateSchema.

Module GroupUpdateSchema.
Record t : Type := mk { name : option string }.

Definition load (data : t) : Result t :=
  match name data with
  | Some n => validate_Length 1 150 group_name_length "name" n
  | None => Ok tt
  end ;;;
  Ok data.
End GroupUpdateSchema.

Definition set_groups (db : DB) (l : list Group.t) : DB :=
  mkDB (users db) l (group_members db) (expenses db) (expense_shares db).

Module GroupsCollection.

(** [post], called at the instant [now]. *)
Definition post (now : datetime) (db : DB) (data : GroupCreateSchema.t)
    : Result (DB * Group.t) :=
  data <- GroupCreateSchema.load data ;;
  let name := strip (GroupCreateSchema.name data) in
  let created_by_user_id := GroupCreateSchema.created_by_user_id data in
  created_by <-
    match created_by_user_id with
    | Some uid =>
        match User_get db uid with
        | Some user => Ok (Some user)
        | None =>
            abort 400
              "created_by_user_id does not reference an existing user"
        end
    | None => Ok None
    end ;;
  let group :=
    Group.mk (next_id (map Group.id (groups db))) name now
      (option_map User.id created_by) in
  db1 <- commit (set_groups db (groups db ++ [group])) ;;
  Ok (db1, group).

End GroupsCollection.

Module GroupItem.

Definition get (db : DB) (group_id : Z) : Result Group.t :=
  match Group_get db group_id with
  | None => abort 404 "Group not found"
  | Some group => Ok group
  end.

Definition patch (db : DB) (update_data : GroupUpdateSchema.t)
    (group_id : Z) : Result (DB * Group.t) :=
  update_data <- GroupUpdateSchema.load update_data ;;
  match Group_get db group_id with
  | None => abort 404 "Group not found"
  | Some group =>
      let group :=
        match GroupUpdateSchema.name update_data with
        | Some n =>
            if is_empty n then group
            else Group.mk (Group.id group) (strip n)
                   (Group.created_at group)
                   (Group.created_by_user_id group)
        | None => group
        end in
      db1 <- commit
               (set_groups db
                  (map (fun g => if Group.id g =? Group.id group
                                 then group else g)
                       (groups db))) ;;
      Ok (db1, group)
  end.

(** The rows with one of the keys [ids] go. *)
Definition delete_expenses (db : DB) (ids : list Z) : DB :=
  set_expenses db
    (filter (fun e => negb (existsb (Z.eqb (Expense.id e)) ids))
            (expenses db)).

Definition delete_members (db : DB) (ids : list Z) : DB :=
  set_group_members db
    (filter (fun gm => negb (existsb (Z.eqb (GroupMember.id gm)) ids))
            (group_members db)).

(** [delete]: the group goes, and the relationships [members] and
    [expenses] cascade, the latter on to the shares of each expense. *)
Definition delete (db : DB) (group_id : Z) : Result DB :=
  match Group_get db group_id with
  | None => abort 404 "Group not found"
  | Some group =>
      let members := GroupMember_of_group db (Group.id group) in
      let exps :=
        filter (fun e => Expense.group_id e =? Group.id group)
               (expenses db) in
      let db1 :=
        fold_left
          (fun d e => fold_left delete_share (shares_of d (Expense.id e)) d)
          exps db in
      let db2 := delete_expenses db1 (map Expense.id exps) in
      let db3 := delete_members db2 (map GroupMember.id members) in
      let db4 :=
        set_groups db3
          (filter (fun g => negb (Group.id g =? Group.id group))
                  (groups db3)) in
      commit db4
  end.

End GroupItem.

(** ** Vocabulary of the properties *)

(** [cents c] is the amount of [c] cents, as [Decimal] writes it. *)
Definition cents (c : Z) : Decimal.t := Decimal.mk c (-2).

(** The amounts of the loop in cents: [b + 1] while the remainder lasts,
    then [b]. *)
Fixpoint split_cents (b r : Z) (l : list Z) : list Z :=
  match l with
  | [] => []
  | _ :: rest =>
      if 0 <? r then (b + 1) :: split_cents b (r - 1) rest
      else b :: split_cents b r rest
  end.

(** What a share says, apart from its keys. *)
Definition share_view (sh : ExpenseShare.t) : Z * Decimal.t * bool :=
  (ExpenseShare.user_id sh, ExpenseShare.amount sh,
   ExpenseShare.is_settled sh).

(** A supplied share, rounded to two places, as the reconciler installs
    it. *)
Definition rounded (s : ShareInputSchema.t) : Decimal.t :=
  Decimal.quantize (ShareInputSchema.amount s) two_places
    Decimal.ROUND_HALF_EVEN.

Definition supplied_view (s : ShareInputSchema.t) : Z * Decimal.t * bool :=
  (ShareInputSchema.user_id s, rounded s, false).

Definition all_members (db : DB) (group_id : Z)
    (l : list ShareInputSchema.t) : Prop :=
  forall s, In s l ->
    GroupMember_first db group_id (ShareInputSchema.user_id s) <> None.

Definition AmountMismatchError : Error :=
  Abort 400 "Sum of shares must equal the expense amount".

(** The database a handler leaves committed. *)
Definition committed {A : Type} (db : DB) (r : Result (DB * A)) : DB :=
  match r with
  | Ok (db', _) => db'
  | Raise _ => db
  end.

(** The expense a valid [patch] writes back: the attributes the payload
    gives replace the old ones. *)
Definition patched_expense (data : ExpenseUpdateSchema.t) (e0 : Expense.t)
    : Expense.t :=
  let e :=
    match ExpenseUpdateSchema.description data with
    | Some d => if is_empty d then e0 else set_description e0 (strip d)
    | None => e0
    end in
  let e :=
    match ExpenseUpdateSchema.paid_by_user_id data with
    | Some u => set_paid_by_user_id e u
    | None => e
    end in
  let e :=
    match ExpenseUpdateSchema.expense_date data with
    | Some (Some d) => set_expense_date e d
    | _ => e
    end in
  match ExpenseUpdateSchema.amount data with
  | Some a =>
      set_amount e (Decimal.quantize a two_places Decimal.ROUND_HALF_EVEN)
  | None => e
  end.

(** The payer check of [patch]. *)
Definition patch_payer_ok (db : DB) (data : ExpenseUpdateSchema.t)
    (e0 : Expense.t) : Prop :=
  match ExpenseUpdateSchema.paid_by_user_id data with
  | Some u => _ensure_user_in_group db (Expense.group_id e0) u = Ok tt
  | None => True
  end.

(** The expense [post] adds on a valid payload. *)
Definition created_expense (now : datetime) (db : DB)
    (data : ExpenseCreateSchema.t) (group_id : Z) : Expense.t :=
  Expense.mk (next_id (map Expense.id (expenses db))) group_id
    (ExpenseCreateSchema.paid_by_user_id data)
    (strip (ExpenseCreateSchema.description data))
    (Decimal.quantize (ExpenseCreateSchema.amount data) two_places
       Decimal.ROUND_HALF_EVEN)
    (match ExpenseCreateSchema.expense_date data with
     | Some d => d
     | None => now
     end)
    None None.

Definition EmptyGroupError : Error :=
  Abort 400 "Cannot split expense: the group has no members".


(** Three users in one group, and a lunch of 100.00 that user 1 paid; user
    2 has settled. *)
Definition sample_db : DB :=
  mkDB
    [User.mk 1 "Ann" None None 0; User.mk 2 "Bob" None None 0;
     User.mk 3 "Cid" None None 0]
    [Group.mk 1 "Flat" 0 (Some 1)]
    [GroupMember.mk 1 1 1 None 0; GroupMember.mk 2 1 2 None 0;
     GroupMember.mk 3 1 3 None 0]
    [Expense.mk 1 1 (Some 1) "Lunch" (Decimal.mk 10000 (-2)) 0 None None]
    [ExpenseShare.mk (Some 1) (Some 1) 1 (Decimal.mk 3334 (-2)) false;
     ExpenseShare.mk (Some 2) (Some 1) 2 (Decimal.mk 3333 (-2)) true;
     ExpenseShare.mk (Some 3) (Some 1) 3 (Decimal.mk 3333 (-2)) false].

Definition sample_expense : Expense.t :=
  Expense.mk 1 1 (Some 1) "Lunch" (Decimal.mk 10000 (-2)) 0 None None.

Definition settled (sh : ExpenseShare.t) : ExpenseShare.t :=
  ExpenseShare.mk (ExpenseShare.id sh) (ExpenseShare.expense_id sh)
    (ExpenseShare.user_id sh) (ExpenseShare.amount sh) true.

(** [d] written at the exponent [m]. *)
Definition at_expo (m : Z) (d : Decimal.t) : Decimal.t :=
  Decimal.mk (Decimal.coeff_at m d) m.

(** [k in d], with its value. *)
Fixpoint dict_find (d : dict) (k : Z) : option Decimal.t :=
  match d with
  | [] => None
  | (k', v) :: rest => if k' =? k then Some v else dict_find rest k
  end.

(** One update of [net]: a credit ([true]) or a debit of [amt] for
    [uid]. *)
Definition event : Type := Z * bool * Decimal.t.

Definition apply_amount (v : Decimal.t) (ev : event) : Decimal.t :=
  let '(_, credit, amt) := ev in
  if credit then Decimal.add v amt else Decimal.sub v amt.

Definition apply_event (net : dict) (ev : event) : dict :=
  let '(uid, _, _) := ev in
  dict_set net uid (apply_amount (dict_get net uid Decimal.zero) ev).

Definition share_events (shares : list ExpenseShare.t) : list event :=
  map (fun sh => (ExpenseShare.user_id sh, false,
                  Decimal.or_zero (ExpenseShare.amount sh)))
      (filter (fun sh => negb (ExpenseShare.is_settled sh)) shares).

Definition payer_events (exp : Expense.t) : list event :=
  match Expense.paid_by_user_id exp with
  | Some p =>
      if p =? 0 then []
      else [(p, true, Decimal.or_zero (Expense.amount exp))]
  | None => []
  end.

Definition expense_events (db : DB) (exps : list Expense.t) : list event :=
  flat_map (fun exp => payer_events exp
                       ++ share_events (shares_of db (Expense.id exp)))
           exps.

Definition event_user (ev : event) : Z := fst (fst ev).

Definition sumZ (l : list Z) : Z := fold_right Z.add 0 l.

(** The coefficient an event adds at the exponent [m]. *)
Definition signed (m : Z) (ev : event) : Z :=
  let '(_, credit, amt) := ev in
  if credit then Decimal.coeff_at m amt else - Decimal.coeff_at m amt.

Definition event_amount (ev : event) : Decimal.t := snd ev.

(** The expenses a user paid and their unsettled shares, among [exps]. *)
Definition paid_by_user (exps : list Expense.t) (uid : Z)
    : list Expense.t :=
  filter (fun e => key_is (Expense.paid_by_user_id e) uid) exps.

Definition unsettled_share_of (uid : Z) (sh : ExpenseShare.t) : bool :=
  negb (ExpenseShare.is_settled sh) && (ExpenseShare.user_id sh =? uid).

Definition unsettled_of_user (db : DB) (exps : list Expense.t) (uid : Z)
    : list ExpenseShare.t :=
  flat_map (fun e => filter (unsettled_share_of uid)
                       (shares_of db (Expense.id e)))
           exps.

Definition mine (uid : Z) (evs : list event) : list event :=
  filter (fun ev => event_user ev =? uid) evs.

(** A lower bound of the exponents of a list of decimals, at most [0]. *)
Definition floor_expo (l : list Decimal.t) : Z :=
  fold_right (fun d acc => Z.min (Decimal.expo d) acc) 0 l.

(** The id under ["user"], and the balance of the entry of a user. *)
Definition json_id (u : user_json) : Z :=
  match u with
  | user_public id _ _ => id
  | user_id_only id => id
  end.

Definition balance_of (uid : Z) (balances : list (user_json * Decimal.t))
    : option Decimal.t :=
  option_map snd (find (fun en => json_id (fst en) =? uid) balances).

(** The expenses of a group, and the net balance of a user in it: what
    they paid, minus their unsettled shares, at two places. *)
Definition group_expenses (db : DB) (group_id : Z) : list Expense.t :=
  filter (fun e => Expense.group_id e =? group_id) (expenses db).

Definition net_balance (db : DB) (group_id uid : Z) : Decimal.t :=
  let exps := group_expenses db group_id in
  Decimal.quantize
    (Decimal.sub
       (Decimal.sum (map Expense.amount (paid_by_user exps uid)))
       (Decimal.sum (map ExpenseShare.amount
                       (unsettled_of_user db exps uid))))
    two_places Decimal.ROUND_HALF_EVEN.

(** A group that nobody has joined yet. *)
Definition empty_group_db : DB :=
  mkDB [User.mk 1 "Ann" None None 0] [Group.mk 1 "Flat" 0 (Some 1)] [] [] [].




(** The shares of an expense sum to its amount. *)
Definition shares_sum_to_amount (db : DB) (e : Expense.t) : Prop :=
  Decimal.eqb
    (Decimal.sum (map ExpenseShare.amount (shares_of db (Expense.id e))))
    (Expense.amount e) = true.


(** The primary key of [expense_shares]. *)
Definition share_keys_unique (db : DB) : Prop :=
  NoDup (map ExpenseShare.id (expense_shares db)).


(** The errors of the member checks. *)
Definition ForeignMemberError (uid : Z) : Error :=
  Abort 400 ("user_id " ++ str_int uid ++ " is not a member of the group").

Definition PayerNotMemberError : Error :=
  Abort 400 "paid_by_user_id must be a member of the group".

(** The entries of ["balances"] of a group, none when the group is
    missing. *)
Definition balances_in (db : DB) (group_id : Z)
    : list (user_json * Decimal.t) :=
  match GroupBalances.get db group_id with
  | Ok (_, balances) => balances
  | Raise _ => []
  end.

(** The balance that a list of paid expenses and a list of unsettled shares
    give: none when both are empty. *)
Definition balance_from (paid : list Expense.t)
    (unsettled : list ExpenseShare.t) : option Decimal.t :=
  match paid, unsettled with
  | [], [] => None
  | _, _ =>
      Some (Decimal.quantize
              (Decimal.sub
                 (Decimal.sum (map Expense.amount paid))
                 (Decimal.sum (map ExpenseShare.amount unsettled)))
              two_places Decimal.ROUND_HALF_EVEN)
  end.

(** What identifies a share and what it owes, without its flag. *)
Definition share_core (sh : ExpenseShare.t)
    : option Z * option Z * Z * Decimal.t :=
  (ExpenseShare.id sh, ExpenseShare.expense_id sh, ExpenseShare.user_id sh,
   ExpenseShare.amount sh).

(** The pair of a group id and a user id, for the unique constraint. *)
Definition pair_is (g u : Z) (p : option Z * Z) : bool :=
  match fst p with
  | Some x => (x =? g) && (u =? snd p)
  | None => false
  end.

(** A text made of whitespace only. *)
Fixpoint all_spaces (s : string) : bool :=
  match s with
  | EmptyString => true
  | String c rest => is_space c && all_spaces rest
  end.

(** The truthiness test of the payer, and the amounts the aggregator adds
    and subtracts for a list of expenses. *)
Definition has_payer (e : Expense.t) : bool :=
  match Expense.paid_by_user_id e with
  | Some p => negb (p =? 0)
  | None => false
  end.

Definition credited_amounts (exps : list Expense.t) : list Decimal.t :=
  map Expense.amount (filter has_payer exps).

Definition debited_amounts (db : DB) (exps : list Expense.t)
    : list Decimal.t :=
  flat_map
    (fun e => map ExpenseShare.amount
                (filter (fun sh => negb (ExpenseShare.is_settled sh))
                        (shares_of db (Expense.id e))))
    exps.

(** The values of [net], added up at the exponent [m]. *)
Definition dict_total (m : Z) (d : dict) : Z :=
  sumZ (map (fun kv => Decimal.coeff_at m (snd kv)) d).

(** [sample_db] before anyone settled. *)
Definition unsettled_db : DB :=
  set_shares sample_db
    [ExpenseShare.mk (Some 1) (Some 1) 1 (Decimal.mk 3334 (-2)) false;
     ExpenseShare.mk (Some 2) (Some 1) 2 (Decimal.mk 3333 (-2)) false;
     ExpenseShare.mk (Some 3) (Some 1) 3 (Decimal.mk 3333 (-2)) false].

(** The user ids of the entries of ["balances"]. *)
Definition balance_ids (balances : list (user_json * Decimal.t))
    : list Z :=
  map (fun en => json_id (fst en)) balances.

(** * Properties *)

(** ** A first run of the allocator *)

Example equal_split_10_3 :
  _equal_split (Decimal.mk 1000 (-2)) [7; 8; 9]
  = Ok [ExpenseShare.new 7 (Decimal.mk 334 (-2));
        ExpenseShare.new 8 (Decimal.mk 333 (-2));
        ExpenseShare.new 9 (Decimal.mk 333 (-2))].
Proof. reflexivity. Qed.

(** ** Decimals with two fraction digits *)

Lemma add_cents (a b : Z) : Decimal.add (cents a) (cents b) = cents (a + b).
Proof. unfold Decimal.add, Decimal.coeff_at, cents; simpl. f_equal; lia. Qed.

Lemma sub_cents (a b : Z) : Decimal.sub (cents a) (cents b) = cents (a - b).
Proof. unfold Decimal.sub, Decimal.coeff_at, cents; simpl. f_equal; lia. Qed.

Lemma add_zero_cents (a : Z) : Decimal.add Decimal.zero (cents a) = cents a.
Proof.
  unfold Decimal.add, Decimal.coeff_at, cents, Decimal.zero, Decimal.of_int.
  cbn. f_equal; lia.
Qed.

Lemma mul_cents_int (a n : Z) :
  Decimal.mul (cents a) (Decimal.of_int n) = cents (a * n).
Proof. reflexivity. Qed.

Lemma to_int_cents (a : Z) : Decimal.to_int (cents (a * 100)) = a.
Proof.
  unfold Decimal.to_int, cents; simpl.
  change (Z.pow_pos 10 2) with 100. apply Z.quot_mul; lia.
Qed.

Lemma div_quantize_cents (c n : Z) :
  Decimal.div_quantize (cents c) n two_places Decimal.ROUND_DOWN
  = cents (Z.quot c n).
Proof.
  unfold Decimal.div_quantize, Decimal.coeff_at, cents; simpl.
  rewrite Z.mul_1_r. reflexivity.
Qed.

Lemma compare_cents (a b : Z) :
  Decimal.compare (cents a) (cents b) = Z.compare a b.
Proof.
  unfold Decimal.compare, Decimal.coeff_at, cents; simpl.
  now rewrite !Z.mul_1_r.
Qed.

Lemma eqb_cents (a b : Z) : Decimal.eqb (cents a) (cents b) = (a =? b).
Proof.
  unfold Decimal.eqb. rewrite compare_cents.
  destruct (Z.compare_spec a b) as [H|H|H]; symmetry.
  - apply Z.eqb_eq; exact H.
  - apply Z.eqb_neq; lia.
  - apply Z.eqb_neq; lia.
Qed.


(** The sum of a list of amounts in cents. *)
Lemma fold_add_cents (l : list Z) (a : Z) :
  fold_left Decimal.add (map cents l) (cents a)
  = cents (a + fold_right Z.add 0 l).
Proof.
  revert a. induction l as [|x l IH]; intros a; simpl.
  - f_equal. lia.
  - rewrite add_cents, IH. f_equal. lia.
Qed.

Lemma sum_cents (l : list Z) :
  l <> [] ->
  Decimal.sum (map cents l) = cents (fold_right Z.add 0 l).
Proof.
  destruct l as [|x l]; [congruence|intros _].
  unfold Decimal.sum. simpl. rewrite add_zero_cents, fold_add_cents.
  reflexivity.
Qed.

(** ** The split allocator *)



Lemma equal_split_loop_amounts (b r : Z) (l : list Z) :
  map ExpenseShare.amount (equal_split_loop (cents b) r l)
  = map cents (split_cents b r l).
Proof.
  revert r. induction l as [|uid l IH]; intros r; simpl; [reflexivity|].
  destruct (0 <? r); simpl; rewrite IH; [f_equal; apply (add_cents b 1)|];
    reflexivity.
Qed.

Lemma split_cents_sum (b r : Z) (l : list Z) :
  fold_right Z.add 0 (split_cents b r l)
  = b * Z.of_nat (List.length l)
    + Z.max 0 (Z.min r (Z.of_nat (List.length l))).
Proof.
  revert r. induction l as [|uid l IH]; intros r.
  - simpl. lia.
  - cbn [split_cents List.length]. destruct (Z.ltb_spec 0 r);
      cbn [fold_right]; rewrite IH; lia.
Qed.



(** What [_equal_split] computes on an amount in cents and a group that
    has members. *)
Lemma equal_split_cents (c : Z) (user_ids : list Z) :
  user_ids <> [] ->
  let n := Z.of_nat (List.length user_ids) in
  _equal_split (cents c) user_ids
  = Ok (equal_split_loop (cents (Z.quot c n)) (c - Z.quot c n * n) user_ids).
Proof.
  intros Hne n. unfold _equal_split. fold n.
  destruct (Z.eqb_spec n 0) as [H0|H0].
  - destruct user_ids; [congruence|]. subst n. simpl in H0. lia.
  - rewrite div_quantize_cents, mul_cents_int, sub_cents, mul_cents_int,
      to_int_cents. reflexivity.
Qed.




(** ** The share reconciler *)

Lemma same_key_refl (k : option Z) : same_key k k = true.
Proof. destruct k; simpl; [apply Z.eqb_refl | reflexivity]. Qed.

Lemma explicit_shares_loop_members (db : DB) (gid : Z)
    (l : list ShareInputSchema.t) (objs : list ExpenseShare.t)
    (total : Decimal.t) :
  all_members db gid l ->
  explicit_shares_loop db gid l objs total
  = Ok (objs ++ map (fun s => ExpenseShare.new (ShareInputSchema.user_id s)
                                (rounded s)) l,
        fold_left Decimal.add (map rounded l) total).
Proof.
  revert objs total. induction l as [|s l IH]; intros objs total Hm; simpl.
  - now rewrite app_nil_r.
  - destruct (GroupMember_first db gid (ShareInputSchema.user_id s)) eqn:E.
    + rewrite IH by (intros x Hx; apply Hm; now right).
      rewrite <- app_assoc. reflexivity.
    + exfalso. apply (Hm s); [now left | exact E].
Qed.

Lemma new_share_objects_explicit (db : DB) (expense : Expense.t)
    (l : list ShareInputSchema.t) :
  all_members db (Expense.group_id expense) l ->
  new_share_objects db expense (Some l)
  = if Decimal.eqb (Decimal.sum (map rounded l)) (Expense.amount expense)
    then Ok (map (fun s => ExpenseShare.new (ShareInputSchema.user_id s)
                             (rounded s)) l)
    else Raise AmountMismatchError.
Proof.
  intros Hm. unfold new_share_objects.
  rewrite explicit_shares_loop_members by assumption. simpl.
  unfold Decimal.sum.
  destruct (Decimal.eqb _ _); reflexivity.
Qed.

(** The tables after the old shares of an expense are deleted. *)
Lemma fold_delete_share (olds : list ExpenseShare.t) (db : DB) :
  fold_left delete_share olds db
  = set_shares db
      (filter (fun sh =>
                 negb (existsb (fun old => same_key (ExpenseShare.id sh)
                                             (ExpenseShare.id old)) olds))
              (expense_shares db)).
Proof.
  revert db. induction olds as [|old olds IH]; intros db; simpl.
  - destruct db; unfold set_shares; simpl. f_equal.
    induction expense_shares0 as [|x l IHl]; simpl; [reflexivity|].
    now rewrite <- IHl.
  - rewrite IH. unfold delete_share, set_shares; simpl. f_equal.
    induction (expense_shares db) as [|x l IHl]; simpl; [reflexivity|].
    destruct (same_key (ExpenseShare.id x) (ExpenseShare.id old)); simpl.
    + exact IHl.
    + destruct (existsb _ olds); simpl; [exact IHl | now rewrite IHl].
Qed.

Lemma filter_filter_nil {A : Type} (p q : A -> bool) (l : list A) :
  (forall x, In x l -> p x = true -> q x = false) ->
  filter p (filter q l) = [].
Proof.
  induction l as [|x l IH]; intros H; simpl; [reflexivity|].
  destruct (q x) eqn:Eq; simpl.
  - destruct (p x) eqn:Ep.
    + rewrite (H x) in Eq; [discriminate | now left | exact Ep].
    + apply IH. intros y Hy. apply H. now right.
  - apply IH. intros y Hy. apply H. now right.
Qed.

Lemma shares_of_after_delete (db : DB) (eid : Z) :
  shares_of (fold_left delete_share (shares_of db eid) db) eid = [].
Proof.
  rewrite fold_delete_share. unfold shares_of at 1. simpl.
  apply filter_filter_nil. intros x Hx Hp.
  apply negb_false_iff, existsb_exists. exists x. split.
  - unfold shares_of. apply filter_In. now split.
  - apply same_key_refl.
Qed.

Lemma fold_add_share (e : Expense.t) (objs : list ExpenseShare.t) (db : DB) :
  exists added,
    fold_left (fun d new => add_share d e new) objs db
    = set_shares db (expense_shares db ++ added)
    /\ map share_view added = map share_view objs
    /\ Forall (fun sh => ExpenseShare.expense_id sh = Some (Expense.id e))
              added.
Proof.
  revert db. induction objs as [|o objs IH]; intros db; simpl.
  - exists []. rewrite app_nil_r. destruct db; repeat split; constructor.
  - destruct (IH (add_share db e o)) as (added & Hf & Hv & He).
    eexists (_ :: added). rewrite Hf. unfold add_share; simpl.
    rewrite <- app_assoc. simpl. repeat split.
    + simpl. f_equal. exact Hv.
    + constructor; [reflexivity | exact He].
Qed.

Lemma filter_all {A : Type} (p : A -> bool) (l : list A) :
  Forall (fun x => p x = true) l -> filter p l = l.
Proof.
  induction 1 as [|x l Hx _ IH]; simpl; [reflexivity|].
  now rewrite Hx, IH.
Qed.

(** The reconciler succeeds exactly when its objects are computed, and
    then the shares of the expense are those objects and nothing else; the
    other tables are as they were. *)
Lemma replace_shares_ok (db : DB) (e : Expense.t)
    (new_shares : option (list ShareInputSchema.t))
    (objs : list ExpenseShare.t) :
  new_share_objects db e new_shares = Ok objs ->
  exists db',
    _replace_shares db e new_shares = Ok db'
    /\ users db' = users db
    /\ groups db' = groups db
    /\ group_members db' = group_members db
    /\ expenses db' = expenses db
    /\ map share_view (shares_of db' (Expense.id e)) = map share_view objs.
Proof.
  intros H. unfold _replace_shares. rewrite H. simpl.
  destruct (fold_add_share e objs
              (fold_left delete_share (shares_of db (Expense.id e)) db))
    as (added & Hf & Hv & He).
  eexists. split; [reflexivity|]. rewrite Hf.
  set (db1 := fold_left delete_share (shares_of db (Expense.id e)) db) in *.
  assert (Hd : db1 = set_shares db (expense_shares db1)).
  { unfold db1 at 1. rewrite fold_delete_share.
    unfold db1. rewrite fold_delete_share. reflexivity. }
  simpl. rewrite Hd at 1 2 3 4. simpl. repeat split.
  unfold shares_of. simpl. rewrite filter_app.
  fold (shares_of db1 (Expense.id e)). unfold db1 at 1.
  rewrite shares_of_after_delete. simpl.
  rewrite filter_all; [exact Hv|].
  eapply Forall_impl; [|exact He]. intros sh Hs. simpl in Hs.
  rewrite Hs. simpl. apply Z.eqb_refl.
Qed.

Lemma replace_shares_raise (db : DB) (e : Expense.t)
    (new_shares : option (list ShareInputSchema.t)) (err : Error) :
  new_share_objects db e new_shares = Raise err <->
  _replace_shares db e new_shares = Raise err.
Proof.
  unfold _replace_shares.
  destruct (new_share_objects db e new_shares); simpl; split;
    congruence.
Qed.

(** ** The handlers, step by step *)

Lemma commit_ok (db db' : DB) : commit db = Ok db' -> db' = db.
Proof.
  unfold commit.
  destruct (negb (uq_expense_share_expense_user db)); [discriminate|].
  destruct (negb (uq_group_member_group_user db)); [discriminate|].
  congruence.
Qed.

Lemma create_load_ok (data d : ExpenseCreateSchema.t) :
  ExpenseCreateSchema.load data = Ok d -> d = data.
Proof.
  unfold ExpenseCreateSchema.load.
  destruct (validate_Length _ _ _ _ _); simpl; [|discriminate].
  destruct (ExpenseCreateSchema.validate_shares data); simpl; congruence.
Qed.

Lemma update_load_ok (data d : ExpenseUpdateSchema.t) :
  ExpenseUpdateSchema.load data = Ok d -> d = data.
Proof.
  unfold ExpenseUpdateSchema.load.
  destruct (match ExpenseUpdateSchema.description data with
            | Some x => _ | None => _ end); simpl; congruence.
Qed.

Lemma Expense_get_some (db : DB) (eid : Z) (e : Expense.t) :
  Expense_get db eid = Some e -> Expense.id e = eid /\ In e (expenses db).
Proof.
  intros H. apply find_some in H. destruct H as [Hin Heq].
  apply Z.eqb_eq in Heq. now split.
Qed.

Lemma patched_expense_id (data : ExpenseUpdateSchema.t) (e0 : Expense.t) :
  Expense.id (patched_expense data e0) = Expense.id e0
  /\ Expense.group_id (patched_expense data e0) = Expense.group_id e0.
Proof.
  unfold patched_expense.
  destruct data as [d a p t s]; simpl.
  destruct d as [d|]; [destruct (is_empty d)|];
    destruct p; destruct t as [[t|]|]; destruct a; simpl; split;
    reflexivity.
Qed.

Lemma patched_expense_amount (data : ExpenseUpdateSchema.t)
    (e0 : Expense.t) :
  Expense.amount (patched_expense data e0)
  = match ExpenseUpdateSchema.amount data with
    | Some a => Decimal.quantize a two_places Decimal.ROUND_HALF_EVEN
    | None => Expense.amount e0
    end.
Proof.
  unfold patched_expense.
  destruct data as [d a p t s]; simpl.
  destruct d as [d|]; [destruct (is_empty d)|];
    destruct p; destruct t as [[t|]|]; destruct a; simpl; reflexivity.
Qed.

(** [patch] on a valid payload, an expense that exists and a payer that may
    pay: the reconciler runs when the payload has shares or an amount. *)
Lemma patch_steps (db : DB) (data : ExpenseUpdateSchema.t) (eid : Z)
    (e0 : Expense.t) :
  ExpenseUpdateSchema.load data = Ok data ->
  Expense_get db eid = Some e0 ->
  patch_payer_ok db data e0 ->
  let e := patched_expense data e0 in
  let db1 := update_expense db e in
  ExpenseItem.patch db data eid
  = (db2 <- match ExpenseUpdateSchema.shares data,
                  ExpenseUpdateSchema.amount data with
            | Some l, _ => _replace_shares db1 e (Some l)
            | None, Some _ => _replace_shares db1 e None
            | None, None => Ok db1
            end ;;
     db3 <- commit db2 ;;
     Ok (db3, e)).
Proof.
  intros Hl Hg Hp e db1. unfold ExpenseItem.patch. rewrite Hl. simpl.
  rewrite Hg. subst db1 e. unfold patched_expense.
  unfold patch_payer_ok in Hp.
  destruct data as [d a p t s]; simpl in *.
  assert (Hgid : Expense.group_id
            (match d with
             | Some d0 => if is_empty d0 then e0
                          else set_description e0 (strip d0)
             | None => e0 end) = Expense.group_id e0).
  { destruct d as [d|]; [destruct (is_empty d)|]; reflexivity. }
  destruct p as [u|]; simpl.
  - rewrite Hgid, Hp. simpl.
    destruct a as [a|]; simpl; destruct s as [l|]; simpl; try reflexivity.
    destruct (_replace_shares _ _ None); reflexivity.
  - destruct a as [a|]; simpl; destruct s as [l|]; simpl; try reflexivity.
    destruct (_replace_shares _ _ None); reflexivity.
Qed.

Lemma post_steps (now : datetime) (db : DB) (data : ExpenseCreateSchema.t)
    (gid : Z) (g : Group.t) :
  ExpenseCreateSchema.load data = Ok data ->
  Group_get db gid = Some g ->
  _ensure_user_in_group db gid (ExpenseCreateSchema.paid_by_user_id data)
  = Ok tt ->
  let e := created_expense now db data gid in
  let db1 := set_expenses db (expenses db ++ [e]) in
  GroupExpensesCollection.post now db data gid
  = (db2 <- _replace_shares db1 e (ExpenseCreateSchema.shares data) ;;
     db3 <- commit db2 ;;
     Ok (db3, e)).
Proof.
  intros Hl Hg Hp e db1. unfold GroupExpensesCollection.post.
  rewrite Hl. simpl. rewrite Hg, Hp. reflexivity.
Qed.

Lemma all_members_frame (db db1 : DB) (gid : Z)
    (l : list ShareInputSchema.t) :
  group_members db1 = group_members db ->
  all_members db gid l -> all_members db1 gid l.
Proof.
  intros Hm H s Hs. specialize (H s Hs).
  unfold GroupMember_first in *. now rewrite Hm.
Qed.

(** C4.  When every supplied user id is a member of the group of the
    expense, [_replace_shares] adds up the supplied amounts, each rounded
    to two places, and raises "Sum of shares must equal the expense amount"
    exactly when the sum and the amount of the expense are not equal;
    otherwise it succeeds.  [post] and [patch] then raise the same and
    commit nothing.  Shares of 60.00 and 40.01 for an expense of 100.00
    fail. *)
Theorem explicit_shares_must_sum (db : DB) (expense : Expense.t)
    (l : list ShareInputSchema.t) :
  all_members db (Expense.group_id expense) l ->
  let total := Decimal.sum (map rounded l) in
  (_replace_shares db expense (Some l) = Raise AmountMismatchError
   <-> Decimal.eqb total (Expense.amount expense) = false)
  /\ (Decimal.eqb total (Expense.amount expense) = true ->
      exists db', _replace_shares db expense (Some l) = Ok db')
  /\ (forall now data gid g,
        ExpenseCreateSchema.load data = Ok data ->
        Group_get db gid = Some g ->
        _ensure_user_in_group db gid
          (ExpenseCreateSchema.paid_by_user_id data) = Ok tt ->
        ExpenseCreateSchema.shares data = Some l ->
        all_members db gid l ->
        Decimal.eqb total
          (Decimal.quantize (ExpenseCreateSchema.amount data) two_places
             Decimal.ROUND_HALF_EVEN) = false ->
        GroupExpensesCollection.post now db data gid
        = Raise AmountMismatchError
        /\ committed db (GroupExpensesCollection.post now db data gid) = db)
  /\ (forall data eid e0,
        ExpenseUpdateSchema.load data = Ok data ->
        Expense_get db eid = Some e0 ->
        patch_payer_ok db data e0 ->
        ExpenseUpdateSchema.shares data = Some l ->
        all_members db (Expense.group_id e0) l ->
        Decimal.eqb total
          (match ExpenseUpdateSchema.amount data with
           | Some a => Decimal.quantize a two_places Decimal.ROUND_HALF_EVEN
           | None => Expense.amount e0
           end) = false ->
        ExpenseItem.patch db data eid = Raise AmountMismatchError
        /\ committed db (ExpenseItem.patch db data eid) = db)
  /\ (forall u1 u2,
        l = [ShareInputSchema.mk u1 (Decimal.mk 6000 (-2));
             ShareInputSchema.mk u2 (Decimal.mk 4001 (-2))] ->
        Expense.amount expense = Decimal.mk 10000 (-2) ->
        _replace_shares db expense (Some l) = Raise AmountMismatchError).
Proof.
  intros Hm total.
  assert (Hiff : _replace_shares db expense (Some l)
                 = Raise AmountMismatchError
                 <-> Decimal.eqb total (Expense.amount expense) = false).
  { rewrite <- replace_shares_raise, new_share_objects_explicit
      by assumption.
    fold total. destruct (Decimal.eqb total (Expense.amount expense));
      split; congruence. }
  split; [exact Hiff|]. split; [|split; [|split]].
  - intros He.
    destruct (replace_shares_ok db expense (Some l)
                (map (fun s => ExpenseShare.new (ShareInputSchema.user_id s)
                                 (rounded s)) l)) as (db' & H & _).
    + rewrite new_share_objects_explicit by assumption.
      fold total. now rewrite He.
    + now exists db'.
  - intros now data gid g Hl Hg Hp Hs Hmg Hne.
    assert (H : GroupExpensesCollection.post now db data gid
                = Raise AmountMismatchError).
    { rewrite (post_steps now db data gid g) by assumption. rewrite Hs.
      replace (_replace_shares _ _ (Some l)) with
        (@Raise DB AmountMismatchError); [reflexivity|].
      symmetry. apply replace_shares_raise.
      rewrite new_share_objects_explicit.
      - fold total. simpl. now rewrite Hne.
      - simpl. eapply all_members_frame; [|exact Hmg]. reflexivity. }
    rewrite H. split; reflexivity.
  - intros data eid e0 Hl Hg Hp Hs Hmg Hne.
    assert (H : ExpenseItem.patch db data eid = Raise AmountMismatchError).
    { rewrite (patch_steps db data eid e0) by assumption. rewrite Hs.
      replace (_replace_shares _ _ (Some l)) with
        (@Raise DB AmountMismatchError); [reflexivity|].
      symmetry. apply replace_shares_raise.
      destruct (patched_expense_id data e0) as [_ Hgid].
      rewrite new_share_objects_explicit.
      - fold total. rewrite patched_expense_amount. now rewrite Hne.
      - rewrite Hgid. eapply all_members_frame; [|exact Hmg]. reflexivity. }
    rewrite H. split; reflexivity.
  - intros u1 u2 Hl Ha. apply Hiff. subst total. rewrite Hl, Ha.
    reflexivity.
Qed.

(** Supplied shares that pass the member check and the sum check are
    installed as they are, rounded, one row per entry and in order. *)
Lemma explicit_shares_installed (db : DB) (expense : Expense.t)
    (l : list ShareInputSchema.t) :
  all_members db (Expense.group_id expense) l ->
  Decimal.eqb (Decimal.sum (map rounded l)) (Expense.amount expense)
  = true ->
  exists db',
    _replace_shares db expense (Some l) = Ok db'
    /\ map share_view (shares_of db' (Expense.id expense))
       = map supplied_view l.
Proof.
  intros Hm He.
  destruct (replace_shares_ok db expense (Some l)
              (map (fun s => ExpenseShare.new (ShareInputSchema.user_id s)
                               (rounded s)) l))
    as (db' & H & _ & _ & _ & _ & Hv).
  - rewrite new_share_objects_explicit by assumption. now rewrite He.
  - exists db'. split; [exact H|]. rewrite Hv, map_map. reflexivity.
Qed.

Lemma view_user_ids (rows : list ExpenseShare.t)
    (l : list ShareInputSchema.t) :
  map share_view rows = map supplied_view l ->
  map ExpenseShare.user_id rows = map ShareInputSchema.user_id l.
Proof.
  intros H.
  apply (f_equal (map (fun v : Z * Decimal.t * bool => fst (fst v)))) in H.
  rewrite !map_map in H. exact H.
Qed.

(** C8.  When a user id occurs more than once among the supplied shares
    (all of them members, the amounts summing to the amount of the
    expense), [_replace_shares] raises nothing and drops nothing: every
    entry becomes a row of the expense, so the installed rows repeat the
    user id too. *)
Theorem duplicate_users_pass_through (db : DB) (expense : Expense.t)
    (l : list ShareInputSchema.t) :
  ~ NoDup (map ShareInputSchema.user_id l) ->
  all_members db (Expense.group_id expense) l ->
  Decimal.eqb (Decimal.sum (map rounded l)) (Expense.amount expense)
  = true ->
  exists db',
    _replace_shares db expense (Some l) = Ok db'
    /\ map share_view (shares_of db' (Expense.id expense))
       = map supplied_view l
    /\ List.length (shares_of db' (Expense.id expense)) = List.length l
    /\ ~ NoDup (map ExpenseShare.user_id
                  (shares_of db' (Expense.id expense))).
Proof.
  intros Hd Hm He.
  destruct (explicit_shares_installed db expense l Hm He) as (db' & H & Hv).
  exists db'. repeat split; try assumption.
  - apply (f_equal (@List.length _)) in Hv. now rewrite !length_map in Hv.
  - now rewrite (view_user_ids _ _ Hv).
Qed.

(** A [patch] that returns went through its three checks. *)
Lemma patch_ok_inv (db : DB) (data : ExpenseUpdateSchema.t) (eid : Z)
    (db' : DB) (e' : Expense.t) :
  ExpenseItem.patch db data eid = Ok (db', e') ->
  ExpenseUpdateSchema.load data = Ok data
  /\ exists e0, Expense_get db eid = Some e0 /\ patch_payer_ok db data e0.
Proof.
  unfold ExpenseItem.patch. intros H.
  destruct (ExpenseUpdateSchema.load data) as [d|] eqn:Hl;
    [|discriminate H].
  apply update_load_ok in Hl as Hd. subst d. split; [reflexivity|].
  simpl in H. destruct (Expense_get db eid) as [e0|]; [|discriminate H].
  exists e0. split; [reflexivity|]. unfold patch_payer_ok.
  destruct (ExpenseUpdateSchema.paid_by_user_id data) as [u|]; [|exact I].
  simpl in H.
  assert (Hgid : Expense.group_id
            (match ExpenseUpdateSchema.description data with
             | Some d0 => if is_empty d0 then e0
                          else set_description e0 (strip d0)
             | None => e0 end) = Expense.group_id e0).
  { destruct (ExpenseUpdateSchema.description data) as [d|];
      [destruct (is_empty d)|]; reflexivity. }
  rewrite Hgid in H.
  destruct (_ensure_user_in_group db (Expense.group_id e0) u) as [[]|];
    [reflexivity | discriminate H].
Qed.





Lemma find_ext_members (db db1 : DB) (gid : Z) :
  group_members db1 = group_members db ->
  GroupMember_of_group db1 gid = GroupMember_of_group db gid.
Proof. unfold GroupMember_of_group. now intros ->. Qed.


(** C10.  A [patch] whose payload has neither an amount nor shares leaves
    the table of shares as it was, row for row, whether it returns or
    raises; so the expense keeps its shares, with their users, amounts and
    settlement flags. *)
Theorem patch_without_amount_keeps_shares (db : DB)
    (data : ExpenseUpdateSchema.t) (eid : Z) :
  ExpenseUpdateSchema.amount data = None ->
  ExpenseUpdateSchema.shares data = None ->
  expense_shares (committed db (ExpenseItem.patch db data eid))
  = expense_shares db
  /\ shares_of (committed db (ExpenseItem.patch db data eid)) eid
     = shares_of db eid.
Proof.
  intros Ha Hs.
  assert (H : expense_shares (committed db (ExpenseItem.patch db data eid))
              = expense_shares db).
  { destruct (ExpenseItem.patch db data eid) as [[db' e']|] eqn:H;
      [|reflexivity].
    simpl. destruct (patch_ok_inv _ _ _ _ _ H) as (Hl & e0 & Hg & Hp).
    rewrite (patch_steps db data eid e0 Hl Hg Hp), Hs, Ha in H.
    simpl in H.
    destruct (commit _) as [db3|] eqn:Hc; [|discriminate H].
    apply commit_ok in Hc. injection H as <- _. subst db3. reflexivity. }
  split; [exact H|]. unfold shares_of. now rewrite H.
Qed.

Lemma no_members_no_member (db : DB) (gid uid : Z) :
  GroupMember_of_group db gid = [] -> GroupMember_first db gid uid = None.
Proof.
  unfold GroupMember_of_group, GroupMember_first.
  induction (group_members db) as [|gm l IH]; simpl; [reflexivity|].
  destruct (GroupMember.group_id gm =? gid); simpl; [discriminate|].
  exact IH.
Qed.

(** C6.  [_equal_split] raises "Cannot split expense: the group has no
    members" exactly when it is given no member ids, whatever the total.
    So in a group without members, [post] without shares and [patch] with
    an amount and without shares always raise, with that error once the
    earlier checks of the handler are passed, and commit nothing. *)
Theorem equal_split_empty_group (total : Decimal.t) (user_ids : list Z) :
  (_equal_split total user_ids = Raise EmptyGroupError <-> user_ids = [])
  /\ (forall now db data gid,
        GroupMember_of_group db gid = [] ->
        ExpenseCreateSchema.shares data = None ->
        (exists err,
           GroupExpensesCollection.post now db data gid = Raise err)
        /\ committed db (GroupExpensesCollection.post now db data gid) = db
        /\ (ExpenseCreateSchema.load data = Ok data ->
            Group_get db gid <> None ->
            ExpenseCreateSchema.paid_by_user_id data = None ->
            GroupExpensesCollection.post now db data gid
            = Raise EmptyGroupError))
  /\ (forall db data eid e0 a,
        Expense_get db eid = Some e0 ->
        GroupMember_of_group db (Expense.group_id e0) = [] ->
        ExpenseUpdateSchema.amount data = Some a ->
        ExpenseUpdateSchema.shares data = None ->
        (exists err, ExpenseItem.patch db data eid = Raise err)
        /\ committed db (ExpenseItem.patch db data eid) = db
        /\ (ExpenseUpdateSchema.load data = Ok data ->
            patch_payer_ok db data e0 ->
            ExpenseItem.patch db data eid = Raise EmptyGroupError)).
Proof.
  split; [|split].
  - unfold _equal_split. destruct user_ids as [|u l]; simpl.
    + split; reflexivity.
    + split; discriminate.
  - intros now db data gid Hm Hs.
    assert (Hgood : ExpenseCreateSchema.load data = Ok data ->
              Group_get db gid <> None ->
              _ensure_user_in_group db gid
                (ExpenseCreateSchema.paid_by_user_id data) = Ok tt ->
              GroupExpensesCollection.post now db data gid
              = Raise EmptyGroupError).
    { intros Hl Hg Hp. destruct (Group_get db gid) as [g|] eqn:Hgg;
        [|congruence].
      rewrite (post_steps now db data gid g Hl Hgg Hp), Hs.
      unfold _replace_shares, new_share_objects. simpl.
      unfold GroupMember_of_group in *. simpl. rewrite Hm. reflexivity. }
    assert (Hraise : exists err,
              GroupExpensesCollection.post now db data gid = Raise err).
    { destruct (ExpenseCreateSchema.load data) as [d|err] eqn:Hl.
      - apply create_load_ok in Hl as Hd. subst d.
        destruct (Group_get db gid) as [g|] eqn:Hg.
        + destruct (_ensure_user_in_group db gid
                      (ExpenseCreateSchema.paid_by_user_id data))
            as [[]|err] eqn:Hp.
          * eexists. apply Hgood; congruence.
          * eexists. unfold GroupExpensesCollection.post.
            rewrite Hl. simpl. rewrite Hg, Hp. reflexivity.
        + eexists. unfold GroupExpensesCollection.post.
          rewrite Hl. simpl. rewrite Hg. reflexivity.
      - eexists. unfold GroupExpensesCollection.post. rewrite Hl.
        reflexivity. }
    split; [exact Hraise|]. split.
    + destruct Hraise as [err ->]. reflexivity.
    + intros Hl Hg Hp. apply Hgood; try assumption. now rewrite Hp.
  - intros db data eid e0 a Hg Hm Ha Hs.
    assert (Hgood : ExpenseUpdateSchema.load data = Ok data ->
              patch_payer_ok db data e0 ->
              ExpenseItem.patch db data eid = Raise EmptyGroupError).
    { intros Hl Hp. rewrite (patch_steps db data eid e0 Hl Hg Hp), Hs, Ha.
      destruct (patched_expense_id data e0) as [_ Hgid].
      unfold _replace_shares, new_share_objects. rewrite Hgid.
      unfold GroupMember_of_group in *. simpl. rewrite Hm. reflexivity. }
    assert (Hraise : exists err, ExpenseItem.patch db data eid = Raise err).
    { destruct (ExpenseUpdateSchema.load data) as [d|err] eqn:Hl.
      - apply update_load_ok in Hl as Hd. subst d.
        destruct (ExpenseUpdateSchema.paid_by_user_id data) as [[u|]|]
          eqn:Hu.
        + eexists. unfold ExpenseItem.patch. rewrite Hl. simpl.
          rewrite Hg, Hu. simpl.
          assert (Hgid : Expense.group_id
                    (match ExpenseUpdateSchema.description data with
                     | Some d0 => if is_empty d0 then e0
                                  else set_description e0 (strip d0)
                     | None => e0 end) = Expense.group_id e0).
          { destruct (ExpenseUpdateSchema.description data) as [d|];
              [destruct (is_empty d)|]; reflexivity. }
          rewrite Hgid, (no_members_no_member _ _ u Hm). reflexivity.
        + eexists. apply Hgood; [reflexivity|].
          unfold patch_payer_ok. rewrite Hu. reflexivity.
        + eexists. apply Hgood; [reflexivity|].
          unfold patch_payer_ok. now rewrite Hu.
      - eexists. unfold ExpenseItem.patch. rewrite Hl. reflexivity. }
    split; [exact Hraise|]. split.
    + destruct Hraise as [err ->]. reflexivity.
    + exact Hgood.
Qed.








(** ** A small ledger to run the handlers on *)



(** ** Settling a share *)

Lemma is_share_settled (sid eid : Z) (sh : ExpenseShare.t) :
  is_share sid eid (settled sh) = is_share sid eid sh.
Proof. reflexivity. Qed.

Lemma find_settle_first (sid eid : Z) (l : list ExpenseShare.t) :
  find (is_share sid eid) (ExpenseShareSettle.settle_first sid eid l)
  = option_map settled (find (is_share sid eid) l).
Proof.
  induction l as [|sh l IH]; simpl; [reflexivity|].
  destruct (is_share sid eid sh) eqn:E; simpl.
  - fold (settled sh). now rewrite is_share_settled, E.
  - now rewrite E.
Qed.

Lemma settle_first_twice (sid eid : Z) (l : list ExpenseShare.t) :
  ExpenseShareSettle.settle_first sid eid
    (ExpenseShareSettle.settle_first sid eid l)
  = ExpenseShareSettle.settle_first sid eid l.
Proof.
  induction l as [|sh l IH]; simpl; [reflexivity|].
  destruct (is_share sid eid sh) eqn:E; simpl.
  - fold (settled sh). rewrite is_share_settled, E. reflexivity.
  - now rewrite E, IH.
Qed.

Lemma settle_first_keys (sid eid : Z) (l : list ExpenseShare.t) :
  map (fun sh => (ExpenseShare.expense_id sh, ExpenseShare.user_id sh))
      (ExpenseShareSettle.settle_first sid eid l)
  = map (fun sh => (ExpenseShare.expense_id sh, ExpenseShare.user_id sh)) l.
Proof.
  induction l as [|sh l IH]; simpl; [reflexivity|].
  destruct (is_share sid eid sh); simpl; [reflexivity | now rewrite IH].
Qed.

Lemma commit_consistent (db : DB) :
  commit db = Ok db
  <-> uq_expense_share_expense_user db = true
      /\ uq_group_member_group_user db = true.
Proof.
  unfold commit.
  destruct (uq_expense_share_expense_user db),
    (uq_group_member_group_user db); simpl; split;
    try (intros [? ?]); try discriminate; auto.
Qed.

Lemma settle_post_ok (db : DB) (eid sid : Z) (db1 : DB)
    (share : ExpenseShare.t) :
  ExpenseShareSettle.post db eid sid = Ok (db1, share)
  <-> exists e sh,
        Expense_get db eid = Some e
        /\ ExpenseShare_first db sid eid = Some sh
        /\ share = settled sh
        /\ db1 = set_shares db
                   (ExpenseShareSettle.settle_first sid eid
                      (expense_shares db))
        /\ commit db1 = Ok db1.
Proof.
  unfold ExpenseShareSettle.post. split.
  - destruct (Expense_get db eid) as [e|]; [|discriminate].
    destruct (ExpenseShare_first db sid eid) as [sh|]; [|discriminate].
    destruct (commit _) as [d|] eqn:Hc; [|discriminate].
    simpl. intros H. injection H as <- <-.
    apply commit_ok in Hc as Hd. subst d.
    exists e, sh. repeat split. exact Hc.
  - intros (e & sh & -> & -> & -> & -> & Hc). rewrite Hc. reflexivity.
Qed.

(** C9.  A settle that returns gives the share with [is_settled = True],
    and settling again returns the same share and leaves the very same
    database.  Settling does return when the expense and the share exist
    and the tables satisfy their unique constraints. *)
Theorem settle_idempotent (db : DB) (expense_id share_id : Z) :
  (forall db1 share,
     ExpenseShareSettle.post db expense_id share_id = Ok (db1, share) ->
     ExpenseShare.is_settled share = true
     /\ ExpenseShare_first db1 share_id expense_id = Some share
     /\ ExpenseShareSettle.post db1 expense_id share_id = Ok (db1, share))
  /\ (Expense_get db expense_id <> None ->
      ExpenseShare_first db share_id expense_id <> None ->
      commit db = Ok db ->
      exists db1 share,
        ExpenseShareSettle.post db expense_id share_id = Ok (db1, share)).
Proof.
  split.
  - intros db1 share H.
    apply settle_post_ok in H.
    destruct H as (e & sh & Hge & Hgs & -> & Hdb & Hc).
    assert (Hf : ExpenseShare_first db1 share_id expense_id
                 = Some (settled sh)).
    { unfold ExpenseShare_first in *. subst db1. simpl.
      now rewrite find_settle_first, Hgs. }
    repeat split; [exact Hf|].
    apply settle_post_ok. exists e, (settled sh). repeat split.
    + subst db1. exact Hge.
    + exact Hf.
    + rewrite Hdb at 1. rewrite Hdb. simpl.
      now rewrite settle_first_twice.
    + exact Hc.
  - intros He Hs Hc.
    destruct (Expense_get db expense_id) as [e|] eqn:Hge; [|congruence].
    destruct (ExpenseShare_first db share_id expense_id) as [sh|] eqn:Hgs;
      [|congruence].
    exists (set_shares db
              (ExpenseShareSettle.settle_first share_id expense_id
                 (expense_shares db))), (settled sh).
    apply settle_post_ok. exists e, sh.
    split; [exact Hge|]. split; [exact Hgs|].
    split; [reflexivity|]. split; [reflexivity|].
    apply commit_consistent. apply commit_consistent in Hc.
    destruct Hc as [Hu1 Hu2]. split; [|exact Hu2].
    unfold uq_expense_share_expense_user in *. simpl.
    now rewrite settle_first_keys.
Qed.

Lemma settle_idempotent_witness :
  exists db1 share,
    ExpenseShareSettle.post sample_db 1 3 = Ok (db1, share)
    /\ ExpenseShareSettle.post db1 1 3 = Ok (db1, share).
Proof.
  destruct (proj2 (settle_idempotent sample_db 1 3)) as (db1 & share & H1).
  - discriminate.
  - discriminate.
  - reflexivity.
  - exists db1, share. split; [exact H1|].
    apply (proj1 (settle_idempotent sample_db 1 3) db1 share H1).
Defined.

(** ** Decimals up to their value *)

(** Two decimals are equal by value when they have the same coefficient at
    a common exponent [m]; the lemmas below carry the coefficient at [m]
    through the operations. *)

Lemma pow10_pos (k : Z) : 0 <= k -> 0 < 10 ^ k.
Proof. intros H. apply Z.pow_pos_nonneg; lia. Qed.

Lemma pow10_split (a b c : Z) :
  c <= b -> b <= a -> 10 ^ (a - b) * 10 ^ (b - c) = 10 ^ (a - c).
Proof.
  intros H1 H2. rewrite <- Z.pow_add_r by lia. f_equal. lia.
Qed.

Lemma coeff_at_add (m : Z) (a b : Decimal.t) :
  m <= Decimal.expo a -> m <= Decimal.expo b ->
  Decimal.coeff_at m (Decimal.add a b)
  = Decimal.coeff_at m a + Decimal.coeff_at m b
  /\ m <= Decimal.expo (Decimal.add a b).
Proof.
  intros Ha Hb. unfold Decimal.add, Decimal.coeff_at. simpl.
  set (u := Z.min (Decimal.expo a) (Decimal.expo b)).
  assert (Hu : m <= u /\ u <= Decimal.expo a /\ u <= Decimal.expo b)
    by (subst u; lia).
  split; [|lia].
  rewrite Z.mul_add_distr_r, <- !Z.mul_assoc, !pow10_split by lia.
  reflexivity.
Qed.

Lemma coeff_at_sub (m : Z) (a b : Decimal.t) :
  m <= Decimal.expo a -> m <= Decimal.expo b ->
  Decimal.coeff_at m (Decimal.sub a b)
  = Decimal.coeff_at m a - Decimal.coeff_at m b
  /\ m <= Decimal.expo (Decimal.sub a b).
Proof.
  intros Ha Hb. unfold Decimal.sub, Decimal.coeff_at. simpl.
  set (u := Z.min (Decimal.expo a) (Decimal.expo b)).
  assert (Hu : m <= u /\ u <= Decimal.expo a /\ u <= Decimal.expo b)
    by (subst u; lia).
  split; [|lia].
  rewrite Z.mul_sub_distr_r, <- !Z.mul_assoc, !pow10_split by lia.
  reflexivity.
Qed.

Lemma coeff_at_or_zero (m : Z) (d : Decimal.t) :
  m <= 0 -> m <= Decimal.expo d ->
  Decimal.coeff_at m (Decimal.or_zero d) = Decimal.coeff_at m d
  /\ m <= Decimal.expo (Decimal.or_zero d).
Proof.
  intros H0 Hd. unfold Decimal.or_zero.
  destruct (Z.eqb_spec (Decimal.coeff d) 0) as [E|E]; [|now split].
  unfold Decimal.coeff_at. simpl. rewrite E. split; lia.
Qed.

Lemma round_div_exact (r : Decimal.rounding) (q d : Z) :
  0 < d -> Decimal.round_div r (q * d) d = q.
Proof.
  intros Hd. destruct r; unfold Decimal.round_div; cbv zeta.
  - apply Z.quot_mul. lia.
  - rewrite Z.div_mul, Z.mod_mul by lia.
    destruct (Z.ltb_spec (2 * 0) d); [reflexivity | lia].
Qed.

Lemma round_div_scale (r : Decimal.rounding) (c d k : Z) :
  0 < d -> 0 < k ->
  Decimal.round_div r (c * k) (d * k) = Decimal.round_div r c d.
Proof.
  intros Hd Hk. destruct r; unfold Decimal.round_div; cbv zeta.
  - apply Z.quot_mul_cancel_r; lia.
  - rewrite Z.div_mul_cancel_r, Z.mul_mod_distr_r by lia.
    set (m := c mod d).
    replace (2 * (m * k) <? d * k) with (2 * m <? d)
      by (destruct (Z.ltb_spec (2 * m) d),
            (Z.ltb_spec (2 * (m * k)) (d * k)); nia || reflexivity).
    replace (d * k <? 2 * (m * k)) with (d <? 2 * m)
      by (destruct (Z.ltb_spec d (2 * m)),
            (Z.ltb_spec (d * k) (2 * (m * k))); nia || reflexivity).
    reflexivity.
Qed.

Lemma quantize_at_expo (m : Z) (d e : Decimal.t) (r : Decimal.rounding) :
  m <= Decimal.expo d ->
  Decimal.quantize (at_expo m d) e r = Decimal.quantize d e r.
Proof.
  intros Hm. unfold Decimal.quantize, at_expo, Decimal.coeff_at. simpl.
  destruct d as [c x], e as [ce t]. simpl in *.
  destruct (Z.leb_spec t m), (Z.leb_spec t x); try lia.
  - f_equal. rewrite <- Z.mul_assoc, pow10_split by lia. reflexivity.
  - f_equal.
    replace (c * 10 ^ (x - m))
      with (c * 10 ^ (x - t) * 10 ^ (t - m))
      by (rewrite <- Z.mul_assoc, pow10_split by lia; reflexivity).
    apply round_div_exact. apply pow10_pos. lia.
  - f_equal.
    replace (10 ^ (t - m)) with (10 ^ (t - x) * 10 ^ (x - m))
      by (apply pow10_split; lia).
    apply round_div_scale; apply pow10_pos; lia.
Qed.

(** Equal by value, equal once quantized. *)
Lemma quantize_by_value (m : Z) (a b e : Decimal.t)
    (r : Decimal.rounding) :
  m <= Decimal.expo a -> m <= Decimal.expo b ->
  Decimal.coeff_at m a = Decimal.coeff_at m b ->
  Decimal.quantize a e r = Decimal.quantize b e r.
Proof.
  intros Ha Hb H.
  rewrite <- (quantize_at_expo m a), <- (quantize_at_expo m b)
    by assumption.
  unfold at_expo. now rewrite H.
Qed.

(** ** The balance aggregator *)

Lemma dict_get_find (d : dict) (k : Z) (default : Decimal.t) :
  dict_get d k default
  = match dict_find d k with Some v => v | None => default end.
Proof.
  induction d as [|[k' v] d IH]; simpl; [reflexivity|].
  destruct (k' =? k); [reflexivity | exact IH].
Qed.

Lemma dict_find_set (d : dict) (k k' : Z) (v : Decimal.t) :
  dict_find (dict_set d k v) k'
  = if k =? k' then Some v else dict_find d k'.
Proof.
  induction d as [|[k0 v0] d IH]; simpl.
  - reflexivity.
  - destruct (Z.eqb_spec k0 k) as [->|Hne]; simpl.
    + destruct (k =? k'); reflexivity.
    + rewrite IH. destruct (Z.eqb_spec k0 k') as [->|Hne'].
      * destruct (Z.eqb_spec k k'); [congruence | reflexivity].
      * reflexivity.
Qed.

Lemma subtract_unsettled_events (net : dict)
    (shares : list ExpenseShare.t) :
  GroupBalances.subtract_unsettled net shares
  = fold_left apply_event (share_events shares) net.
Proof.
  revert net. unfold share_events.
  induction shares as [|sh l IH]; intros net; simpl; [reflexivity|].
  destruct (ExpenseShare.is_settled sh); simpl; apply IH.
Qed.

Lemma accumulate_events (db : DB) (net : dict) (exps : list Expense.t) :
  GroupBalances.accumulate db net exps
  = fold_left apply_event (expense_events db exps) net.
Proof.
  revert net. induction exps as [|exp l IH]; intros net; simpl;
    [reflexivity|].
  rewrite IH, subtract_unsettled_events, !fold_left_app. f_equal. f_equal.
  unfold payer_events.
  destruct (Expense.paid_by_user_id exp) as [p|]; [|reflexivity].
  destruct (p =? 0); reflexivity.
Qed.

(** After a run of events, a user is in [net] when they were or have an
    event, and their value is the old one (or [Decimal("0")]) with their
    events applied in order. *)
Lemma fold_events_find (evs : list event) (net : dict) (uid : Z) :
  dict_find (fold_left apply_event evs net) uid
  = match filter (fun ev => event_user ev =? uid) evs with
    | [] => dict_find net uid
    | mine =>
        Some (fold_left apply_amount mine
                (match dict_find net uid with
                 | Some v => v
                 | None => Decimal.zero
                 end))
    end.
Proof.
  revert net. induction evs as [|[[u c] a] evs IH]; intros net; simpl;
    [reflexivity|].
  rewrite IH. unfold event_user at 2. simpl.
  rewrite dict_find_set, dict_get_find.
  destruct (Z.eqb_spec u uid) as [->|Hne].
  - destruct (filter _ evs); reflexivity.
  - reflexivity.
Qed.

Lemma sumZ_app (l1 l2 : list Z) : sumZ (l1 ++ l2) = sumZ l1 + sumZ l2.
Proof. induction l1 as [|x l1 IH]; simpl; [reflexivity | rewrite IH; lia]. Qed.

Lemma fold_amount_value (m : Z) (evs : list event) (v : Decimal.t) :
  m <= Decimal.expo v ->
  Forall (fun ev => m <= Decimal.expo (event_amount ev)) evs ->
  Decimal.coeff_at m (fold_left apply_amount evs v)
  = Decimal.coeff_at m v + sumZ (map (signed m) evs)
  /\ m <= Decimal.expo (fold_left apply_amount evs v).
Proof.
  intros Hv Hf. revert v Hv.
  induction Hf as [|[[u c] a] evs Ha _ IH]; intros v Hv; simpl.
  - split; lia.
  - unfold event_amount in Ha. simpl in Ha. destruct c.
    + destruct (coeff_at_add m v a Hv Ha) as [E1 E2].
      destruct (IH _ E2) as [E3 E4]. split; [|exact E4]. rewrite E3, E1. lia.
    + destruct (coeff_at_sub m v a Hv Ha) as [E1 E2].
      destruct (IH _ E2) as [E3 E4]. split; [|exact E4]. rewrite E3, E1. lia.
Qed.

Lemma fold_add_value (m : Z) (l : list Decimal.t) (v : Decimal.t) :
  m <= Decimal.expo v ->
  Forall (fun d => m <= Decimal.expo d) l ->
  Decimal.coeff_at m (fold_left Decimal.add l v)
  = Decimal.coeff_at m v + sumZ (map (Decimal.coeff_at m) l)
  /\ m <= Decimal.expo (fold_left Decimal.add l v).
Proof.
  intros Hv Hf. revert v Hv.
  induction Hf as [|a l Ha _ IH]; intros v Hv; simpl.
  - split; lia.
  - destruct (coeff_at_add m v a Hv Ha) as [E1 E2].
    destruct (IH _ E2) as [E3 E4]. split; [|exact E4]. rewrite E3, E1. lia.
Qed.

Lemma sum_value (m : Z) (l : list Decimal.t) :
  m <= 0 ->
  Forall (fun d => m <= Decimal.expo d) l ->
  Decimal.coeff_at m (Decimal.sum l) = sumZ (map (Decimal.coeff_at m) l)
  /\ m <= Decimal.expo (Decimal.sum l).
Proof.
  intros H0 Hf. unfold Decimal.sum.
  destruct (fold_add_value m l Decimal.zero H0 Hf) as [E1 E2].
  split; [|exact E2]. rewrite E1. unfold Decimal.coeff_at. simpl. lia.
Qed.

Lemma mine_app (uid : Z) (l1 l2 : list event) :
  mine uid (l1 ++ l2) = mine uid l1 ++ mine uid l2.
Proof. apply filter_app. Qed.

Lemma event_user_mk (u : Z) (c : bool) (a : Decimal.t) :
  event_user (u, c, a) = u.
Proof. reflexivity. Qed.

Lemma share_events_mine (m uid : Z) (shares : list ExpenseShare.t) :
  m <= 0 ->
  Forall (fun sh => m <= Decimal.expo (ExpenseShare.amount sh)) shares ->
  sumZ (map (signed m) (mine uid (share_events shares)))
  = - sumZ (map (fun sh => Decimal.coeff_at m (ExpenseShare.amount sh))
               (filter (unsettled_share_of uid) shares))
  /\ List.length (mine uid (share_events shares))
     = List.length (filter (unsettled_share_of uid) shares)
  /\ Forall (fun ev => m <= Decimal.expo (event_amount ev))
            (share_events shares).
Proof.
  intros H0 Hf. unfold share_events, mine, unsettled_share_of.
  induction Hf as [|sh l Hs _ (IH1 & IH2 & IH3)]; simpl.
  - repeat split. constructor.
  - destruct (coeff_at_or_zero m (ExpenseShare.amount sh) H0 Hs)
      as [E1 E2].
    destruct (ExpenseShare.is_settled sh); simpl; [now repeat split|].
    rewrite !event_user_mk.
    destruct (ExpenseShare.user_id sh =? uid); simpl.
    + repeat split;
        [rewrite IH1, E1; lia | f_equal; exact IH2 |].
      constructor; assumption.
    + repeat split; try assumption. constructor; assumption.
Qed.

Lemma payer_events_mine (m uid : Z) (exp : Expense.t) :
  uid <> 0 -> m <= 0 -> m <= Decimal.expo (Expense.amount exp) ->
  sumZ (map (signed m) (mine uid (payer_events exp)))
  = sumZ (map (fun e => Decimal.coeff_at m (Expense.amount e))
            (paid_by_user [exp] uid))
  /\ List.length (mine uid (payer_events exp))
     = List.length (paid_by_user [exp] uid)
  /\ Forall (fun ev => m <= Decimal.expo (event_amount ev))
            (payer_events exp).
Proof.
  intros Hu H0 He. unfold payer_events, paid_by_user, mine.
  destruct (coeff_at_or_zero m (Expense.amount exp) H0 He) as [E1 E2].
  cbn [filter].
  destruct (Expense.paid_by_user_id exp) as [p|]; cbn [key_is].
  2: { simpl. repeat split; constructor. }
  destruct (Z.eqb_spec p 0) as [->|Hp].
  - destruct (Z.eqb_spec 0 uid); [congruence|].
    simpl. repeat split; constructor.
  - cbn [filter]. rewrite event_user_mk.
    destruct (Z.eqb_spec p uid); simpl; repeat split; try lia;
      repeat constructor; assumption.
Qed.

Lemma paid_by_user_cons (e : Expense.t) (exps : list Expense.t)
    (uid : Z) :
  paid_by_user (e :: exps) uid
  = paid_by_user [e] uid ++ paid_by_user exps uid.
Proof.
  unfold paid_by_user. simpl.
  destruct (key_is (Expense.paid_by_user_id e) uid); reflexivity.
Qed.

Lemma expense_events_mine (m uid : Z) (db : DB) (exps : list Expense.t) :
  uid <> 0 -> m <= 0 ->
  Forall (fun e => m <= Decimal.expo (Expense.amount e)) exps ->
  Forall (fun sh => m <= Decimal.expo (ExpenseShare.amount sh))
         (expense_shares db) ->
  sumZ (map (signed m) (mine uid (expense_events db exps)))
  = sumZ (map (fun e => Decimal.coeff_at m (Expense.amount e))
            (paid_by_user exps uid))
    - sumZ (map (fun sh => Decimal.coeff_at m (ExpenseShare.amount sh))
              (unsettled_of_user db exps uid))
  /\ List.length (mine uid (expense_events db exps))
     = (List.length (paid_by_user exps uid)
        + List.length (unsettled_of_user db exps uid))%nat
  /\ Forall (fun ev => m <= Decimal.expo (event_amount ev))
            (expense_events db exps).
Proof.
  intros Hu H0 He Hs.
  induction He as [|e exps Hb _ (IH1 & IH2 & IH3)].
  - simpl. repeat split. constructor.
  - assert (Hsh : Forall (fun sh => m <= Decimal.expo
                                           (ExpenseShare.amount sh))
                         (shares_of db (Expense.id e))).
    { apply Forall_forall. intros sh Hin.
      apply filter_In in Hin. destruct Hin as [Hin _].
      rewrite Forall_forall in Hs. now apply Hs. }
    destruct (payer_events_mine m uid e Hu H0 Hb) as (P1 & P2 & P3).
    destruct (share_events_mine m uid _ H0 Hsh) as (S1 & S2 & S3).
    change (expense_events db (e :: exps))
      with ((payer_events e ++ share_events (shares_of db (Expense.id e)))
            ++ expense_events db exps).
    rewrite (paid_by_user_cons e exps uid).
    change (unsettled_of_user db (e :: exps) uid)
      with (filter (unsettled_share_of uid) (shares_of db (Expense.id e))
            ++ unsettled_of_user db exps uid).
    rewrite !mine_app, !map_app, !sumZ_app, !length_app.
    repeat split; [lia | lia |].
    apply Forall_app. split; [apply Forall_app; split|]; assumption.
Qed.

Lemma floor_expo_le (l : list Decimal.t) :
  floor_expo l <= 0 /\ Forall (fun d => floor_expo l <= Decimal.expo d) l.
Proof.
  induction l as [|d l [IH1 IH2]]; simpl.
  - split; [lia | constructor].
  - split; [lia|]. constructor; [lia|].
    eapply Forall_impl; [|exact IH2]. simpl. intros a Ha. lia.
Qed.

Lemma balance_of_entries (db : DB) (net : dict) (uid : Z) :
  balance_of uid (map (GroupBalances.entry db) net)
  = option_map
      (fun v => Decimal.quantize v two_places Decimal.ROUND_HALF_EVEN)
      (dict_find net uid).
Proof.
  unfold balance_of.
  induction net as [|[k v] net IH]; simpl; [reflexivity|].
  assert (Hk : json_id (match User_get db k with
                        | Some user => _user_public user
                        | None => user_id_only k
                        end) = k).
  { destruct (User_get db k) as [u|] eqn:Hu; [|reflexivity].
    apply find_some in Hu. destruct Hu as [_ Hu].
    apply Z.eqb_eq in Hu. exact Hu. }
  rewrite Hk. destruct (k =? uid); [reflexivity | exact IH].
Qed.

Lemma Forall_filter_in {A : Type} (P : A -> Prop) (f : A -> bool)
    (l : list A) :
  Forall P l -> Forall P (filter f l).
Proof.
  intros H. apply Forall_forall. intros x Hx.
  apply filter_In in Hx. destruct Hx as [Hx _].
  rewrite Forall_forall in H. now apply H.
Qed.

(** C3.  For a group that exists, [get] returns, for every user (user ids
    are primary keys, so not [0]) who paid an expense of the group or holds
    an unsettled share of one, the sum of the full amounts of the expenses
    they paid minus the sum of their unsettled shares, at two places; a
    user who did neither has no entry. *)
Theorem balances_paid_minus_unsettled (db : DB) (group_id : Z) :
  Group_get db group_id <> None ->
  exists balances,
    GroupBalances.get db group_id = Ok (group_id, balances)
    /\ forall uid,
         uid <> 0 ->
         balance_of uid balances
         = match paid_by_user (group_expenses db group_id) uid,
                 unsettled_of_user db (group_expenses db group_id) uid with
           | [], [] => None
           | _, _ => Some (net_balance db group_id uid)
           end.
Proof.
  intros Hg. unfold GroupBalances.get.
  destruct (Group_get db group_id) as [g|]; [|congruence].
  fold (group_expenses db group_id).
  set (exps := group_expenses db group_id).
  eexists. split; [reflexivity|]. intros uid Hu.
  rewrite balance_of_entries, accumulate_events, fold_events_find.
  fold (mine uid (expense_events db exps)). simpl dict_find.
  set (m := floor_expo (map Expense.amount (expenses db)
                        ++ map ExpenseShare.amount (expense_shares db))).
  destruct (floor_expo_le (map Expense.amount (expenses db)
                           ++ map ExpenseShare.amount (expense_shares db)))
    as [H0 Hall].
  fold m in H0, Hall. apply Forall_app in Hall. destruct Hall as [He Hs].
  rewrite Forall_map in He, Hs.
  assert (Hex : Forall (fun e => m <= Decimal.expo (Expense.amount e)) exps)
    by (apply Forall_filter_in; exact He).
  destruct (expense_events_mine m uid db exps Hu H0 Hex Hs)
    as (E1 & E2 & E3).
  assert (Hmine : Forall (fun ev => m <= Decimal.expo (event_amount ev))
                         (mine uid (expense_events db exps)))
    by (apply Forall_filter_in; exact E3).
  assert (Hp : Forall (fun d => m <= Decimal.expo d)
                 (map Expense.amount (paid_by_user exps uid))).
  { rewrite Forall_map. apply Forall_filter_in. exact Hex. }
  assert (Hun : Forall (fun d => m <= Decimal.expo d)
                  (map ExpenseShare.amount
                     (unsettled_of_user db exps uid))).
  { rewrite Forall_map. apply Forall_forall. intros sh Hin.
    apply in_flat_map in Hin. destruct Hin as (e & _ & Hin).
    apply filter_In in Hin. destruct Hin as [Hin _].
    apply filter_In in Hin. destruct Hin as [Hin _].
    rewrite Forall_forall in Hs. now apply Hs. }
  assert (Hval : Decimal.quantize
                   (fold_left apply_amount (mine uid (expense_events db exps))
                      Decimal.zero)
                   two_places Decimal.ROUND_HALF_EVEN
                 = net_balance db group_id uid).
  { unfold net_balance. fold exps.
    destruct (fold_amount_value m _ Decimal.zero H0 Hmine) as [F1 F2].
    destruct (sum_value m _ H0 Hp) as [P1 P2].
    destruct (sum_value m _ H0 Hun) as [U1 U2].
    destruct (coeff_at_sub m _ _ P2 U2) as [D1 D2].
    apply (quantize_by_value m); [exact F2 | exact D2 |].
    rewrite F1, D1, P1, U1, E1, !map_map.
    unfold Decimal.coeff_at at 1. simpl. lia. }
  destruct (mine uid (expense_events db exps)) as [|ev evs] eqn:Hm.
  - simpl in E2.
    destruct (paid_by_user exps uid); [|discriminate E2].
    destruct (unsettled_of_user db exps uid); [|discriminate E2].
    reflexivity.
  - transitivity (Some (net_balance db group_id uid)).
    + rewrite <- Hval. reflexivity.
    + destruct (paid_by_user exps uid), (unsettled_of_user db exps uid);
        try reflexivity.
      discriminate E2.
Qed.

Lemma balances_paid_minus_unsettled_witness :
  exists balances,
    GroupBalances.get sample_db 1 = Ok (1, balances)
    /\ balance_of 1 balances = Some (Decimal.mk 6666 (-2))
    /\ balance_of 2 balances = None
    /\ balance_of 3 balances = Some (Decimal.mk (-3333) (-2)).
Proof.
  destruct (balances_paid_minus_unsettled sample_db 1) as (b & Hb & H).
  - discriminate.
  - exists b. split; [exact Hb|]. split; [|split].
    + rewrite (H 1) by discriminate. reflexivity.
    + rewrite (H 2) by discriminate. reflexivity.
    + rewrite (H 3) by discriminate. reflexivity.
Defined.

(** ** The handlers on the small ledger *)

Lemma explicit_shares_must_sum_witness :
  _replace_shares sample_db sample_expense
    (Some [ShareInputSchema.mk 1 (Decimal.mk 6000 (-2));
           ShareInputSchema.mk 2 (Decimal.mk 4001 (-2))])
  = Raise AmountMismatchError.
Proof.
  assert (Hm : all_members sample_db (Expense.group_id sample_expense)
                 [ShareInputSchema.mk 1 (Decimal.mk 6000 (-2));
                  ShareInputSchema.mk 2 (Decimal.mk 4001 (-2))]).
  { intros s [<-|[<-|[]]]; vm_compute; discriminate. }
  apply (proj1 (explicit_shares_must_sum sample_db sample_expense _ Hm)).
  reflexivity.
Defined.

Lemma duplicate_users_pass_through_witness :
  exists db',
    _replace_shares sample_db sample_expense
      (Some [ShareInputSchema.mk 2 (Decimal.mk 2500 (-2));
             ShareInputSchema.mk 2 (Decimal.mk 7500 (-2))])
    = Ok db'
    /\ map share_view (shares_of db' 1)
       = [(2, Decimal.mk 2500 (-2), false);
          (2, Decimal.mk 7500 (-2), false)].
Proof.
  destruct (duplicate_users_pass_through sample_db sample_expense
              [ShareInputSchema.mk 2 (Decimal.mk 2500 (-2));
               ShareInputSchema.mk 2 (Decimal.mk 7500 (-2))])
    as (db' & H & Hv & _).
  - simpl. intros Hn. inversion Hn as [|x l Hx _]. apply Hx. now left.
  - intros s [<-|[<-|[]]]; vm_compute; discriminate.
  - reflexivity.
  - exists db'. split; [exact H | exact Hv].
Defined.


Lemma patch_without_amount_keeps_shares_witness :
  expense_shares
    (committed sample_db
       (ExpenseItem.patch sample_db
          (ExpenseUpdateSchema.mk (Some "Dinner"%string) None (Some (Some 2))
             None None) 1))
  = expense_shares sample_db.
Proof.
  apply (patch_without_amount_keeps_shares sample_db
           (ExpenseUpdateSchema.mk (Some "Dinner"%string) None (Some (Some 2))
              None None) 1); reflexivity.
Defined.

Lemma equal_split_empty_group_witness :
  GroupExpensesCollection.post 7 empty_group_db
    (ExpenseCreateSchema.mk "Rent" (Decimal.mk 1000 (-2)) None None None) 1
  = Raise EmptyGroupError.
Proof.
  apply (proj1 (proj2 (equal_split_empty_group (Decimal.mk 1000 (-2)) []))
           7 empty_group_db
           (ExpenseCreateSchema.mk "Rent" (Decimal.mk 1000 (-2)) None None
              None) 1).
  - reflexivity.
  - reflexivity.
  - reflexivity.
  - discriminate.
  - reflexivity.
Defined.

(** C2.  The sum of the shares is not always the amount: [post] accepts a
    negative amount, and the equal split of -10.00 over three members is
    three shares of -3.33, which sum to -9.99. *)
Theorem negative_amount_breaks_conservation :
  exists db' e,
    GroupExpensesCollection.post 7 sample_db
      (ExpenseCreateSchema.mk "Refund" (Decimal.mk (-1000) (-2)) (Some 1)
         None None) 1
    = Ok (db', e)
    /\ In e (expenses db')
    /\ Expense.amount e = Decimal.mk (-1000) (-2)
    /\ map share_view (shares_of db' (Expense.id e))
       = [(1, Decimal.mk (-333) (-2), false);
          (2, Decimal.mk (-333) (-2), false);
          (3, Decimal.mk (-333) (-2), false)]
    /\ Decimal.sum (map ExpenseShare.amount (shares_of db' (Expense.id e)))
       = Decimal.mk (-999) (-2)
    /\ Decimal.eqb
         (Decimal.sum (map ExpenseShare.amount
                         (shares_of db' (Expense.id e))))
         (Expense.amount e) = false.
Proof.
  eexists. eexists. split; [vm_compute; reflexivity|].
  split; [right; left; reflexivity|].
  repeat split.
Qed.

(** ** Conservation when no amount is negative *)

Lemma next_id_above (l : list Z) (x : Z) : In x l -> x < next_id l.
Proof.
  unfold next_id. induction l as [|y l IH]; cbn [fold_right In]; [tauto|].
  intros [->|H]; [lia|]. specialize (IH H). lia.
Qed.


Lemma same_key_eq (k1 k2 : option Z) : same_key k1 k2 = true <-> k1 = k2.
Proof.
  destruct k1 as [a|], k2 as [b|]; simpl; split; try congruence.
  - intros H. apply Z.eqb_eq in H. now subst.
  - intros H. injection H as ->. apply Z.eqb_refl.
Qed.

(** Rows that stay after a deletion keep distinct keys. *)
Lemma share_keys_filter (keep : ExpenseShare.t -> bool)
    (rows : list ExpenseShare.t) :
  NoDup (map ExpenseShare.id rows) ->
  NoDup (map ExpenseShare.id (filter keep rows)).
Proof.
  induction rows as [|sh rows IH]; simpl; intros Hk; [constructor|].
  inversion Hk as [|k ks Hfresh Hrest]; subst.
  destruct (keep sh); simpl; [|now apply IH].
  constructor; [|now apply IH].
  intros Hin. apply Hfresh.
  apply in_map_iff in Hin. destruct Hin as (sh' & Hid & Hin).
  apply filter_In in Hin. rewrite <- Hid. apply in_map. tauto.
Qed.

(** Two rows of the table with the same key are the same row. *)
Lemma share_key_determines_row (rows : list ExpenseShare.t)
    (a b : ExpenseShare.t) :
  NoDup (map ExpenseShare.id rows) ->
  In a rows -> In b rows ->
  ExpenseShare.id a = ExpenseShare.id b -> a = b.
Proof.
  induction rows as [|sh rows IH]; simpl; intros Hk Ha Hb E; [tauto|].
  inversion Hk as [|k ks Hfresh Hrest]; subst.
  destruct Ha as [->|Ha], Hb as [->|Hb]; auto.
  - exfalso. apply Hfresh. rewrite E. now apply in_map.
  - exfalso. apply Hfresh. rewrite <- E. now apply in_map.
Qed.

(** Deleting the shares of an expense keeps the keys unique and leaves the
    shares of the other expenses alone. *)
Lemma delete_shares_frame (db : DB) (eid : Z) :
  share_keys_unique db ->
  let db1 := fold_left delete_share (shares_of db eid) db in
  share_keys_unique db1
  /\ expenses db1 = expenses db
  /\ forall eid', eid' <> eid -> shares_of db1 eid' = shares_of db eid'.
Proof.
  intros Hu db1. subst db1. rewrite fold_delete_share.
  unfold share_keys_unique in *. simpl. split; [|split].
  - now apply share_keys_filter.
  - reflexivity.
  - intros eid' Hne. unfold shares_of at 1. simpl.
    unfold shares_of at 2.
    assert (H : forall l, incl l (expense_shares db) ->
              filter (fun sh => key_is (ExpenseShare.expense_id sh) eid')
                (filter
                   (fun sh => negb
                      (existsb (fun old => same_key (ExpenseShare.id sh)
                                             (ExpenseShare.id old))
                               (shares_of db eid))) l)
              = filter (fun sh => key_is (ExpenseShare.expense_id sh) eid')
                  l).
    { induction l as [|x l IH]; intros Hin; simpl; [reflexivity|].
      assert (Hl : incl l (expense_shares db))
        by (intros y Hy; apply Hin; now right).
      destruct (existsb _ (shares_of db eid)) eqn:Ex; simpl.
      - apply existsb_exists in Ex. destruct Ex as (old & Hold & Hk).
        apply same_key_eq in Hk. apply filter_In in Hold.
        destruct Hold as [Hold Hexp].
        assert (x = old).
        { eapply share_key_determines_row; eauto. apply Hin. now left. }
        subst old.
        destruct (key_is (ExpenseShare.expense_id x) eid') eqn:Ek.
        + exfalso. apply Hne. unfold key_is in *.
          destruct (ExpenseShare.expense_id x); [|discriminate].
          apply Z.eqb_eq in Ek, Hexp. congruence.
        + now apply IH.
      - rewrite IH by assumption. reflexivity. }
    apply H. apply incl_refl.
Qed.




Lemma explicit_shares_loop_ok (db : DB) (gid : Z)
    (l : list ShareInputSchema.t) (acc objs : list ExpenseShare.t)
    (tot total : Decimal.t) :
  explicit_shares_loop db gid l acc tot = Ok (objs, total) ->
  map ExpenseShare.amount objs
  = map ExpenseShare.amount acc ++ map rounded l
  /\ total = fold_left Decimal.add (map rounded l) tot.
Proof.
  revert acc tot. induction l as [|s l IH]; intros acc tot H; simpl in H.
  - injection H as <- <-. rewrite app_nil_r. now split.
  - destruct (GroupMember_first _ _ _); [|discriminate H].
    apply IH in H. destruct H as [H1 H2]. split; [|exact H2].
    rewrite H1, map_app, <- app_assoc. reflexivity.
Qed.

(** An equal split of an amount that is not negative sums to it. *)
Lemma equal_split_sum (c : Z) (ids : list Z) (objs : list ExpenseShare.t) :
  0 <= c ->
  _equal_split (cents c) ids = Ok objs ->
  Decimal.sum (map ExpenseShare.amount objs) = cents c.
Proof.
  intros Hc H.
  assert (Hne : ids <> []).
  { intros ->. discriminate H. }
  rewrite equal_split_cents in H by assumption. injection H as <-.
  set (n := Z.of_nat (List.length ids)).
  assert (Hn : 0 < n).
  { subst n. destruct ids; [congruence|]. simpl. lia. }
  rewrite (Z.quot_div_nonneg c n) by lia.
  replace (c - c / n * n) with (c mod n) by (rewrite Z.mod_eq by lia; lia).
  pose proof (Z.mod_pos_bound c n Hn) as Hb.
  rewrite equal_split_loop_amounts, sum_cents, split_cents_sum.
  - fold n. f_equal. rewrite Z.max_r, Z.min_l by lia.
    rewrite (Z.div_mod c n) at 3 by lia. lia.
  - destruct ids; [congruence|]. simpl. destruct (0 <? c mod n);
      discriminate.
Qed.

Lemma new_objects_sum (db : DB) (e : Expense.t)
    (new_shares : option (list ShareInputSchema.t))
    (objs : list ExpenseShare.t) :
  new_share_objects db e new_shares = Ok objs ->
  (new_shares = None ->
   Decimal.expo (Expense.amount e) = -2
   /\ 0 <= Decimal.coeff (Expense.amount e)) ->
  Decimal.eqb (Decimal.sum (map ExpenseShare.amount objs))
    (Expense.amount e) = true.
Proof.
  unfold new_share_objects. intros H Hc. destruct new_shares as [l|].
  - destruct (explicit_shares_loop db (Expense.group_id e) l []
                Decimal.zero) as [[objs' total]|] eqn:Hl; [|discriminate H].
    simpl in H.
    destruct (Decimal.eqb total (Expense.amount e)) eqn:He;
      [|discriminate H].
    injection H as <-. apply explicit_shares_loop_ok in Hl.
    destruct Hl as [H1 H2]. rewrite H1. simpl. unfold Decimal.sum.
    now rewrite <- H2.
  - destruct (Hc eq_refl) as [Hx Hp].
    destruct (Expense.amount e) as [c x]; simpl in *. subst x.
    change (Decimal.mk c (-2)) with (cents c) in *.
    rewrite (equal_split_sum c _ _ Hp H), eqb_cents. apply Z.eqb_refl.
Qed.

Lemma view_amounts (rows objs : list ExpenseShare.t) :
  map share_view rows = map share_view objs ->
  map ExpenseShare.amount rows = map ExpenseShare.amount objs.
Proof.
  intros H.
  apply (f_equal (map (fun v : Z * Decimal.t * bool => snd (fst v)))) in H.
  rewrite !map_map in H. exact H.
Qed.


Lemma quantize_expo (d e : Decimal.t) (r : Decimal.rounding) :
  Decimal.expo (Decimal.quantize d e r) = Decimal.expo e.
Proof.
  unfold Decimal.quantize. destruct (_ <=? _); reflexivity.
Qed.

Lemma post_ok_inv (now : datetime) (db : DB) (data : ExpenseCreateSchema.t)
    (gid : Z) (db' : DB) (e' : Expense.t) :
  GroupExpensesCollection.post now db data gid = Ok (db', e') ->
  ExpenseCreateSchema.load data = Ok data
  /\ (exists g, Group_get db gid = Some g)
  /\ _ensure_user_in_group db gid
       (ExpenseCreateSchema.paid_by_user_id data) = Ok tt.
Proof.
  unfold GroupExpensesCollection.post. intros H.
  destruct (ExpenseCreateSchema.load data) as [d|] eqn:Hl;
    [|discriminate H].
  apply create_load_ok in Hl as Hd. subst d. split; [reflexivity|].
  simpl in H. destruct (Group_get db gid) as [g|]; [|discriminate H].
  split; [eauto|].
  destruct (_ensure_user_in_group db gid
              (ExpenseCreateSchema.paid_by_user_id data)) as [[]|];
    [reflexivity | discriminate H].
Qed.













(** The unique constraint is what stops repeated user ids, at commit. *)
Example duplicate_users_rejected_at_commit :
  GroupExpensesCollection.post 7 sample_db
    (ExpenseCreateSchema.mk "Taxi" (Decimal.mk 2000 (-2)) None None
       (Some [ShareInputSchema.mk 2 (Decimal.mk 500 (-2));
              ShareInputSchema.mk 2 (Decimal.mk 1500 (-2))]))
    1
  = Raise (IntegrityError "uq_expense_share_expense_user").
Proof. reflexivity. Qed.

(** * Further properties of the handlers *)

(** ** The ledger across requests *)


(** ** The allocator on a negative total *)





(** ** Member checks of the reconciler and of the payer *)

Lemma explicit_shares_loop_foreign (db : DB) (gid : Z)
    (l1 l2 : list ShareInputSchema.t) (s : ShareInputSchema.t)
    (acc : list ExpenseShare.t) (tot : Decimal.t) :
  all_members db gid l1 ->
  GroupMember_first db gid (ShareInputSchema.user_id s) = None ->
  explicit_shares_loop db gid (l1 ++ s :: l2) acc tot
  = Raise (ForeignMemberError (ShareInputSchema.user_id s)).
Proof.
  revert acc tot. induction l1 as [|x l1 IH]; intros acc tot Hm Hs; simpl.
  - now rewrite Hs.
  - destruct (GroupMember_first db gid (ShareInputSchema.user_id x)) eqn:E.
    + apply IH; [|exact Hs]. intros y Hy. apply Hm. now right.
    + exfalso. apply (Hm x); [now left | exact E].
Qed.

(** The first supplied user id that is not a member of the group stops
    the reconciler with "user_id ... is not a member of the group", whatever
    the amounts are, and [post] and [patch] raise the same and commit
    nothing. *)
Theorem foreign_member_rejected (db : DB)
    (l1 l2 : list ShareInputSchema.t) (s : ShareInputSchema.t) :
  let uid := ShareInputSchema.user_id s in
  (forall expense,
     all_members db (Expense.group_id expense) l1 ->
     GroupMember_first db (Expense.group_id expense) uid = None ->
     _replace_shares db expense (Some (l1 ++ s :: l2))
     = Raise (ForeignMemberError uid))
  /\ (forall now data gid g,
        ExpenseCreateSchema.load data = Ok data ->
        Group_get db gid = Some g ->
        _ensure_user_in_group db gid
          (ExpenseCreateSchema.paid_by_user_id data) = Ok tt ->
        ExpenseCreateSchema.shares data = Some (l1 ++ s :: l2) ->
        all_members db gid l1 ->
        GroupMember_first db gid uid = None ->
        GroupExpensesCollection.post now db data gid
        = Raise (ForeignMemberError uid)
        /\ committed db (GroupExpensesCollection.post now db data gid) = db)
  /\ (forall data eid e0,
        ExpenseUpdateSchema.load data = Ok data ->
        Expense_get db eid = Some e0 ->
        patch_payer_ok db data e0 ->
        ExpenseUpdateSchema.shares data = Some (l1 ++ s :: l2) ->
        all_members db (Expense.group_id e0) l1 ->
        GroupMember_first db (Expense.group_id e0) uid = None ->
        ExpenseItem.patch db data eid = Raise (ForeignMemberError uid)
        /\ committed db (ExpenseItem.patch db data eid) = db).
Proof.
  intros uid.
  assert (Hrec : forall d expense,
            group_members d = group_members db ->
            all_members db (Expense.group_id expense) l1 ->
            GroupMember_first db (Expense.group_id expense) uid = None ->
            _replace_shares d expense (Some (l1 ++ s :: l2))
            = Raise (ForeignMemberError uid)).
  { intros d expense Hd Hm Hs. apply replace_shares_raise.
    unfold new_share_objects.
    rewrite explicit_shares_loop_foreign; [reflexivity | |].
    - eapply all_members_frame; eauto.
    - unfold GroupMember_first in *. now rewrite Hd. }
  split; [|split].
  - intros expense. now apply Hrec.
  - intros now data gid g Hl Hg Hp Hs Hm Hu.
    assert (H : GroupExpensesCollection.post now db data gid
                = Raise (ForeignMemberError uid)).
    { rewrite (post_steps now db data gid g Hl Hg Hp), Hs.
      rewrite Hrec; [reflexivity | reflexivity | exact Hm | exact Hu]. }
    rewrite H. split; reflexivity.
  - intros data eid e0 Hl Hg Hp Hs Hm Hu.
    destruct (patched_expense_id data e0) as [_ Hgid].
    assert (H : ExpenseItem.patch db data eid
                = Raise (ForeignMemberError uid)).
    { rewrite (patch_steps db data eid e0 Hl Hg Hp), Hs.
      rewrite Hrec; [reflexivity | reflexivity | |]; now rewrite Hgid. }
    rewrite H. split; reflexivity.
Qed.

Lemma foreign_member_rejected_witness :
  _replace_shares sample_db sample_expense
    (Some [ShareInputSchema.mk 1 (Decimal.mk 5000 (-2));
           ShareInputSchema.mk 9 (Decimal.mk 5000 (-2))])
  = Raise (Abort 400 "user_id 9 is not a member of the group").
Proof.
  apply (proj1 (foreign_member_rejected sample_db
                  [ShareInputSchema.mk 1 (Decimal.mk 5000 (-2))] []
                  (ShareInputSchema.mk 9 (Decimal.mk 5000 (-2))))
           sample_expense).
  - intros x [<-|[]]. vm_compute. discriminate.
  - reflexivity.
Defined.

(** A payer who is not a member of the group stops [post] and [patch]
    with "paid_by_user_id must be a member of the group" and nothing is
    committed; so the payer of an expense that [post] returns, or that
    [patch] sets, is a member of the group of the expense, and [patch] may
    clear the payer. *)
Theorem payer_must_be_member :
  (forall now db data gid u,
     ExpenseCreateSchema.load data = Ok data ->
     Group_get db gid <> None ->
     ExpenseCreateSchema.paid_by_user_id data = Some u ->
     GroupMember_first db gid u = None ->
     GroupExpensesCollection.post now db data gid
     = Raise PayerNotMemberError)
  /\ (forall db data eid e0 u,
        ExpenseUpdateSchema.load data = Ok data ->
        Expense_get db eid = Some e0 ->
        ExpenseUpdateSchema.paid_by_user_id data = Some (Some u) ->
        GroupMember_first db (Expense.group_id e0) u = None ->
        ExpenseItem.patch db data eid = Raise PayerNotMemberError)
  /\ (forall now db data gid db' e,
        GroupExpensesCollection.post now db data gid = Ok (db', e) ->
        Expense.paid_by_user_id e
        = ExpenseCreateSchema.paid_by_user_id data
        /\ forall u, Expense.paid_by_user_id e = Some u ->
             GroupMember_first db gid u <> None)
  /\ (forall db data eid db' e p,
        ExpenseItem.patch db data eid = Ok (db', e) ->
        ExpenseUpdateSchema.paid_by_user_id data = Some p ->
        Expense.paid_by_user_id e = p
        /\ forall u, p = Some u ->
             GroupMember_first db (Expense.group_id e) u <> None).
Proof.
  split; [|split; [|split]].
  - intros now db data gid u Hl Hg Hu Hm.
    unfold GroupExpensesCollection.post. rewrite Hl. simpl.
    destruct (Group_get db gid); [|congruence].
    rewrite Hu. simpl. rewrite Hm. reflexivity.
  - intros db data eid e0 u Hl Hg Hu Hm.
    unfold ExpenseItem.patch. rewrite Hl. simpl. rewrite Hg, Hu. simpl.
    assert (Hgid : Expense.group_id
              (match ExpenseUpdateSchema.description data with
               | Some d0 => if is_empty d0 then e0
                            else set_description e0 (strip d0)
               | None => e0 end) = Expense.group_id e0).
    { destruct (ExpenseUpdateSchema.description data) as [d|];
        [destruct (is_empty d)|]; reflexivity. }
    rewrite Hgid, Hm. reflexivity.
  - intros now db data gid db' e H.
    destruct (post_ok_inv _ _ _ _ _ _ H) as (Hl & [g Hg] & Hp).
    rewrite (post_steps now db data gid g Hl Hg Hp) in H.
    destruct (_replace_shares _ _ _) as [db2|]; [|discriminate H].
    simpl in H. destruct (commit db2); [|discriminate H].
    injection H as _ <-. simpl. split; [reflexivity|].
    intros u Hu. rewrite Hu in Hp. simpl in Hp.
    destruct (GroupMember_first db gid u); [discriminate | discriminate Hp].
  - intros db data eid db' e p H Hu.
    destruct (patch_ok_inv _ _ _ _ _ H) as (Hl & e0 & Hg & Hp).
    rewrite (patch_steps db data eid e0 Hl Hg Hp) in H.
    match type of H with
    | bind ?r _ = _ => destruct r as [db2|]; [|discriminate H]
    end.
    simpl in H. destruct (commit db2); [|discriminate H].
    injection H as _ <-.
    destruct (patched_expense_id data e0) as [_ Hgid]. rewrite Hgid.
    unfold patch_payer_ok in Hp. rewrite Hu in Hp.
    split.
    + unfold patched_expense. rewrite Hu.
      destruct (ExpenseUpdateSchema.expense_date data) as [[d|]|];
        destruct (ExpenseUpdateSchema.amount data); reflexivity.
    + intros u ->. simpl in Hp.
      destruct (GroupMember_first db (Expense.group_id e0) u);
        [discriminate | discriminate Hp].
Qed.

Lemma payer_must_be_member_witness :
  GroupExpensesCollection.post 7 sample_db
    (ExpenseCreateSchema.mk "Taxi" (Decimal.mk 2000 (-2)) (Some 9) None
       None) 1
  = Raise PayerNotMemberError.
Proof.
  apply (proj1 payer_must_be_member 7 sample_db _ 1 9).
  - reflexivity.
  - discriminate.
  - reflexivity.
  - reflexivity.
Defined.

(** ** What settling changes *)

Lemma settle_first_split (sid eid : Z) (l : list ExpenseShare.t)
    (sh : ExpenseShare.t) :
  find (is_share sid eid) l = Some sh ->
  exists l1 l2,
    l = l1 ++ sh :: l2
    /\ ExpenseShareSettle.settle_first sid eid l = l1 ++ settled sh :: l2
    /\ Forall (fun x => is_share sid eid x = false) l1
    /\ is_share sid eid sh = true.
Proof.
  induction l as [|x l IH]; simpl; [discriminate|].
  destruct (is_share sid eid x) eqn:E.
  - intros H. injection H as <-. exists [], l. repeat split; auto.
  - intros H. destruct (IH H) as (l1 & l2 & H1 & H2 & H3 & H4).
    exists (x :: l1), l2. simpl. rewrite <- H1, H2. repeat split; auto.
Qed.

(** A settle that returns changes one thing: the flag of the first row
    with the given share id and expense id becomes [True].  Every other
    row, every amount, user and key, and all the other tables stay as they
    were, and the share returned is that row. *)
Theorem settle_changes_one_flag (db : DB) (expense_id share_id : Z)
    (db1 : DB) (share : ExpenseShare.t) :
  ExpenseShareSettle.post db expense_id share_id = Ok (db1, share) ->
  users db1 = users db
  /\ groups db1 = groups db
  /\ group_members db1 = group_members db
  /\ expenses db1 = expenses db
  /\ map share_core (expense_shares db1) = map share_core (expense_shares db)
  /\ exists before sh after,
       expense_shares db = before ++ sh :: after
       /\ expense_shares db1 = before ++ share :: after
       /\ share_core share = share_core sh
       /\ ExpenseShare.is_settled share = true
       /\ ExpenseShare.id sh = Some share_id
       /\ ExpenseShare.expense_id sh = Some expense_id.
Proof.
  intros H. apply settle_post_ok in H.
  destruct H as (e & sh & _ & Hf & -> & -> & _). simpl.
  unfold ExpenseShare_first in Hf.
  destruct (settle_first_split _ _ _ _ Hf) as (l1 & l2 & H1 & H2 & _ & H4).
  repeat split.
  - rewrite H2, H1, !map_app. reflexivity.
  - exists l1, sh, l2. rewrite H2. repeat split; try assumption.
    + unfold is_share, key_is in H4. apply andb_prop in H4.
      destruct H4 as [H4 _].
      destruct (ExpenseShare.id sh); [|discriminate].
      apply Z.eqb_eq in H4. now subst.
    + unfold is_share, key_is in H4. apply andb_prop in H4.
      destruct H4 as [_ H4].
      destruct (ExpenseShare.expense_id sh); [|discriminate].
      apply Z.eqb_eq in H4. now subst.
Qed.

Lemma settle_changes_one_flag_witness :
  exists db1 share,
    ExpenseShareSettle.post sample_db 1 3 = Ok (db1, share)
    /\ map share_core (expense_shares db1)
       = map share_core (expense_shares sample_db).
Proof.
  destruct (ExpenseShareSettle.post sample_db 1 3) as [[db1 share]|] eqn:H.
  - exists db1, share. split; [reflexivity|].
    apply (settle_changes_one_flag sample_db 1 3 db1 share H).
  - vm_compute in H. discriminate H.
Defined.

(** A share can only be settled through its own expense: with unique share
    keys, a share id that belongs to another expense gives 404 and nothing
    is committed. *)
Theorem settle_through_other_expense (db : DB) (expense_id share_id : Z)
    (sh : ExpenseShare.t) :
  share_keys_unique db ->
  In sh (expense_shares db) ->
  ExpenseShare.id sh = Some share_id ->
  ExpenseShare.expense_id sh <> Some expense_id ->
  (exists m,
     ExpenseShareSettle.post db expense_id share_id = Raise (Abort 404 m))
  /\ (Expense_get db expense_id <> None ->
      ExpenseShareSettle.post db expense_id share_id
      = Raise (Abort 404 "Expense share not found"))
  /\ committed db (ExpenseShareSettle.post db expense_id share_id) = db.
Proof.
  intros Hu Hin Hid Hne.
  assert (Hf : ExpenseShare_first db share_id expense_id = None).
  { unfold ExpenseShare_first.
    destruct (find _ (expense_shares db)) as [x|] eqn:Hx; [|reflexivity].
    apply find_some in Hx. destruct Hx as [Hxin Hx].
    unfold is_share, key_is in Hx. apply andb_prop in Hx.
    destruct Hx as [Hx1 Hx2].
    destruct (ExpenseShare.id x) as [i|] eqn:Ei; [|discriminate].
    destruct (ExpenseShare.expense_id x) as [j|] eqn:Ej; [|discriminate].
    apply Z.eqb_eq in Hx1, Hx2. subst i j.
    assert (x = sh).
    { eapply share_key_determines_row; eauto. congruence. }
    subst x. congruence. }
  unfold ExpenseShareSettle.post. rewrite Hf.
  destruct (Expense_get db expense_id).
  - split; [eexists; reflexivity|]. split; reflexivity.
  - split; [eexists; reflexivity|]. split; [congruence | reflexivity].
Qed.

Lemma settle_through_other_expense_witness :
  ExpenseShareSettle.post
    (set_expenses sample_db
       (expenses sample_db
        ++ [Expense.mk 2 1 None "Taxi" (Decimal.mk 0 (-2)) 0 None None]))
    2 3
  = Raise (Abort 404 "Expense share not found").
Proof.
  eapply (proj1 (proj2 (settle_through_other_expense _ 2 3
                          (ExpenseShare.mk (Some 3) (Some 1) 3
                             (Decimal.mk 3333 (-2)) false) _ _ _ _))).
  discriminate.
  Unshelve.
  - unfold share_keys_unique. simpl.
    repeat (constructor; [simpl; intuition discriminate|]). constructor.
  - simpl. tauto.
  - reflexivity.
  - discriminate.
Defined.

(** ** Balances and the shares they read *)

(** The balance of a user comes out of the expenses they paid and of
    their unsettled shares, and of nothing else. *)
Lemma balance_of_accumulate (db : DB) (exps : list Expense.t) (uid : Z) :
  uid <> 0 ->
  Forall (fun e => In e (expenses db)) exps ->
  balance_of uid
    (map (GroupBalances.entry db) (GroupBalances.accumulate db [] exps))
  = balance_from (paid_by_user exps uid) (unsettled_of_user db exps uid).
Proof.
  intros Hu Hsub.
  rewrite balance_of_entries, accumulate_events, fold_events_find.
  fold (mine uid (expense_events db exps)). simpl dict_find.
  set (m := floor_expo (map Expense.amount (expenses db)
                        ++ map ExpenseShare.amount (expense_shares db))).
  destruct (floor_expo_le (map Expense.amount (expenses db)
                           ++ map ExpenseShare.amount (expense_shares db)))
    as [H0 Hall].
  fold m in H0, Hall. apply Forall_app in Hall. destruct Hall as [He Hs].
  rewrite Forall_map in He, Hs.
  assert (Hex : Forall (fun e => m <= Decimal.expo (Expense.amount e)) exps).
  { rewrite Forall_forall in *. intros e Hin. apply He. now apply Hsub. }
  destruct (expense_events_mine m uid db exps Hu H0 Hex Hs)
    as (E1 & E2 & E3).
  assert (Hmine : Forall (fun ev => m <= Decimal.expo (event_amount ev))
                         (mine uid (expense_events db exps)))
    by (apply Forall_filter_in; exact E3).
  assert (Hp : Forall (fun d => m <= Decimal.expo d)
                 (map Expense.amount (paid_by_user exps uid))).
  { rewrite Forall_map. apply Forall_filter_in. exact Hex. }
  assert (Hun : Forall (fun d => m <= Decimal.expo d)
                  (map ExpenseShare.amount
                     (unsettled_of_user db exps uid))).
  { rewrite Forall_map. apply Forall_forall. intros sh Hin.
    apply in_flat_map in Hin. destruct Hin as (e & _ & Hin).
    apply filter_In in Hin. destruct Hin as [Hin _].
    apply filter_In in Hin. destruct Hin as [Hin _].
    rewrite Forall_forall in Hs. now apply Hs. }
  destruct (fold_amount_value m _ Decimal.zero H0 Hmine) as [F1 F2].
  destruct (sum_value m _ H0 Hp) as [P1 P2].
  destruct (sum_value m _ H0 Hun) as [U1 U2].
  destruct (coeff_at_sub m _ _ P2 U2) as [D1 D2].
  assert (Hval : Decimal.quantize
                   (fold_left apply_amount (mine uid (expense_events db exps))
                      Decimal.zero)
                   two_places Decimal.ROUND_HALF_EVEN
                 = Decimal.quantize
                     (Decimal.sub
                        (Decimal.sum
                           (map Expense.amount (paid_by_user exps uid)))
                        (Decimal.sum
                           (map ExpenseShare.amount
                              (unsettled_of_user db exps uid))))
                     two_places Decimal.ROUND_HALF_EVEN).
  { apply (quantize_by_value m); [exact F2 | exact D2 |].
    rewrite F1, D1, P1, U1, E1, !map_map.
    unfold Decimal.coeff_at at 1. simpl. lia. }
  unfold balance_from.
  destruct (mine uid (expense_events db exps)) as [|ev evs] eqn:Hm.
  - simpl in E2.
    destruct (paid_by_user exps uid); [|discriminate E2].
    destruct (unsettled_of_user db exps uid); [|discriminate E2].
    reflexivity.
  - transitivity (Some (Decimal.quantize
                     (Decimal.sub
                        (Decimal.sum
                           (map Expense.amount (paid_by_user exps uid)))
                        (Decimal.sum
                           (map ExpenseShare.amount
                              (unsettled_of_user db exps uid))))
                     two_places Decimal.ROUND_HALF_EVEN)).
    + rewrite <- Hval. reflexivity.
    + destruct (paid_by_user exps uid), (unsettled_of_user db exps uid);
        try reflexivity.
      discriminate E2.
Qed.

Lemma balance_in_group (db : DB) (gid uid : Z) :
  uid <> 0 ->
  balance_of uid (balances_in db gid)
  = match Group_get db gid with
    | None => None
    | Some _ =>
        balance_from (paid_by_user (group_expenses db gid) uid)
          (unsettled_of_user db (group_expenses db gid) uid)
    end.
Proof.
  intros Hu. unfold balances_in, GroupBalances.get.
  destruct (Group_get db gid); [|reflexivity].
  apply balance_of_accumulate; [exact Hu|].
  apply Forall_forall. intros e He. apply filter_In in He. tauto.
Qed.

Lemma unsettled_after_settle (sid eid i uid : Z) (l : list ExpenseShare.t)
    (sh : ExpenseShare.t) :
  find (is_share sid eid) l = Some sh ->
  ExpenseShare.user_id sh <> uid ->
  filter (unsettled_share_of uid)
    (filter (fun x => key_is (ExpenseShare.expense_id x) i)
       (ExpenseShareSettle.settle_first sid eid l))
  = filter (unsettled_share_of uid)
      (filter (fun x => key_is (ExpenseShare.expense_id x) i) l).
Proof.
  intros Hf Hne.
  destruct (settle_first_split _ _ _ _ Hf) as (l1 & l2 & -> & -> & _ & _).
  rewrite !filter_app. f_equal. simpl.
  assert (Hs : unsettled_share_of uid (settled sh) = false) by reflexivity.
  assert (Ho : unsettled_share_of uid sh = false).
  { unfold unsettled_share_of. apply andb_false_iff. right.
    now apply Z.eqb_neq. }
  change (ExpenseShare.expense_id (settled sh))
    with (ExpenseShare.expense_id sh).
  destruct (key_is (ExpenseShare.expense_id sh) i); [|reflexivity].
  simpl. now rewrite Ho.
Qed.

(** Settling a share leaves the balance of every other user as it was, in
    every group, and leaves who paid what untouched. *)
Theorem settle_keeps_other_balances (db : DB) (expense_id share_id : Z)
    (db1 : DB) (share : ExpenseShare.t) :
  ExpenseShareSettle.post db expense_id share_id = Ok (db1, share) ->
  expenses db1 = expenses db
  /\ forall gid uid,
       uid <> 0 ->
       uid <> ExpenseShare.user_id share ->
       balance_of uid (balances_in db1 gid)
       = balance_of uid (balances_in db gid).
Proof.
  intros H. apply settle_post_ok in H.
  destruct H as (e & sh & _ & Hf & -> & -> & _).
  split; [reflexivity|]. intros gid uid Hu Hne.
  rewrite !balance_in_group by assumption.
  change (Group_get (set_shares db ?l) gid) with (Group_get db gid).
  destruct (Group_get db gid); [|reflexivity].
  change (group_expenses (set_shares db ?l) gid)
    with (group_expenses db gid).
  f_equal. unfold unsettled_of_user.
  induction (group_expenses db gid) as [|x xs IH]; simpl; [reflexivity|].
  rewrite IH. f_equal. unfold shares_of. simpl.
  apply (unsettled_after_settle share_id expense_id (Expense.id x) uid
           (expense_shares db) sh Hf).
  simpl in Hne. congruence.
Qed.

Lemma settle_keeps_other_balances_witness :
  exists db1 share,
    ExpenseShareSettle.post sample_db 1 3 = Ok (db1, share)
    /\ balance_of 1 (balances_in db1 1)
       = balance_of 1 (balances_in sample_db 1).
Proof.
  destruct (ExpenseShareSettle.post sample_db 1 3) as [[db1 share]|] eqn:H.
  - exists db1, share. split; [reflexivity|].
    destruct (settle_keeps_other_balances sample_db 1 3 db1 share H)
      as [_ Hb].
    apply Hb; [discriminate|].
    vm_compute in H. injection H as _ <-. discriminate.
  - vm_compute in H. discriminate H.
Defined.

Lemma unsettled_elsewhere (sid eid i uid : Z) (l : list ExpenseShare.t)
    (sh : ExpenseShare.t) :
  find (is_share sid eid) l = Some sh ->
  i <> eid ->
  filter (unsettled_share_of uid)
    (filter (fun x => key_is (ExpenseShare.expense_id x) i)
       (ExpenseShareSettle.settle_first sid eid l))
  = filter (unsettled_share_of uid)
      (filter (fun x => key_is (ExpenseShare.expense_id x) i) l).
Proof.
  intros Hf Hne.
  destruct (settle_first_split _ _ _ _ Hf) as (l1 & l2 & -> & -> & _ & Hs).
  rewrite !filter_app. f_equal. simpl.
  change (ExpenseShare.expense_id (settled sh))
    with (ExpenseShare.expense_id sh).
  unfold is_share in Hs. apply andb_prop in Hs. destruct Hs as [_ Hs].
  assert (Hk : key_is (ExpenseShare.expense_id sh) i = false).
  { unfold key_is in *. destruct (ExpenseShare.expense_id sh);
      [|reflexivity].
    apply Z.eqb_eq in Hs. apply Z.eqb_neq. congruence. }
  now rewrite Hk.
Qed.

Lemma unsettled_of_settled_expense (sid eid : Z) (l : list ExpenseShare.t)
    (sh : ExpenseShare.t) :
  find (is_share sid eid) l = Some sh ->
  ExpenseShare.is_settled sh = false ->
  let mine_of rows :=
    filter (unsettled_share_of (ExpenseShare.user_id sh))
      (filter (fun x => key_is (ExpenseShare.expense_id x) eid) rows) in
  exists P Q,
    mine_of l = P ++ sh :: Q
    /\ mine_of (ExpenseShareSettle.settle_first sid eid l) = P ++ Q.
Proof.
  intros Hf Hun mine_of. subst mine_of.
  destruct (settle_first_split _ _ _ _ Hf) as (l1 & l2 & -> & -> & _ & Hs).
  unfold is_share in Hs. apply andb_prop in Hs. destruct Hs as [_ Hs].
  exists (filter (unsettled_share_of (ExpenseShare.user_id sh))
            (filter (fun x => key_is (ExpenseShare.expense_id x) eid) l1)),
         (filter (unsettled_share_of (ExpenseShare.user_id sh))
            (filter (fun x => key_is (ExpenseShare.expense_id x) eid) l2)).
  assert (Ho : unsettled_share_of (ExpenseShare.user_id sh) sh = true).
  { unfold unsettled_share_of. now rewrite Hun, Z.eqb_refl. }
  rewrite !filter_app. cbn [filter].
  change (ExpenseShare.expense_id (settled sh))
    with (ExpenseShare.expense_id sh).
  rewrite Hs. cbn [filter]. rewrite Ho.
  change (unsettled_share_of (ExpenseShare.user_id sh) (settled sh))
    with (negb true && (ExpenseShare.user_id sh =? ExpenseShare.user_id sh)).
  cbn [negb andb]. split; reflexivity.
Qed.

Lemma expense_ids_of_group (db : DB) (gid : Z) :
  NoDup (map Expense.id (expenses db)) ->
  NoDup (map Expense.id (group_expenses db gid)).
Proof.
  unfold group_expenses.
  induction (expenses db) as [|x l IH]; simpl; intros H; [constructor|].
  inversion H as [|k ks Hfresh Hrest]; subst.
  destruct (Expense.group_id x =? gid); simpl; [|now apply IH].
  constructor; [|now apply IH].
  intros Hin. apply Hfresh. apply in_map_iff in Hin.
  destruct Hin as (y & Hy & Hin). apply filter_In in Hin.
  rewrite <- Hy. apply in_map. tauto.
Qed.

(** Settling an unsettled share takes exactly that share out of what its
    user owes in the group of the expense (expense ids being unique): the
    unsettled shares of the user are the old ones without it, so it is no
    longer subtracted from their balance. *)
Theorem settle_drops_the_share (db : DB) (expense_id share_id : Z)
    (db1 : DB) (share : ExpenseShare.t) (e : Expense.t) :
  ExpenseShareSettle.post db expense_id share_id = Ok (db1, share) ->
  NoDup (map Expense.id (expenses db)) ->
  Expense_get db expense_id = Some e ->
  ExpenseShare_first db share_id expense_id
  = Some (ExpenseShare.mk (ExpenseShare.id share)
            (ExpenseShare.expense_id share) (ExpenseShare.user_id share)
            (ExpenseShare.amount share) false) ->
  let gid := Expense.group_id e in
  let uid := ExpenseShare.user_id share in
  let old := ExpenseShare.mk (ExpenseShare.id share)
               (ExpenseShare.expense_id share) uid
               (ExpenseShare.amount share) false in
  exists P Q,
    unsettled_of_user db (group_expenses db gid) uid = P ++ old :: Q
    /\ unsettled_of_user db1 (group_expenses db1 gid) uid = P ++ Q
    /\ (uid <> 0 ->
        Group_get db gid <> None ->
        balance_of uid (balances_in db gid)
        = balance_from (paid_by_user (group_expenses db gid) uid)
            (P ++ old :: Q)
        /\ balance_of uid (balances_in db1 gid)
           = balance_from (paid_by_user (group_expenses db gid) uid)
               (P ++ Q)).
Proof.
  intros H Hnd Hg Hold gid uid old.
  apply settle_post_ok in H.
  destruct H as (e' & sh & Hg' & Hf & -> & -> & _).
  rewrite Hg in Hg'. injection Hg' as <-.
  assert (Hsh : sh = old).
  { subst old uid. rewrite Hf in Hold. now injection Hold. }
  assert (Hun : ExpenseShare.is_settled sh = false) by (now rewrite Hsh).
  assert (Hu : ExpenseShare.user_id sh = uid) by reflexivity.
  destruct (Expense_get_some _ _ _ Hg) as [Hid Hin].
  assert (Hing : In e (group_expenses db gid)).
  { apply filter_In. split; [exact Hin | apply Z.eqb_refl]. }
  pose proof (expense_ids_of_group db gid Hnd) as Hndg.
  change (group_expenses (set_shares db ?l) gid)
    with (group_expenses db gid).
  destruct (in_split _ _ Hing) as (a & b & Hsplit).
  rewrite Hsplit in Hndg |- *.
  assert (Hother : forall x, In x a \/ In x b -> Expense.id x <> expense_id).
  { rewrite map_app in Hndg. simpl in Hndg.
    intros x Hx Heq. apply NoDup_remove_2 in Hndg. apply Hndg.
    rewrite Hid, <- Heq. apply in_or_app.
    destruct Hx as [Hx|Hx]; [left | right]; now apply in_map. }
  unfold ExpenseShare_first in Hf.
  destruct (unsettled_of_settled_expense share_id expense_id
              (expense_shares db) sh Hf Hun) as (P & Q & HP & HQ).
  rewrite Hu in HP, HQ.
  assert (Hsame : forall l, (forall x, In x l -> Expense.id x <> expense_id) ->
            unsettled_of_user
              (set_shares db
                 (ExpenseShareSettle.settle_first share_id expense_id
                    (expense_shares db))) l uid
            = unsettled_of_user db l uid).
  { intros l Hl. unfold unsettled_of_user.
    induction l as [|x l IH]; simpl; [reflexivity|].
    rewrite IH by (intros y Hy; apply Hl; now right). f_equal.
    unfold shares_of. simpl.
    apply (unsettled_elsewhere share_id expense_id (Expense.id x) uid
             (expense_shares db) sh Hf).
    apply Hl. now left. }
  assert (Holdl : unsettled_of_user db (a ++ e :: b) uid
                  = (unsettled_of_user db a uid ++ P)
                    ++ old :: (Q ++ unsettled_of_user db b uid)).
  { unfold unsettled_of_user. rewrite flat_map_app. simpl.
    fold (unsettled_of_user db a uid) (unsettled_of_user db b uid).
    unfold shares_of. rewrite Hid, HP, Hsh, <- !app_assoc. reflexivity. }
  assert (Hnewl : unsettled_of_user
                    (set_shares db
                       (ExpenseShareSettle.settle_first share_id expense_id
                          (expense_shares db))) (a ++ e :: b) uid
                  = (unsettled_of_user db a uid ++ P)
                    ++ (Q ++ unsettled_of_user db b uid)).
  { unfold unsettled_of_user at 1. rewrite flat_map_app. simpl.
    fold (unsettled_of_user
            (set_shares db
               (ExpenseShareSettle.settle_first share_id expense_id
                  (expense_shares db))) a uid).
    fold (unsettled_of_user
            (set_shares db
               (ExpenseShareSettle.settle_first share_id expense_id
                  (expense_shares db))) b uid).
    rewrite !Hsame by (intros x Hx; apply Hother; tauto).
    unfold shares_of. simpl. rewrite Hid, HQ, <- !app_assoc.
    reflexivity. }
  exists (unsettled_of_user db a uid ++ P),
         (Q ++ unsettled_of_user db b uid).
  split; [exact Holdl|]. split; [exact Hnewl|].
  intros Hu0 Hgg. rewrite !balance_in_group by assumption.
  change (Group_get (set_shares db ?l) gid) with (Group_get db gid).
  change (group_expenses (set_shares db ?l) gid)
    with (group_expenses db gid).
  rewrite Hsplit, Holdl, Hnewl.
  destruct (Group_get db gid); [split; reflexivity | congruence].
Qed.

Lemma settle_drops_the_share_witness :
  exists db1 share P Q,
    ExpenseShareSettle.post sample_db 1 3 = Ok (db1, share)
    /\ unsettled_of_user sample_db (group_expenses sample_db 1) 3
       = P ++ ExpenseShare.mk (Some 3) (Some 1) 3 (Decimal.mk 3333 (-2))
                false :: Q
    /\ unsettled_of_user db1 (group_expenses db1 1) 3 = P ++ Q.
Proof.
  destruct (ExpenseShareSettle.post sample_db 1 3) as [[db1 share]|] eqn:H.
  - pose proof H as H'. vm_compute in H'. injection H' as _ Hshare.
    subst share.
    destruct (settle_drops_the_share sample_db 1 3 db1 _ sample_expense H)
      as (P & Q & H1 & H2 & _).
    + simpl. constructor; [simpl; tauto | constructor].
    + reflexivity.
    + reflexivity.
    + exists db1, (ExpenseShare.mk (Some 3) (Some 1) 3
                     (Decimal.mk 3333 (-2)) true), P, Q.
      split; [reflexivity|]. split; [exact H1 | exact H2].
  - vm_compute in H. discriminate H.
Defined.

(** ** Deleting and creating expenses *)

Lemma find_expense_after_delete (eid i : Z) (l : list Expense.t) :
  find (fun e => Expense.id e =? i)
       (filter (fun e => negb (Expense.id e =? eid)) l)
  = if i =? eid then None else find (fun e => Expense.id e =? i) l.
Proof.
  induction l as [|x l IH]; simpl.
  - destruct (i =? eid); reflexivity.
  - destruct (Z.eqb_spec (Expense.id x) eid) as [Hx|Hx]; simpl.
    + rewrite IH. destruct (Z.eqb_spec i eid) as [Hi|Hi]; [reflexivity|].
      destruct (Z.eqb_spec (Expense.id x) i); [congruence | reflexivity].
    + destruct (Z.eqb_spec (Expense.id x) i) as [Hxi|Hxi].
      * destruct (Z.eqb_spec i eid); [congruence | reflexivity].
      * exact IH.
Qed.

(** A delete that returns removes the expense and, by cascade, all its
    shares: the expense can no longer be read, settled or deleted (404),
    every other expense is still there, and with unique share keys the
    shares of the other expenses are untouched. *)
Theorem delete_expense_cascades (db : DB) (expense_id : Z) (db' : DB) :
  ExpenseItem.delete db expense_id = Ok db' ->
  ExpenseItem_get db' expense_id = Raise (Abort 404 "Expense not found")
  /\ shares_of db' expense_id = []
  /\ ExpenseItem.delete db' expense_id
     = Raise (Abort 404 "Expense not found")
  /\ (forall share_id,
        ExpenseShareSettle.post db' expense_id share_id
        = Raise (Abort 404 "Expense not found"))
  /\ (forall i, i <> expense_id -> Expense_get db' i = Expense_get db i)
  /\ group_members db' = group_members db
  /\ (share_keys_unique db ->
      forall i, i <> expense_id -> shares_of db' i = shares_of db i).
Proof.
  unfold ExpenseItem.delete. intros H.
  destruct (Expense_get db expense_id) as [e|] eqn:Hg; [|discriminate H].
  destruct (Expense_get_some _ _ _ Hg) as [Hid _]. rewrite Hid in H.
  destruct (commit _) as [d|] eqn:Hc; [|discriminate H].
  apply commit_ok in Hc. injection H as <-. subst d.
  set (db1 := fold_left delete_share (shares_of db expense_id) db).
  assert (Hd : db1 = set_shares db (expense_shares db1)).
  { unfold db1. rewrite fold_delete_share. reflexivity. }
  assert (Hgone : Expense_get
                    (set_expenses db1
                       (filter (fun e0 => negb (Expense.id e0 =? expense_id))
                          (expenses db1))) expense_id = None).
  { unfold Expense_get. simpl. rewrite find_expense_after_delete.
    now rewrite Z.eqb_refl. }
  repeat split.
  - unfold ExpenseItem_get. now rewrite Hgone.
  - change (shares_of (set_expenses db1 ?l) expense_id)
      with (shares_of db1 expense_id).
    apply shares_of_after_delete.
  - unfold ExpenseItem.delete. now rewrite Hgone.
  - intros sid. unfold ExpenseShareSettle.post. now rewrite Hgone.
  - intros i Hi. unfold Expense_get. simpl.
    rewrite find_expense_after_delete.
    destruct (Z.eqb_spec i expense_id); [congruence|].
    rewrite Hd. reflexivity.
  - simpl. rewrite Hd. reflexivity.
  - intros Hu i Hi.
    destruct (delete_shares_frame db expense_id Hu) as (_ & _ & D3).
    change (shares_of (set_expenses db1 ?l) i) with (shares_of db1 i).
    now apply D3.
Qed.

Lemma delete_expense_cascades_witness :
  exists db',
    ExpenseItem.delete sample_db 1 = Ok db'
    /\ shares_of db' 1 = []
    /\ ExpenseItem_get db' 1 = Raise (Abort 404 "Expense not found").
Proof.
  destruct (ExpenseItem.delete sample_db 1) as [db'|] eqn:H.
  - exists db'. split; [reflexivity|].
    destruct (delete_expense_cascades sample_db 1 db' H)
      as (H1 & H2 & _). split; assumption.
  - vm_compute in H. discriminate H.
Defined.

Lemma find_appended_expense (l : list Expense.t) (e : Expense.t) (i : Z) :
  ~ In (Expense.id e) (map Expense.id l) ->
  find (fun x => Expense.id x =? i) (l ++ [e])
  = if Expense.id e =? i then Some e
    else find (fun x => Expense.id x =? i) l.
Proof.
  induction l as [|x l IH]; simpl; intros Hn.
  - reflexivity.
  - destruct (Z.eqb_spec (Expense.id x) i) as [Hx|Hx].
    + destruct (Z.eqb_spec (Expense.id e) i); [|reflexivity].
      exfalso. apply Hn. left. congruence.
    + apply IH. tauto.
Qed.

Lemma next_id_fresh (l : list Z) : ~ In (next_id l) l.
Proof. intros H. apply next_id_above in H. lia. Qed.

Lemma quantize_two_places (c : Z) (r : Decimal.rounding) :
  Decimal.quantize (Decimal.mk c (-2)) two_places r = Decimal.mk c (-2).
Proof.
  unfold Decimal.quantize, Decimal.coeff_at. simpl. now rewrite Z.mul_1_r.
Qed.

(** An expense that [post] returns can be read back under its id, which
    no expense had before; every expense that was there is still read as
    before.  The expense is in the group asked for, its description is the
    stripped one and its amount the submitted one at two places, unchanged
    when it had two places already. *)
Theorem post_then_get (now : datetime) (db : DB)
    (data : ExpenseCreateSchema.t) (gid : Z) (db' : DB) (e : Expense.t) :
  GroupExpensesCollection.post now db data gid = Ok (db', e) ->
  ExpenseItem_get db' (Expense.id e) = Ok e
  /\ Expense_get db (Expense.id e) = None
  /\ (forall i, i <> Expense.id e -> Expense_get db' i = Expense_get db i)
  /\ Expense.group_id e = gid
  /\ Group_get db' gid <> None
  /\ Expense.description e = strip (ExpenseCreateSchema.description data)
  /\ Expense.amount e
     = Decimal.quantize (ExpenseCreateSchema.amount data) two_places
         Decimal.ROUND_HALF_EVEN
  /\ Decimal.expo (Expense.amount e) = -2
  /\ (Decimal.expo (ExpenseCreateSchema.amount data) = -2 ->
      Expense.amount e = ExpenseCreateSchema.amount data).
Proof.
  intros H. destruct (post_ok_inv _ _ _ _ _ _ H) as (Hl & [g Hg] & Hp).
  rewrite (post_steps now db data gid g Hl Hg Hp) in H.
  set (e0 := created_expense now db data gid) in *.
  set (db1 := set_expenses db (expenses db ++ [e0])) in *.
  destruct (_replace_shares db1 e0 _) as [db2|] eqn:Hr; [|discriminate H].
  simpl in H. destruct (commit db2) as [db3|] eqn:Hc; [|discriminate H].
  apply commit_ok in Hc. injection H as <- <-. subst db3.
  assert (Hexp : expenses db2 = expenses db ++ [e0] /\ groups db2 = groups db).
  { unfold _replace_shares in Hr.
    destruct (new_share_objects db1 e0 _) as [objs|] eqn:Hn;
      [|discriminate Hr].
    destruct (replace_shares_ok _ _ _ _ Hn) as (d & Hd & _ & G & _ & E & _).
    unfold _replace_shares in Hd. rewrite Hn in Hd. rewrite Hd in Hr.
    injection Hr as <-. now split. }
  destruct Hexp as [Hexp Hgr].
  assert (Hfresh : ~ In (Expense.id e0) (map Expense.id (expenses db)))
    by apply next_id_fresh.
  repeat split.
  - unfold ExpenseItem_get, Expense_get. rewrite Hexp.
    rewrite find_appended_expense by assumption. now rewrite Z.eqb_refl.
  - unfold Expense_get.
    destruct (find _ (expenses db)) as [x|] eqn:Hx; [|reflexivity].
    apply find_some in Hx. destruct Hx as [Hin Hx]. apply Z.eqb_eq in Hx.
    exfalso. apply Hfresh. rewrite <- Hx. now apply in_map.
  - intros i Hi. unfold Expense_get. rewrite Hexp.
    rewrite find_appended_expense by assumption.
    destruct (Z.eqb_spec (Expense.id e0) i); [congruence | reflexivity].
  - unfold Group_get in *. rewrite Hgr, Hg. discriminate.
  - apply quantize_expo.
  - intros Hx. simpl. destruct (ExpenseCreateSchema.amount data) as [c x].
    simpl in Hx. subst x. apply quantize_two_places.
Qed.

Lemma post_then_get_witness :
  exists db' e,
    GroupExpensesCollection.post 7 sample_db
      (ExpenseCreateSchema.mk " Taxi " (Decimal.mk 20005 (-3)) (Some 2)
         None None) 1
    = Ok (db', e)
    /\ ExpenseItem_get db' (Expense.id e) = Ok e.
Proof.
  destruct (GroupExpensesCollection.post 7 sample_db
              (ExpenseCreateSchema.mk " Taxi " (Decimal.mk 20005 (-3))
                 (Some 2) None None) 1) as [[db' e]|] eqn:H.
  - exists db', e. split; [reflexivity|].
    apply (post_then_get _ _ _ _ _ _ H).
  - vm_compute in H. discriminate H.
Defined.

(** ** The shares a new expense gets *)

Lemma post_shares (now : datetime) (db : DB) (data : ExpenseCreateSchema.t)
    (gid : Z) (db' : DB) (e : Expense.t) :
  GroupExpensesCollection.post now db data gid = Ok (db', e) ->
  ExpenseCreateSchema.load data = Ok data
  /\ exists objs,
       new_share_objects
         (set_expenses db (expenses db ++ [e])) e
         (ExpenseCreateSchema.shares data) = Ok objs
       /\ map share_view (shares_of db' (Expense.id e)) = map share_view objs.
Proof.
  intros H. destruct (post_ok_inv _ _ _ _ _ _ H) as (Hl & [g Hg] & Hp).
  split; [exact Hl|].
  rewrite (post_steps now db data gid g Hl Hg Hp) in H.
  set (e0 := created_expense now db data gid) in *.
  set (db1 := set_expenses db (expenses db ++ [e0])) in *.
  destruct (_replace_shares db1 e0 _) as [db2|] eqn:Hr; [|discriminate H].
  simpl in H. destruct (commit db2) as [db3|] eqn:Hc; [|discriminate H].
  apply commit_ok in Hc. injection H as <- <-. subst db3.
  destruct (new_share_objects db1 e0 (ExpenseCreateSchema.shares data))
    as [objs|] eqn:Hn.
  - destruct (replace_shares_ok _ _ _ _ Hn) as (d & Hd & _ & _ & _ & _ & Hv).
    rewrite Hr in Hd. injection Hd as <-. exists objs. now split.
  - apply replace_shares_raise in Hn. congruence.
Qed.




Lemma validate_positive_ok (l : list ShareInputSchema.t) :
  ExpenseCreateSchema.validate_positive l = Ok tt
  <-> Forall (fun s => Decimal.leb (ShareInputSchema.amount s) Decimal.zero
                       = false) l.
Proof.
  induction l as [|s l IH]; simpl; unfold _to_decimal.
  - split; [constructor | reflexivity].
  - destruct (Decimal.leb (ShareInputSchema.amount s) Decimal.zero) eqn:E.
    + split; [discriminate|]. intros H. inversion H. congruence.
    + rewrite IH. split; [now constructor | now inversion 1].
Qed.

Lemma positive_decimal (d : Decimal.t) :
  Decimal.leb d Decimal.zero = false -> 0 < Decimal.coeff d.
Proof.
  unfold Decimal.leb, Decimal.compare, Decimal.coeff_at, Decimal.zero,
    Decimal.of_int.
  cbn [Decimal.coeff Decimal.expo].
  set (m := Z.min (Decimal.expo d) 0).
  assert (Hm : 0 <= Decimal.expo d - m) by (subst m; lia).
  pose proof (pow10_pos _ Hm) as Hp.
  destruct (Z.compare_spec (Decimal.coeff d * 10 ^ (Decimal.expo d - m))
              (0 * 10 ^ (0 - m)));
    try discriminate.
  intros _. nia.
Qed.

Lemma rounded_not_negative (s : ShareInputSchema.t) :
  0 < Decimal.coeff (ShareInputSchema.amount s) ->
  0 <= Decimal.coeff (rounded s) /\ Decimal.expo (rounded s) = -2.
Proof.
  intros Hc. unfold rounded. split; [|apply quantize_expo].
  destruct (ShareInputSchema.amount s) as [c x]. cbn [Decimal.coeff] in Hc.
  unfold Decimal.quantize, Decimal.coeff_at, Decimal.round_div, two_places,
    Decimal.cent.
  cbn [Decimal.coeff Decimal.expo].
  destruct (Z.leb_spec (-2) x); cbn [Decimal.coeff].
  - assert (0 < 10 ^ (x - -2)) by (apply pow10_pos; lia). nia.
  - assert (Hd : 0 < 10 ^ (-2 - x)) by (apply pow10_pos; lia).
    set (d := 10 ^ (-2 - x)) in *.
    assert (0 <= c / d) by (apply Z.div_pos; lia).
    destruct (2 * (c mod d) <? d); [assumption|].
    destruct (d <? 2 * (c mod d)); [lia|].
    destruct (Z.even (c / d)); lia.
Qed.

(** [post] checks that supplied shares are positive before it rounds them:
    the shares it installs are the supplied ones rounded to two places, none
    of them negative, and they sum to the amount; but a positive amount of
    at most half a cent passes the check and is installed as [0.00]. *)
Theorem create_checks_sign_before_rounding :
  (forall now db data gid db' e l,
     GroupExpensesCollection.post now db data gid = Ok (db', e) ->
     ExpenseCreateSchema.shares data = Some l ->
     map share_view (shares_of db' (Expense.id e)) = map supplied_view l
     /\ Forall (fun sh => 0 <= Decimal.coeff (ExpenseShare.amount sh)
                          /\ Decimal.expo (ExpenseShare.amount sh) = -2)
               (shares_of db' (Expense.id e))
     /\ Decimal.eqb
          (Decimal.sum (map ExpenseShare.amount
                          (shares_of db' (Expense.id e))))
          (Expense.amount e) = true)
  /\ (forall s c x,
        ShareInputSchema.amount s = Decimal.mk c x ->
        0 < c -> x < -2 -> 2 * c <= 10 ^ (-2 - x) ->
        ExpenseCreateSchema.validate_positive [s] = Ok tt
        /\ rounded s = Decimal.mk 0 (-2)).
Proof.
  split.
  - intros now db data gid db' e l H Hs.
    destruct (post_shares _ _ _ _ _ _ H) as (Hl & objs & Hn & Hv).
    rewrite Hs in Hn.
    assert (Hpos : Forall (fun s => Decimal.leb (ShareInputSchema.amount s)
                                      Decimal.zero = false) l).
    { apply validate_positive_ok.
      unfold ExpenseCreateSchema.load in Hl.
      destruct (validate_Length _ _ _ _ _); [|discriminate Hl].
      simpl in Hl. unfold ExpenseCreateSchema.validate_shares in Hl.
      rewrite Hs in Hl.
      destruct (ExpenseCreateSchema.validate_positive l) as [[]|];
        [reflexivity | discriminate Hl]. }
    assert (Hsum := new_objects_sum _ _ _ _ Hn).
    unfold new_share_objects in Hn.
    destruct (explicit_shares_loop _ _ l [] Decimal.zero)
      as [[objs' total]|] eqn:Hloop; [|discriminate Hn].
    simpl in Hn. destruct (negb _); [discriminate Hn|].
    injection Hn as <-.
    assert (G : forall acc tot objs0 total0,
              explicit_shares_loop
                (set_expenses db (expenses db ++ [e])) (Expense.group_id e)
                l acc tot = Ok (objs0, total0) ->
              map share_view objs0
              = map share_view acc ++ map supplied_view l).
    { clear. induction l as [|s l IH]; intros acc tot objs0 total0 Hk;
        simpl in Hk.
      - injection Hk as <- _. now rewrite app_nil_r.
      - destruct (GroupMember_first _ _ _); [|discriminate Hk].
        apply IH in Hk. rewrite Hk, map_app, <- app_assoc. reflexivity. }
    apply G in Hloop. simpl in Hloop. rewrite Hloop in Hv.
    split; [exact Hv|]. split.
    + apply Forall_forall. intros sh Hin.
      apply (in_map share_view) in Hin. rewrite Hv in Hin.
      apply in_map_iff in Hin. destruct Hin as (s & Hsv & Hin).
      rewrite Forall_forall in Hpos. specialize (Hpos s Hin).
      apply positive_decimal, rounded_not_negative in Hpos.
      unfold share_view, supplied_view in Hsv.
      injection Hsv as _ Ha _. now rewrite <- Ha.
    + rewrite (view_amounts _ _ (eq_trans Hv (eq_sym Hloop))).
      apply Hsum. discriminate.
  - intros s c x Ha Hc Hx Hhalf. split.
    + apply validate_positive_ok. constructor; [|constructor].
      rewrite Ha. unfold Decimal.leb, Decimal.compare, Decimal.coeff_at,
        Decimal.zero, Decimal.of_int.
      cbn [Decimal.coeff Decimal.expo]. rewrite Z.min_l by lia.
      replace (x - x) with 0 by lia.
      assert (0 < 10 ^ (0 - x)) by (apply pow10_pos; lia).
      destruct (Z.compare_spec (c * 10 ^ 0) (0 * 10 ^ (0 - x)));
        try reflexivity; lia.
    + unfold rounded. rewrite Ha.
      unfold Decimal.quantize, Decimal.round_div, two_places, Decimal.cent.
      cbn [Decimal.coeff Decimal.expo].
      destruct (Z.leb_spec (-2) x); [lia|].
      assert (Hd : 0 < 10 ^ (-2 - x)) by (apply pow10_pos; lia).
      set (d := 10 ^ (-2 - x)) in *.
      assert (Hlt : c < d) by lia.
      rewrite Z.div_small, Z.mod_small by lia.
      f_equal.
      destruct (Z.ltb_spec (2 * c) d); [reflexivity|].
      destruct (Z.ltb_spec d (2 * c)); [lia | reflexivity].
Qed.

Lemma create_checks_sign_before_rounding_witness :
  ExpenseCreateSchema.validate_positive
    [ShareInputSchema.mk 2 (Decimal.mk 5 (-3))] = Ok tt
  /\ rounded (ShareInputSchema.mk 2 (Decimal.mk 5 (-3))) = Decimal.mk 0 (-2).
Proof.
  apply (proj2 create_checks_sign_before_rounding
           (ShareInputSchema.mk 2 (Decimal.mk 5 (-3))) 5 (-3)).
  - reflexivity.
  - lia.
  - lia.
  - simpl. lia.
Defined.

(** A share of half a cent next to one of 20.00 is accepted and stored as
    [0.00]. *)
Example zero_share_installed :
  exists db' e,
    GroupExpensesCollection.post 7 sample_db
      (ExpenseCreateSchema.mk "Taxi" (Decimal.mk 2000 (-2)) None None
         (Some [ShareInputSchema.mk 1 (Decimal.mk 2000 (-2));
                ShareInputSchema.mk 2 (Decimal.mk 5 (-3))]))
      1
    = Ok (db', e)
    /\ map share_view (shares_of db' (Expense.id e))
       = [(1, Decimal.mk 2000 (-2), false); (2, Decimal.mk 0 (-2), false)].
Proof. eexists. eexists. split; vm_compute; reflexivity. Qed.

(** ** Memberships *)

Lemma unique_pairs_add (l : list (option Z * Z)) (g u : Z) :
  unique_pairs l = true ->
  existsb (pair_is g u) l = false ->
  unique_pairs (l ++ [(Some g, u)]) = true.
Proof.
  induction l as [|[a b] l IH]; simpl; intros Hu Hn; [reflexivity|].
  apply andb_prop in Hu. destruct Hu as [Hh Ht].
  apply orb_false_iff in Hn. destruct Hn as [Hp Hn].
  rewrite IH by assumption. rewrite andb_true_r.
  rewrite existsb_app. simpl. rewrite orb_false_r.
  apply negb_true_iff in Hh. rewrite Hh. simpl.
  unfold pair_is in Hp. simpl in Hp.
  destruct a as [x|]; [|reflexivity].
  rewrite (Z.eqb_sym b u), Hp. reflexivity.
Qed.

Lemma no_member_no_pair (db : DB) (gid uid : Z) :
  GroupMember_first db gid uid = None ->
  existsb (pair_is gid uid)
    (map (fun gm => (Some (GroupMember.group_id gm), GroupMember.user_id gm))
       (group_members db)) = false.
Proof.
  unfold GroupMember_first.
  induction (group_members db) as [|gm l IH]; simpl; [reflexivity|].
  unfold pair_is at 1. simpl.
  rewrite (Z.eqb_sym uid).
  destruct ((GroupMember.group_id gm =? gid)
            && (GroupMember.user_id gm =? uid)); [discriminate|].
  exact IH.
Qed.

(** In a database that satisfies its unique constraints, adding a user to a
    group returns whenever the payload is valid, the group and the user
    exist and the user is not yet a member: the membership is appended and
    found afterwards, and expenses and shares are untouched.  Adding the
    same user again is answered 409 and changes nothing. *)
Theorem member_add_once :
  (forall now db data gid g user,
     MemberCreateSchema.load data = Ok data ->
     Group_get db gid = Some g ->
     User_get db (MemberCreateSchema.user_id data) = Some user ->
     GroupMember_first db gid (MemberCreateSchema.user_id data) = None ->
     commit db = Ok db ->
     exists db1 gm,
       GroupMembersCollection.post now db data gid = Ok (db1, gm)
       /\ group_members db1 = group_members db ++ [gm]
       /\ GroupMember.group_id gm = gid
       /\ GroupMember.user_id gm = MemberCreateSchema.user_id data
       /\ expenses db1 = expenses db
       /\ expense_shares db1 = expense_shares db)
  /\ (forall now db data gid db1 gm,
        GroupMembersCollection.post now db data gid = Ok (db1, gm) ->
        GroupMember_first db1 gid (MemberCreateSchema.user_id data) <> None
        /\ forall now',
             GroupMembersCollection.post now' db1 data gid
             = Raise (Abort 409 "User is already a member of the group")).
Proof.
  split.
  - intros now db data gid g user Hl Hg Hu Hm Hc.
    assert (Hid : User.id user = MemberCreateSchema.user_id data).
    { apply find_some in Hu. destruct Hu as [_ Hu]. now apply Z.eqb_eq. }
    unfold GroupMembersCollection.post. rewrite Hl. simpl.
    rewrite Hg, Hu, Hid, Hm.
    set (gm := GroupMember.mk _ gid _ _ now).
    assert (Hc1 : commit (set_group_members db (group_members db ++ [gm]))
                  = Ok (set_group_members db (group_members db ++ [gm]))).
    { apply commit_consistent. apply commit_consistent in Hc.
      destruct Hc as [Hu1 Hu2]. split; [exact Hu1|].
      unfold uq_group_member_group_user in *. simpl. rewrite map_app.
      apply unique_pairs_add; [exact Hu2|].
      now apply no_member_no_pair. }
    rewrite Hc1. simpl. eexists. eexists. repeat split.
  - intros now db data gid db1 gm H.
    unfold GroupMembersCollection.post in H.
    destruct (MemberCreateSchema.load data) as [d|] eqn:Hl;
      [|discriminate H].
    assert (d = data).
    { unfold MemberCreateSchema.load in Hl.
      destruct (match MemberCreateSchema.role data with
                | Some r => _ | None => _ end); simpl in Hl; congruence. }
    subst d. simpl in H.
    destruct (Group_get db gid) as [g|] eqn:Hg; [|discriminate H].
    destruct (User_get db (MemberCreateSchema.user_id data)) as [u|] eqn:Hu;
      [|discriminate H].
    assert (Hid : User.id u = MemberCreateSchema.user_id data).
    { apply find_some in Hu. destruct Hu as [_ Hu]. now apply Z.eqb_eq. }
    rewrite Hid in H.
    destruct (GroupMember_first db gid (MemberCreateSchema.user_id data))
      eqn:Hm; [discriminate H|].
    destruct (commit _) as [d1|] eqn:Hc; [|discriminate H].
    apply commit_ok in Hc. simpl in H. injection H as <- <-. subst d1.
    set (db1 := set_group_members db
                  (group_members db
                   ++ [GroupMember.mk
                         (next_id (map GroupMember.id (group_members db)))
                         gid (MemberCreateSchema.user_id data)
                         (MemberCreateSchema.role data) now])).
    assert (Hfound : GroupMember_first db1 gid
                       (MemberCreateSchema.user_id data) <> None).
    { unfold GroupMember_first, db1. simpl.
      intros Hnone. eapply find_none in Hnone.
      2: { apply in_or_app. right. left. reflexivity. }
      simpl in Hnone. rewrite !Z.eqb_refl in Hnone. discriminate. }
    split; [exact Hfound|]. intros now'.
    assert (Hg1 : Group_get db1 gid = Some g) by exact Hg.
    assert (Hu1 : User_get db1 (MemberCreateSchema.user_id data) = Some u)
      by exact Hu.
    clearbody db1.
    unfold GroupMembersCollection.post. rewrite Hl. simpl.
    rewrite Hg1, Hu1, Hid.
    destruct (GroupMember_first db1 gid (MemberCreateSchema.user_id data));
      [reflexivity | congruence].
Qed.

Lemma member_add_once_witness :
  exists db1 gm,
    GroupMembersCollection.post 5 empty_group_db
      (MemberCreateSchema.mk 1 None) 1 = Ok (db1, gm)
    /\ group_members db1 = [gm].
Proof.
  destruct (proj1 member_add_once 5 empty_group_db
              (MemberCreateSchema.mk 1 None) 1
              (Group.mk 1 "Flat" 0 (Some 1)) (User.mk 1 "Ann" None None 0))
    as (db1 & gm & H & Hm & _); try reflexivity.
  exists db1, gm. split; [exact H | exact Hm].
Defined.

Lemma accumulate_same_shares (d1 d2 : DB) (net : dict)
    (exps : list Expense.t) :
  expense_shares d1 = expense_shares d2 ->
  GroupBalances.accumulate d1 net exps = GroupBalances.accumulate d2 net exps.
Proof.
  intros Hs. revert net. induction exps as [|x l IH]; intros net; simpl;
    [reflexivity|].
  unfold shares_of. rewrite Hs. apply IH.
Qed.

(** The balances read the groups, users, expenses and shares, and nothing
    else. *)
Lemma balances_same_tables (d1 d2 : DB) (gid : Z) :
  users d1 = users d2 -> groups d1 = groups d2 ->
  expenses d1 = expenses d2 -> expense_shares d1 = expense_shares d2 ->
  GroupBalances.get d1 gid = GroupBalances.get d2 gid.
Proof.
  intros Hu Hg He Hs. unfold GroupBalances.get, Group_get.
  rewrite Hg, He, (accumulate_same_shares d1 d2 _ _ Hs).
  destruct (find _ (groups d2)); [|reflexivity].
  f_equal. f_equal. apply map_ext. intros [k v].
  unfold GroupBalances.entry, User_get. now rewrite Hu.
Qed.

Lemma unique_pairs_same_pair (l : list GroupMember.t)
    (a b : GroupMember.t) :
  unique_pairs
    (map (fun gm => (Some (GroupMember.group_id gm), GroupMember.user_id gm))
       l) = true ->
  In a l -> In b l ->
  GroupMember.group_id a = GroupMember.group_id b ->
  GroupMember.user_id a = GroupMember.user_id b ->
  GroupMember.id a <> GroupMember.id b ->
  False.
Proof.
  induction l as [|x l IH]; simpl; intros Hu Ha Hb Hg Hus Hid; [tauto|].
  apply andb_prop in Hu. destruct Hu as [Hh Ht].
  apply negb_true_iff in Hh.
  assert (Hclash : forall y, In y l ->
            GroupMember.group_id x = GroupMember.group_id y ->
            GroupMember.user_id x = GroupMember.user_id y -> False).
  { intros y Hy Hgy Huy.
    assert (Hex : existsb
              (fun p : option Z * Z =>
                 match fst p with
                 | Some y0 => (GroupMember.group_id x =? y0)
                              && (GroupMember.user_id x =? snd p)
                 | None => false
                 end)
              (map (fun gm => (Some (GroupMember.group_id gm),
                               GroupMember.user_id gm)) l) = true).
    { apply existsb_exists.
      exists (Some (GroupMember.group_id y), GroupMember.user_id y).
      split; [now apply (in_map (fun gm => (Some (GroupMember.group_id gm),
                                           GroupMember.user_id gm)))|].
      simpl. rewrite Hgy, Huy, !Z.eqb_refl. reflexivity. }
    congruence. }
  destruct Ha as [->|Ha], Hb as [->|Hb].
  - congruence.
  - now apply (Hclash b).
  - apply (Hclash a); [assumption | congruence | congruence].
  - now apply IH.
Qed.

(** Removing a member touches the memberships and nothing else: expenses,
    shares and so the balances of every group stay as they were, the
    removed member included.  The membership is gone (a second removal is
    answered 404), and in a database that satisfies its unique constraints
    the user is then no member of the group any more. *)
Theorem member_remove_keeps_ledger (db : DB) (gid mid : Z) (db' : DB) :
  GroupMemberItem.delete db gid mid = Ok db' ->
  expenses db' = expenses db
  /\ expense_shares db' = expense_shares db
  /\ (forall g, GroupBalances.get db' g = GroupBalances.get db g)
  /\ GroupMemberItem.delete db' gid mid
     = Raise (Abort 404 "Group member not found")
  /\ exists gm,
       In gm (group_members db)
       /\ GroupMember.id gm = mid
       /\ GroupMember.group_id gm = gid
       /\ (commit db = Ok db ->
           GroupMember_first db' gid (GroupMember.user_id gm) = None).
Proof.
  unfold GroupMemberItem.delete. intros H.
  destruct (find _ (group_members db)) as [gm|] eqn:Hf; [|discriminate H].
  destruct (commit _) as [d|] eqn:Hc; [|discriminate H].
  apply commit_ok in Hc. injection H as <-. subst d.
  apply find_some in Hf. destruct Hf as [Hin Hk].
  apply andb_prop in Hk. destruct Hk as [Hk1 Hk2].
  apply Z.eqb_eq in Hk1, Hk2.
  split; [reflexivity|]. split; [reflexivity|].
  split; [intros g; now apply balances_same_tables|]. split.
  - simpl.
    destruct (find _ (filter _ (group_members db))) as [x|] eqn:Hx;
      [|reflexivity].
    apply find_some in Hx. destruct Hx as [Hxin Hxk].
    apply filter_In in Hxin. destruct Hxin as [_ Hne].
    apply andb_prop in Hxk. destruct Hxk as [Hx1 _].
    apply Z.eqb_eq in Hx1. apply negb_true_iff, Z.eqb_neq in Hne.
    congruence.
  - exists gm. repeat split; try assumption.
    intros Hcons. apply commit_consistent in Hcons.
    destruct Hcons as [_ Hu]. unfold uq_group_member_group_user in Hu.
    unfold GroupMember_first. simpl.
    destruct (find _ (filter _ (group_members db))) as [x|] eqn:Hx;
      [|reflexivity].
    exfalso. apply find_some in Hx. destruct Hx as [Hxin Hxk].
    apply filter_In in Hxin. destruct Hxin as [Hxin Hne].
    apply andb_prop in Hxk. destruct Hxk as [Hx1 Hx2].
    apply Z.eqb_eq in Hx1, Hx2. apply negb_true_iff, Z.eqb_neq in Hne.
    apply (unique_pairs_same_pair _ x gm Hu Hxin Hin); congruence.
Qed.

Lemma member_remove_keeps_ledger_witness :
  exists db',
    GroupMemberItem.delete sample_db 1 3 = Ok db'
    /\ GroupBalances.get db' 1 = GroupBalances.get sample_db 1
    /\ GroupMember_first db' 1 3 = None.
Proof.
  destruct (GroupMemberItem.delete sample_db 1 3) as [db'|] eqn:H.
  - exists db'.
    destruct (member_remove_keeps_ledger sample_db 1 3 db' H)
      as (_ & _ & Hb & _ & _).
    split; [reflexivity|]. split; [apply Hb|].
    vm_compute in H. injection H as <-. reflexivity.
  - vm_compute in H. discriminate H.
Defined.

(** ** Groups *)

Lemma filter_stays_empty {A : Type} (p q : A -> bool) (l : list A) :
  filter p l = [] -> filter p (filter q l) = [].
Proof.
  induction l as [|x l IH]; simpl; [reflexivity|].
  destruct (p x) eqn:Ep; [discriminate|]. intros H.
  destruct (q x); simpl; [rewrite Ep|]; now apply IH.
Qed.

Lemma delete_shares_keeps_empty (d : DB) (olds : list ExpenseShare.t)
    (i : Z) :
  shares_of d i = [] -> shares_of (fold_left delete_share olds d) i = [].
Proof.
  intros H. rewrite fold_delete_share. unfold shares_of in *. simpl.
  now apply filter_stays_empty.
Qed.

(** The cascade from the expenses of a group to their shares. *)
Lemma cascade_shares (exps : list Expense.t) (d : DB) :
  let d1 :=
    fold_left
      (fun d0 e => fold_left delete_share (shares_of d0 (Expense.id e)) d0)
      exps d in
  d1 = set_shares d (expense_shares d1)
  /\ (forall i, shares_of d i = [] -> shares_of d1 i = [])
  /\ forall e, In e exps -> shares_of d1 (Expense.id e) = [].
Proof.
  revert d. induction exps as [|x l IH]; intros d; simpl.
  - split; [destruct d; reflexivity|]. split; [auto | tauto].
  - set (dx := fold_left delete_share (shares_of d (Expense.id x)) d).
    destruct (IH dx) as (H1 & H2 & H3).
    assert (Hdx : dx = set_shares d (expense_shares dx)).
    { unfold dx. rewrite fold_delete_share. reflexivity. }
    split; [|split].
    + rewrite H1 at 1. rewrite Hdx at 1. reflexivity.
    + intros i Hi. apply H2. unfold dx.
      now apply delete_shares_keeps_empty.
    + intros e [<-|He]; [|now apply H3].
      apply H2. unfold dx. apply shares_of_after_delete.
Qed.

Lemma existsb_own_id (i : Z) (ids : list Z) :
  In i ids -> existsb (Z.eqb i) ids = true.
Proof.
  intros H. apply existsb_exists. exists i. split; [exact H|].
  apply Z.eqb_refl.
Qed.

(** A group delete that returns takes with it the memberships of the
    group, its expenses and, through them, their shares: none of them can
    be read afterwards, the balances of the group and a second delete are
    answered 404, and the users stay. *)
Theorem delete_group_cascades (db : DB) (group_id : Z) (db' : DB) :
  GroupItem.delete db group_id = Ok db' ->
  GroupItem.get db' group_id = Raise (Abort 404 "Group not found")
  /\ GroupMember_of_group db' group_id = []
  /\ group_expenses db' group_id = []
  /\ (forall e,
        In e (group_expenses db group_id) ->
        Expense_get db' (Expense.id e) = None
        /\ shares_of db' (Expense.id e) = [])
  /\ GroupBalances.get db' group_id = Raise (Abort 404 "Group not found")
  /\ GroupItem.delete db' group_id = Raise (Abort 404 "Group not found")
  /\ users db' = users db.
Proof.
  unfold GroupItem.delete. intros H.
  destruct (Group_get db group_id) as [g|] eqn:Hg; [|discriminate H].
  assert (Hid : Group.id g = group_id).
  { apply find_some in Hg. destruct Hg as [_ Hg]. now apply Z.eqb_eq. }
  rewrite Hid in H.
  destruct (commit _) as [d|] eqn:Hc; [|discriminate H].
  apply commit_ok in Hc. injection H as <-. subst d.
  fold (group_expenses db group_id).
  set (exps := group_expenses db group_id).
  destruct (cascade_shares exps db) as (C1 & C2 & C3).
  set (db1 := fold_left
                (fun d0 e => fold_left delete_share
                               (shares_of d0 (Expense.id e)) d0) exps db)
    in *.
  assert (He1 : expenses db1 = expenses db) by (rewrite C1; reflexivity).
  assert (Hm1 : group_members db1 = group_members db)
    by (rewrite C1; reflexivity).
  assert (Hg1 : groups db1 = groups db) by (rewrite C1; reflexivity).
  assert (Hu1 : users db1 = users db) by (rewrite C1; reflexivity).
  assert (Hgone : forall d l,
            Group_get
              (set_groups d
                 (filter (fun g0 => negb (Group.id g0 =? group_id)) l))
              group_id = None).
  { intros d l. unfold Group_get. simpl.
    destruct (find _ (filter _ l)) as [x|] eqn:Hx; [|reflexivity].
    apply find_some in Hx. destruct Hx as [Hx1 Hx2].
    apply filter_In in Hx1. destruct Hx1 as [_ Hx1].
    rewrite Hx2 in Hx1. discriminate. }
  split; [|split; [|split; [|split; [|split; [|split]]]]].
  - unfold GroupItem.get. now rewrite Hgone.
  - unfold GroupMember_of_group. simpl. rewrite Hm1.
    apply filter_filter_nil. intros x Hx Hp.
    apply negb_false_iff, existsb_own_id. apply in_map.
    apply filter_In. now split.
  - unfold group_expenses. simpl. rewrite He1.
    apply filter_filter_nil. intros x Hx Hp.
    apply negb_false_iff, existsb_own_id. apply in_map.
    apply filter_In. now split.
  - intros e He. split.
    + unfold Expense_get. simpl. rewrite He1.
      destruct (find _ (filter _ (expenses db))) as [x|] eqn:Hx;
        [|reflexivity].
      exfalso. apply find_some in Hx. destruct Hx as [Hx1 Hx2].
      apply filter_In in Hx1. destruct Hx1 as [_ Hx1].
      apply Z.eqb_eq in Hx2. apply negb_true_iff in Hx1.
      rewrite Hx2, existsb_own_id in Hx1; [discriminate|].
      now apply in_map.
    + change (shares_of (set_groups ?d ?l) ?i) with (shares_of d i).
      change (shares_of (GroupItem.delete_members ?d ?l) ?i)
        with (shares_of d i).
      change (shares_of (GroupItem.delete_expenses ?d ?l) ?i)
        with (shares_of d i).
      now apply C3.
  - unfold GroupBalances.get. now rewrite Hgone.
  - unfold GroupItem.delete. now rewrite Hgone.
  - simpl. exact Hu1.
Qed.

Lemma delete_group_cascades_witness :
  exists db',
    GroupItem.delete sample_db 1 = Ok db'
    /\ GroupMember_of_group db' 1 = []
    /\ shares_of db' 1 = [].
Proof.
  destruct (GroupItem.delete sample_db 1) as [db'|] eqn:H.
  - exists db'.
    destruct (delete_group_cascades sample_db 1 db' H)
      as (_ & Hm & _ & He & _).
    split; [reflexivity|]. split; [exact Hm|].
    apply (He sample_expense). left. reflexivity.
  - vm_compute in H. discriminate H.
Defined.

Lemma find_appended_group (l : list Group.t) (g : Group.t) (i : Z) :
  ~ In (Group.id g) (map Group.id l) ->
  find (fun x => Group.id x =? i) (l ++ [g])
  = if Group.id g =? i then Some g else find (fun x => Group.id x =? i) l.
Proof.
  induction l as [|x l IH]; simpl; intros Hn.
  - reflexivity.
  - destruct (Z.eqb_spec (Group.id x) i) as [Hx|Hx].
    + destruct (Z.eqb_spec (Group.id g) i); [|reflexivity].
      exfalso. apply Hn. left. congruence.
    + apply IH. tauto.
Qed.

(** A group that [post] returns can be read back under its id, which no
    group had before, next to the groups that were there; its name is the
    stripped one; its creator, when given, is an existing user, and a
    creator id that no user has is answered 400.  Creating a group adds no
    membership: the creator is not made a member. *)
Theorem group_post_then_get :
  (forall now db data db' g,
     GroupsCollection.post now db data = Ok (db', g) ->
     GroupItem.get db' (Group.id g) = Ok g
     /\ Group_get db (Group.id g) = None
     /\ (forall i, i <> Group.id g -> Group_get db' i = Group_get db i)
     /\ Group.name g = strip (GroupCreateSchema.name data)
     /\ Group.created_by_user_id g
        = GroupCreateSchema.created_by_user_id data
     /\ (forall u, Group.created_by_user_id g = Some u ->
           User_get db u <> None)
     /\ group_members db' = group_members db
     /\ expenses db' = expenses db
     /\ expense_shares db' = expense_shares db)
  /\ (forall now db data u,
        GroupCreateSchema.load data = Ok data ->
        GroupCreateSchema.created_by_user_id data = Some u ->
        User_get db u = None ->
        GroupsCollection.post now db data
        = Raise (Abort 400
                   "created_by_user_id does not reference an existing user")).
Proof.
  split.
  - intros now db data db' g H. unfold GroupsCollection.post in H.
    destruct (GroupCreateSchema.load data) as [d|] eqn:Hl;
      [|discriminate H].
    assert (d = data).
    { unfold GroupCreateSchema.load in Hl.
      destruct (validate_Length _ _ _ _ _); simpl in Hl; congruence. }
    subst d. simpl in H.
    assert (Hcr : exists cb,
              (match GroupCreateSchema.created_by_user_id data with
               | Some uid =>
                   match User_get db uid with
                   | Some user => Ok (Some user)
                   | None =>
                       abort 400
                         "created_by_user_id does not reference an existing user"
                   end
               | None => Ok None
               end) = Ok cb
              /\ option_map User.id cb
                 = GroupCreateSchema.created_by_user_id data
              /\ forall u, GroupCreateSchema.created_by_user_id data = Some u
                   -> User_get db u <> None).
    { destruct (GroupCreateSchema.created_by_user_id data) as [uid|].
      - destruct (User_get db uid) as [user|] eqn:Hu; [|discriminate H].
        exists (Some user). split; [reflexivity|]. split.
        + simpl. apply find_some in Hu. destruct Hu as [_ Hu].
          apply Z.eqb_eq in Hu. now rewrite Hu.
        + intros u Hu'. injection Hu' as <-. congruence.
      - exists None. repeat split. discriminate. }
    destruct Hcr as (cb & Hcb & Hid & Hex). rewrite Hcb in H. simpl in H.
    destruct (commit _) as [d|] eqn:Hc; [|discriminate H].
    apply commit_ok in Hc. simpl in H. injection H as <- <-. subst d.
    assert (Hfresh : ~ In (next_id (map Group.id (groups db)))
                          (map Group.id (groups db)))
      by apply next_id_fresh.
    split; [|split; [|split; [|split; [|split; [|split]]]]].
    + unfold GroupItem.get, Group_get. simpl.
      rewrite find_appended_group by assumption. simpl.
      now rewrite Z.eqb_refl.
    + simpl. unfold Group_get.
      destruct (find _ (groups db)) as [x|] eqn:Hx; [|reflexivity].
      apply find_some in Hx. destruct Hx as [Hin Hx].
      apply Z.eqb_eq in Hx. exfalso. apply Hfresh. rewrite <- Hx.
      now apply in_map.
    + intros i Hi. unfold Group_get. simpl.
      rewrite find_appended_group by assumption. simpl in *.
      destruct (Z.eqb_spec (next_id (map Group.id (groups db))) i);
        [congruence | reflexivity].
    + reflexivity.
    + simpl. exact Hid.
    + simpl. rewrite Hid. exact Hex.
    + repeat split.
  - intros now db data u Hl Hu Hn. unfold GroupsCollection.post.
    rewrite Hl. simpl. rewrite Hu, Hn. reflexivity.
Qed.

Lemma group_post_then_get_witness :
  GroupsCollection.post 3 sample_db
    (GroupCreateSchema.mk "Trip" (Some 9))
  = Raise (Abort 400
             "created_by_user_id does not reference an existing user").
Proof.
  apply (proj2 group_post_then_get 3 sample_db _ 9); reflexivity.
Defined.

Lemma strip_all_spaces (s : string) :
  all_spaces s = true -> strip s = EmptyString.
Proof.
  unfold strip. induction s as [|c s IH]; simpl; [reflexivity|].
  intros H. apply andb_prop in H. destruct H as [Hc Hs].
  rewrite Hc. now apply IH.
Qed.

(** The length of a text is checked before it is stripped: a description
    or a group name made only of spaces passes the check and is stored as
    the empty text, by [post] and [patch] of an expense and by [post] of a
    group. *)
Theorem blank_text_is_stored_empty :
  (forall now db data gid db' e,
     GroupExpensesCollection.post now db data gid = Ok (db', e) ->
     all_spaces (ExpenseCreateSchema.description data) = true ->
     Expense.description e = EmptyString)
  /\ (forall db data eid db' e d,
        ExpenseItem.patch db data eid = Ok (db', e) ->
        ExpenseUpdateSchema.description data = Some d ->
        d <> EmptyString ->
        all_spaces d = true ->
        Expense.description e = EmptyString)
  /\ (forall now db data db' g,
        GroupsCollection.post now db data = Ok (db', g) ->
        all_spaces (GroupCreateSchema.name data) = true ->
        Group.name g = EmptyString).
Proof.
  split; [|split].
  - intros now db data gid db' e H Hs.
    pose proof (post_then_get _ _ _ _ _ _ H)
      as (_ & _ & _ & _ & _ & Hd & _).
    rewrite Hd. now apply strip_all_spaces.
  - intros db data eid db' e d H Hd Hne Hs.
    destruct (patch_ok_inv _ _ _ _ _ H) as (Hl & e0 & Hg & Hp).
    rewrite (patch_steps db data eid e0 Hl Hg Hp) in H.
    match type of H with
    | bind ?r _ = _ => destruct r as [db2|]; [|discriminate H]
    end.
    simpl in H. destruct (commit db2); [|discriminate H].
    injection H as _ <-. unfold patched_expense. rewrite Hd.
    assert (He : is_empty d = false) by (destruct d; [congruence|reflexivity]).
    rewrite He, (strip_all_spaces d Hs).
    destruct (ExpenseUpdateSchema.paid_by_user_id data);
      destruct (ExpenseUpdateSchema.expense_date data) as [[t|]|];
      destruct (ExpenseUpdateSchema.amount data); reflexivity.
  - intros now db data db' g H Hs.
    destruct (proj1 group_post_then_get _ _ _ _ _ H)
      as (_ & _ & _ & Hn & _).
    rewrite Hn. now apply strip_all_spaces.
Qed.

Lemma blank_text_is_stored_empty_witness :
  exists db' e,
    GroupExpensesCollection.post 7 sample_db
      (ExpenseCreateSchema.mk "  " (Decimal.mk 900 (-2)) None None None) 1
    = Ok (db', e)
    /\ Expense.description e = EmptyString.
Proof.
  destruct (GroupExpensesCollection.post 7 sample_db
              (ExpenseCreateSchema.mk "  " (Decimal.mk 900 (-2)) None None
                 None) 1) as [[db' e]|] eqn:H.
  - exists db', e. split; [reflexivity|].
    apply (proj1 blank_text_is_stored_empty _ _ _ _ _ _ H). reflexivity.
  - vm_compute in H. discriminate H.
Defined.

(** ** The balances of a group, added up *)

Lemma dict_set_total (m : Z) (d : dict) (k : Z) (v : Decimal.t) :
  m <= 0 ->
  dict_total m (dict_set d k v)
  = dict_total m d - Decimal.coeff_at m (dict_get d k Decimal.zero)
    + Decimal.coeff_at m v.
Proof.
  intros H0. unfold dict_total.
  induction d as [|[k' v'] d IH]; simpl.
  - lia.
  - destruct (k' =? k); simpl; [lia|]. rewrite IH. lia.
Qed.

Lemma dict_set_bound (m : Z) (d : dict) (k : Z) (v : Decimal.t) :
  Forall (fun kv => m <= Decimal.expo (snd kv)) d ->
  m <= Decimal.expo v ->
  Forall (fun kv => m <= Decimal.expo (snd kv)) (dict_set d k v).
Proof.
  intros Hd Hv. induction d as [|[k' v'] d IH]; simpl.
  - constructor; [exact Hv | constructor].
  - inversion Hd as [|? ? Hx Hr]; subst.
    destruct (k' =? k); constructor; auto.
Qed.

Lemma dict_get_bound (m : Z) (d : dict) (k : Z) :
  m <= 0 ->
  Forall (fun kv => m <= Decimal.expo (snd kv)) d ->
  m <= Decimal.expo (dict_get d k Decimal.zero).
Proof.
  intros H0 Hd. induction Hd as [|[k' v'] d Hx _ IH]; simpl.
  - exact H0.
  - destruct (k' =? k); [exact Hx | exact IH].
Qed.

Lemma fold_events_total (m : Z) (evs : list event) (net : dict) :
  m <= 0 ->
  Forall (fun kv => m <= Decimal.expo (snd kv)) net ->
  Forall (fun ev => m <= Decimal.expo (event_amount ev)) evs ->
  dict_total m (fold_left apply_event evs net)
  = dict_total m net + sumZ (map (signed m) evs)
  /\ Forall (fun kv => m <= Decimal.expo (snd kv))
            (fold_left apply_event evs net).
Proof.
  intros H0 Hn He. revert net Hn.
  induction He as [|[[u c] a] evs Ha _ IH]; intros net Hn.
  - simpl. split; [lia | exact Hn].
  - change (fold_left apply_event ((u, c, a) :: evs) net)
      with (fold_left apply_event evs
              (dict_set net u
                 (apply_amount (dict_get net u Decimal.zero) (u, c, a)))).
    change (sumZ (map (signed m) ((u, c, a) :: evs)))
      with (signed m (u, c, a) + sumZ (map (signed m) evs)).
    unfold event_amount in Ha. simpl in Ha.
    pose proof (dict_get_bound m net u H0 Hn) as Hg.
    assert (Hv : Decimal.coeff_at m
                   (apply_amount (dict_get net u Decimal.zero) (u, c, a))
                 = Decimal.coeff_at m (dict_get net u Decimal.zero)
                   + signed m (u, c, a)
                 /\ m <= Decimal.expo
                           (apply_amount (dict_get net u Decimal.zero)
                              (u, c, a))).
    { simpl. destruct c.
      - apply coeff_at_add; assumption.
      - destruct (coeff_at_sub m _ a Hg Ha) as [E1 E2].
        split; [rewrite E1; lia | exact E2]. }
    destruct Hv as [Hv1 Hv2].
    destruct (IH (dict_set net u
                    (apply_amount (dict_get net u Decimal.zero) (u, c, a))))
      as [E1 E2].
    { now apply dict_set_bound. }
    split; [|exact E2].
    rewrite E1, dict_set_total, Hv1 by assumption. lia.
Qed.

Lemma events_total (m : Z) (db : DB) (exps : list Expense.t) :
  m <= 0 ->
  Forall (fun e => m <= Decimal.expo (Expense.amount e)) exps ->
  Forall (fun sh => m <= Decimal.expo (ExpenseShare.amount sh))
         (expense_shares db) ->
  sumZ (map (signed m) (expense_events db exps))
  = sumZ (map (Decimal.coeff_at m) (credited_amounts exps))
    - sumZ (map (Decimal.coeff_at m) (debited_amounts db exps))
  /\ Forall (fun ev => m <= Decimal.expo (event_amount ev))
            (expense_events db exps).
Proof.
  intros H0 He Hs.
  assert (Hshares : forall l,
            Forall (fun sh => m <= Decimal.expo (ExpenseShare.amount sh)) l ->
            sumZ (map (signed m) (share_events l))
            = - sumZ (map (Decimal.coeff_at m)
                        (map ExpenseShare.amount
                           (filter (fun sh => negb (ExpenseShare.is_settled sh))
                                   l)))
            /\ Forall (fun ev => m <= Decimal.expo (event_amount ev))
                      (share_events l)).
  { intros l Hl. unfold share_events.
    induction Hl as [|sh l Hsh _ [IH1 IH2]]; simpl.
    - split; [reflexivity | constructor].
    - destruct (ExpenseShare.is_settled sh); simpl; [now split|].
      destruct (coeff_at_or_zero m _ H0 Hsh) as [E1 E2].
      split; [rewrite IH1, E1; lia | constructor; assumption]. }
  unfold credited_amounts, debited_amounts.
  induction He as [|e exps Hb _ [IH1 IH2]].
  - simpl. split; [reflexivity | constructor].
  - assert (Hsh : Forall (fun sh => m <= Decimal.expo
                                           (ExpenseShare.amount sh))
                         (shares_of db (Expense.id e)))
      by (apply Forall_filter_in; exact Hs).
    destruct (Hshares _ Hsh) as [S1 S2].
    destruct (coeff_at_or_zero m _ H0 Hb) as [E1 E2].
    change (expense_events db (e :: exps))
      with ((payer_events e ++ share_events (shares_of db (Expense.id e)))
            ++ expense_events db exps).
    cbn [flat_map filter]. rewrite !map_app, !sumZ_app, S1, IH1.
    unfold payer_events, has_payer.
    destruct (Expense.paid_by_user_id e) as [p|].
    + destruct (p =? 0); simpl.
      * split; [lia|]. apply Forall_app. split; assumption.
      * split; [lia|]. constructor; [exact E2|].
        apply Forall_app. split; assumption.
    + simpl. split; [lia|]. apply Forall_app. split; assumption.
Qed.

Lemma eqb_by_value (m : Z) (a b : Decimal.t) :
  m <= Decimal.expo a -> m <= Decimal.expo b ->
  (Decimal.coeff_at m a = Decimal.coeff_at m b
   <-> Decimal.eqb a b = true).
Proof.
  intros Ha Hb. unfold Decimal.eqb, Decimal.compare.
  set (u := Z.min (Decimal.expo a) (Decimal.expo b)).
  assert (Hu : m <= u /\ u <= Decimal.expo a /\ u <= Decimal.expo b)
    by (subst u; lia).
  assert (Hp : 0 < 10 ^ (u - m)) by (apply pow10_pos; lia).
  assert (Hca : Decimal.coeff_at m a
                = Decimal.coeff_at u a * 10 ^ (u - m)).
  { unfold Decimal.coeff_at. rewrite <- Z.mul_assoc, pow10_split by lia.
    reflexivity. }
  assert (Hcb : Decimal.coeff_at m b
                = Decimal.coeff_at u b * 10 ^ (u - m)).
  { unfold Decimal.coeff_at. rewrite <- Z.mul_assoc, pow10_split by lia.
    reflexivity. }
  rewrite Hca, Hcb.
  destruct (Z.compare_spec (Decimal.coeff_at u a) (Decimal.coeff_at u b));
    split; intros E; try reflexivity; try discriminate; nia.
Qed.


Lemma entries_total (db : DB) (net : dict) :
  Forall (fun kv => -2 <= Decimal.expo (snd kv)) net ->
  sumZ (map (Decimal.coeff_at (-2))
          (map snd (map (GroupBalances.entry db) net)))
  = dict_total (-2) net
  /\ Forall (fun d => -2 <= Decimal.expo d)
            (map snd (map (GroupBalances.entry db) net)).
Proof.
  intros Hn. unfold dict_total.
  induction Hn as [|[k v] net Hv _ [IH1 IH2]].
  - split; [reflexivity | constructor].
  - cbn [map GroupBalances.entry snd sumZ fold_right] in *.
    fold (sumZ (map (Decimal.coeff_at (-2))
                  (map snd (map (GroupBalances.entry db) net)))).
    fold (sumZ (map (fun kv => Decimal.coeff_at (-2) (snd kv)) net)).
    rewrite IH1. split.
    + f_equal. unfold Decimal.quantize, two_places, Decimal.cent.
      cbn [Decimal.expo]. destruct (Z.leb_spec (-2) (Decimal.expo v));
        [|lia].
      unfold Decimal.coeff_at at 1. cbn [Decimal.coeff Decimal.expo].
      rewrite Z.sub_diag. change (10 ^ 0) with 1. lia.
    + constructor; [|exact IH2]. rewrite quantize_expo.
      unfold two_places, Decimal.cent. cbn [Decimal.expo]. lia.
Qed.

Lemma debited_bound (m : Z) (db : DB) (exps : list Expense.t) :
  Forall (fun sh => m <= Decimal.expo (ExpenseShare.amount sh))
         (expense_shares db) ->
  Forall (fun d => m <= Decimal.expo d) (debited_amounts db exps).
Proof.
  intros Hs. apply Forall_forall. intros d Hd.
  unfold debited_amounts in Hd. apply in_flat_map in Hd.
  destruct Hd as [e [_ Hd]]. apply in_map_iff in Hd.
  destruct Hd as [sh [<- Hsh]]. apply filter_In in Hsh.
  destruct Hsh as [Hsh _]. apply filter_In in Hsh. destruct Hsh as [Hsh _].
  rewrite Forall_forall in Hs. now apply Hs.
Qed.

Lemma credited_bound (m : Z) (exps : list Expense.t) :
  Forall (fun e => m <= Decimal.expo (Expense.amount e)) exps ->
  Forall (fun d => m <= Decimal.expo d) (credited_amounts exps).
Proof.
  intros He. apply Forall_forall. intros d Hd.
  unfold credited_amounts in Hd. apply in_map_iff in Hd.
  destruct Hd as [e [<- Hin]]. apply filter_In in Hin.
  destruct Hin as [Hin _]. rewrite Forall_forall in He. now apply He.
Qed.

(** With a payer on every expense, no share settled and the shares of
    every expense adding up to its amount, credits and debits cancel. *)
Lemma credits_equal_debits (m : Z) (db : DB) (exps : list Expense.t) :
  m <= 0 ->
  Forall (fun e => m <= Decimal.expo (Expense.amount e)) exps ->
  Forall (fun sh => m <= Decimal.expo (ExpenseShare.amount sh))
         (expense_shares db) ->
  (forall e, In e exps ->
     has_payer e = true
     /\ shares_sum_to_amount db e
     /\ forall sh, In sh (shares_of db (Expense.id e)) ->
                   ExpenseShare.is_settled sh = false) ->
  sumZ (map (Decimal.coeff_at m) (credited_amounts exps))
  = sumZ (map (Decimal.coeff_at m) (debited_amounts db exps)).
Proof.
  intros H0 He Hs Hall. unfold credited_amounts, debited_amounts.
  induction He as [|e exps Hb _ IH]; [reflexivity|].
  destruct (Hall e (or_introl eq_refl)) as [Hp [Hsum Hopen]].
  cbn [filter flat_map]. rewrite Hp. cbn [map sumZ fold_right].
  fold (sumZ (map (Decimal.coeff_at m)
                (map Expense.amount (filter has_payer exps)))).
  rewrite map_app, sumZ_app, IH
    by (intros e' He'; apply Hall; now right).
  f_equal.
  assert (Hf : filter (fun sh => negb (ExpenseShare.is_settled sh))
                 (shares_of db (Expense.id e))
               = shares_of db (Expense.id e)).
  { apply forallb_filter_id. apply forallb_forall. intros sh Hsh.
    now rewrite (Hopen sh Hsh). }
  rewrite Hf.
  assert (Hbs : Forall (fun d => m <= Decimal.expo d)
                  (map ExpenseShare.amount (shares_of db (Expense.id e)))).
  { apply Forall_forall. intros d Hd. apply in_map_iff in Hd.
    destruct Hd as [sh [<- Hsh]]. apply filter_In in Hsh.
    destruct Hsh as [Hsh _]. rewrite Forall_forall in Hs. now apply Hs. }
  destruct (sum_value m _ H0 Hbs) as [E1 E2]. rewrite <- E1.
  symmetry. apply (eqb_by_value m); assumption.
Qed.

(** The balances of a group, added up.  When every amount in the
    tables has at most two fraction digits, the balances [GroupBalances.get]
    returns add up to the amounts of the group's expenses that have a
    payer, minus the amounts of the unsettled shares of the group's
    expenses.  If moreover every expense of the group has a payer, none of
    its shares is settled and its shares add up to its amount, the
    balances add up to zero. *)
Theorem balances_add_up (db : DB) (gid : Z) :
  Group_get db gid <> None ->
  Forall (fun e => -2 <= Decimal.expo (Expense.amount e)) (expenses db) ->
  Forall (fun sh => -2 <= Decimal.expo (ExpenseShare.amount sh))
         (expense_shares db) ->
  exists balances,
    GroupBalances.get db gid = Ok (gid, balances)
    /\ Decimal.eqb
         (Decimal.sum (map snd balances))
         (Decimal.sub
            (Decimal.sum (credited_amounts (group_expenses db gid)))
            (Decimal.sum (debited_amounts db (group_expenses db gid))))
       = true
    /\ ((forall e, In e (group_expenses db gid) ->
           has_payer e = true
           /\ shares_sum_to_amount db e
           /\ forall sh, In sh (shares_of db (Expense.id e)) ->
                         ExpenseShare.is_settled sh = false) ->
        Decimal.eqb (Decimal.sum (map snd balances)) Decimal.zero = true).
Proof.
  intros Hg He Hs. unfold GroupBalances.get.
  destruct (Group_get db gid) as [g|]; [|congruence].
  fold (group_expenses db gid).
  set (exps := group_expenses db gid).
  assert (Hexps : Forall (fun e => -2 <= Decimal.expo (Expense.amount e))
                         exps)
    by (apply Forall_filter_in; exact He).
  assert (H0 : -2 <= 0) by lia.
  eexists. split; [reflexivity|].
  rewrite accumulate_events.
  destruct (events_total (-2) db exps H0 Hexps Hs) as [Ev1 Ev2].
  destruct (fold_events_total (-2) (expense_events db exps) [] H0
              (Forall_nil _) Ev2) as [F1 F2].
  destruct (entries_total db _ F2) as [En1 En2].
  destruct (sum_value (-2) _ H0 En2) as [L1 L2].
  pose proof (credited_bound (-2) exps Hexps) as Hc.
  pose proof (debited_bound (-2) db exps Hs) as Hd.
  destruct (sum_value (-2) _ H0 Hc) as [C1 C2].
  destruct (sum_value (-2) _ H0 Hd) as [D1 D2].
  destruct (coeff_at_sub (-2) _ _ C2 D2) as [R1 R2].
  assert (Htotal : Decimal.coeff_at (-2)
                     (Decimal.sum
                        (map snd
                           (map (GroupBalances.entry db)
                              (fold_left apply_event
                                 (expense_events db exps) []))))
                   = sumZ (map (Decimal.coeff_at (-2))
                             (credited_amounts exps))
                     - sumZ (map (Decimal.coeff_at (-2))
                               (debited_amounts db exps))).
  { rewrite L1, En1, F1, Ev1. unfold dict_total. simpl. lia. }
  split.
  - apply (eqb_by_value (-2)); [exact L2 | exact R2|].
    rewrite Htotal, R1, C1, D1. reflexivity.
  - intros Hall.
    apply (eqb_by_value (-2)); [exact L2 | simpl; lia|].
    rewrite Htotal, (credits_equal_debits (-2) db exps H0 Hexps Hs Hall).
    unfold Decimal.coeff_at, Decimal.zero. simpl. lia.
Qed.


Lemma balances_add_up_witness :
  exists balances,
    GroupBalances.get unsettled_db 1 = Ok (1, balances)
    /\ Decimal.eqb (Decimal.sum (map snd balances)) Decimal.zero = true.
Proof.
  destruct (balances_add_up unsettled_db 1) as [b [H1 [_ H3]]].
  - vm_compute. discriminate.
  - repeat constructor. vm_compute. discriminate.
  - repeat constructor; vm_compute; discriminate.
  - exists b. split; [exact H1|]. apply H3. intros e He.
    vm_compute in He. destruct He as [<-|[]].
    split; [reflexivity|]. split; [reflexivity|].
    intros sh Hsh. vm_compute in Hsh.
    destruct Hsh as [<-|[<-|[<-|[]]]]; reflexivity.
Defined.

(** ** One entry per user *)

Lemma dict_set_keys (d : dict) (k : Z) (v : Decimal.t) :
  map fst (dict_set d k v)
  = match dict_find d k with
    | Some _ => map fst d
    | None => map fst d ++ [k]
    end.
Proof.
  induction d as [|[k' v'] d IH]; simpl; [reflexivity|].
  destruct (k' =? k); simpl; [reflexivity|].
  rewrite IH. destruct (dict_find d k); reflexivity.
Qed.

Lemma dict_find_absent (d : dict) (k : Z) :
  dict_find d k = None -> ~ In k (map fst d).
Proof.
  induction d as [|[k' v'] d IH]; simpl; [tauto|].
  destruct (Z.eqb_spec k' k) as [E|E]; [discriminate|].
  intros H [H'|H']; [contradiction | now apply IH].
Qed.

Lemma dict_keys_once (evs : list event) (net : dict) :
  NoDup (map fst net) ->
  NoDup (map fst (fold_left apply_event evs net)).
Proof.
  revert net. induction evs as [|[[u c] a] evs IH]; intros net Hn;
    [exact Hn|].
  change (fold_left apply_event ((u, c, a) :: evs) net)
    with (fold_left apply_event evs
            (dict_set net u
               (apply_amount (dict_get net u Decimal.zero) (u, c, a)))).
  apply IH. rewrite dict_set_keys.
  destruct (dict_find net u) eqn:Hf; [exact Hn|].
  apply dict_find_absent in Hf. clear IH.
  induction net as [|[k v] net IHn]; simpl in *.
  - constructor; [tauto | constructor].
  - inversion Hn as [|? ? Hk Hr]; subst. constructor.
    + rewrite in_app_iff. simpl. intuition congruence.
    + apply IHn; tauto.
Qed.

Lemma entry_ids (db : DB) (net : dict) :
  balance_ids (map (GroupBalances.entry db) net) = map fst net.
Proof.
  unfold balance_ids. rewrite map_map. apply map_ext.
  intros [k v]. simpl.
  destruct (User_get db k) as [u|] eqn:Hu; [|reflexivity].
  apply find_some in Hu. destruct Hu as [_ Hu].
  apply Z.eqb_eq in Hu. exact Hu.
Qed.

(** The response of [GroupBalances.get] lists no user twice, and every
    balance in it has exactly two fraction digits. *)
Theorem balances_one_entry_per_user (db : DB) (gid : Z)
    (balances : list (user_json * Decimal.t)) :
  GroupBalances.get db gid = Ok (gid, balances) ->
  NoDup (balance_ids balances)
  /\ Forall (fun en => Decimal.expo (snd en) = -2) balances.
Proof.
  unfold GroupBalances.get.
  destruct (Group_get db gid) as [g|]; [|discriminate].
  intros H. injection H as <-. split.
  - rewrite entry_ids, accumulate_events. apply dict_keys_once.
    constructor.
  - apply Forall_forall. intros en Hen. apply in_map_iff in Hen.
    destruct Hen as [[k v] [<- _]]. simpl. apply quantize_expo.
Qed.

Lemma balances_one_entry_per_user_witness :
  exists balances,
    GroupBalances.get sample_db 1 = Ok (1, balances)
    /\ NoDup (balance_ids balances)
    /\ Forall (fun en => Decimal.expo (snd en) = -2) balances.
Proof.
  eexists. split; [reflexivity|].
  apply (balances_one_entry_per_user sample_db 1). reflexivity.
Defined.
